(** * CountDown storefront timer engine: shallow embedding and checked properties

    The development follows [extensions/countdown-timer-block/assets/timer.js]
    (the client-side engine): the storage helpers, the timer handlers
    (evergreen, recurring, cart, shipping), the registry and the render loop
    of [TimerEngine], the closed-timer bookkeeping, the analytics sender, the
    page-pattern matcher and the filters of the bootstrap.

    Conventions of the embedding.
    - Epoch milliseconds, minutes and retry counters are integers ([Z]/[nat]).
      A JavaScript value that is [null], [undefined] or [NaN] where a number
      is expected is [None]; all three are falsy and take the same branches.
    - Quotients and currency amounts are exact rationals ([Q]); the rounding
      error of IEEE doubles is outside the model.
    - [Date.now()] is an explicit argument [now]; one synchronous method call
      sees one clock reading.
    - [localStorage] and [sessionStorage] are finite maps from keys to the
      values this script serialises, with an access mode telling whether the
      browser lets the script read and write them. *)

From Stdlib Require Import ZArith QArith Qround Lqa Lia Bool List.
From Stdlib Require Import Strings.String Strings.Ascii Numbers.DecimalString.
From Stdlib Require Import DecimalFacts DecimalN.
From stdpp Require Import gmap strings list fin_maps.

Local Open Scope Z_scope.

(** ** JavaScript number helpers *)

Module Js.

(** [a / b] on numbers, exact. *)
Definition div (a b : Q) : Q := (a / b)%Q.

(** Truncation toward zero, as used by the [%] operator. *)
Definition trunc (q : Q) : Z :=
  if Qle_bool 0 q then Qfloor q else Qceiling q.

(** [a % m]: the remainder takes the sign of the dividend. *)
Definition rem (a m : Q) : Q := (a - m * inject_Z (trunc (a / m)))%Q.

(** [Math.floor]. *)
Definition Math_floor (q : Q) : Z := Qfloor q.

(** Truthiness of a number-or-null value: [null], [NaN] and [0] are falsy. *)
Definition truthyZ (v : option Z) : bool :=
  match v with
  | None => false
  | Some z => negb (z =? 0)
  end.

Definition truthyQ (v : option Q) : bool :=
  match v with
  | None => false
  | Some q => negb (Qeq_bool q 0)
  end.

End Js.

(** ** Base handler: [TimerHandler] *)

Record TimeRemaining := mkRemaining {
  total : Z;
  days : Z;
  hours : Z;
  minutes : Z;
  seconds : Z }.

Definition zeroRemaining : TimeRemaining := mkRemaining 0 0 0 0 0.

Module TimerHandler.

(** [getTimeRemaining()], with [this.endTime] and [Date.now()] as arguments. *)
Definition getTimeRemaining (endTime : option Z) (now : Z) : option TimeRemaining :=
  if negb (Js.truthyZ endTime) then None
  else
    match endTime with
    | None => None
    | Some e =>
      let total := e - now in
      if total <=? 0 then Some (mkRemaining 0 0 0 0 0)
      else
        let t := inject_Z total in
        Some {| total := total;
                days := Js.Math_floor (Js.div t (inject_Z (1000 * 60 * 60 * 24)));
                hours := Js.Math_floor (Js.rem (Js.div t (inject_Z (1000 * 60 * 60))) 24);
                minutes := Js.Math_floor (Js.rem (Js.div t (inject_Z (1000 * 60))) 60);
                seconds := Js.Math_floor (Js.rem (Js.div t (inject_Z 1000)) 60) |}
    end.

(** [isActive()] of the base class: [remaining && remaining.total > 0]. *)
Definition isActive (endTime : option Z) (now : Z) : bool :=
  match getTimeRemaining endTime now with
  | None => false
  | Some r => 0 <? total r
  end.

End TimerHandler.

(** ** String helpers of the host language *)

Module Str.

(** [s.startsWith(p)]. *)
Definition startsWith (s p : string) : bool := String.prefix p s.

(** [s.endsWith(suffix)]. *)
Definition endsWith (s suffix : string) : bool :=
  let n := String.length s in
  let m := String.length suffix in
  (m <=? n)%nat && String.eqb (substring (n - m) m s) suffix.

(** [s.slice(0, -1)]: the string without its last character. *)
Definition slice_0_m1 (s : string) : string :=
  substring 0 (String.length s - 1) s.

(** [s.split(':')]. *)
Fixpoint split_colon_go (cur : string) (s : string) : list string :=
  match s with
  | EmptyString => [cur]
  | String c rest =>
    if Ascii.eqb c ":"%char then cur :: split_colon_go EmptyString rest
    else split_colon_go (cur +:+ String c EmptyString) rest
  end.

Definition split_colon (s : string) : list string := split_colon_go EmptyString s.

Definition digit_value (c : ascii) : option Z :=
  let n := Z.of_nat (nat_of_ascii c) in
  if (48 <=? n) && (n <=? 57) then Some (n - 48) else None.

Fixpoint digits_value (acc : Z) (s : string) : option Z :=
  match s with
  | EmptyString => Some acc
  | String c rest =>
    match digit_value c with
    | Some d => digits_value (acc * 10 + d) rest
    | None => None
    end
  end.

(** [Number(s)] on the fields of a time text.  The empty text is [0] and a
    run of decimal digits is its value, as in the host.  Every other text
    is [NaN] ([None]) here: the host agrees on every text that holds a
    character of no numeric literal, and differs on texts with surrounding
    blanks, a sign, a fraction, an exponent, a radix prefix or "Infinity",
    which it reads as numbers.  Statements about fields that do not parse
    are therefore stated for texts on which both agree (see [plainTime]
    and [nanTime]). *)
Definition Number (s : string) : option Z := digits_value 0 s.

Definition is_digit (c : ascii) : bool :=
  match digit_value c with Some _ => true | None => false end.

Fixpoint all_digits (s : string) : bool :=
  match s with
  | EmptyString => true
  | String c rest => is_digit c && all_digits rest
  end.

(** Decimal digits of a natural number, as [Number.prototype.toString]
    prints an integer. *)
Definition decimal (n : N) : string := NilEmpty.string_of_uint (N.to_uint n).

Fixpoint zeros (k : nat) : string :=
  match k with
  | O => EmptyString
  | S k' => String "0"%char (zeros k')
  end.

(** [x.toFixed(2)].  Let [n] be the integer nearest to [x * 100], the
    larger one on a tie; print [n] with at least three digits and put the
    point before the last two.  From [10^21] on the host switches to
    exponent notation, which is not modelled ([None]). *)
Definition toFixed2 (x : Q) : option string :=
  let sign := if Qle_bool 0 x then EmptyString else "-"%string in
  let ax := if Qle_bool 0 x then x else Qopp x in
  if Qle_bool (inject_Z (10 ^ 21)) ax then None
  else
    let n := Qfloor (ax * inject_Z 100 + (1 # 2))%Q in
    let m := decimal (Z.to_N n) in
    let k := String.length m in
    let m' := if (k <=? 2)%nat then zeros (3 - k) +:+ m else m in
    let k' := String.length m' in
    Some (sign +:+ substring 0 (k' - 2) m' +:+ "." +:+ substring (k' - 2) 2 m').

End Str.

(** ** Browser storage *)

(** Whether the browser lets the script use a storage area: it works, or
    [setItem] throws (quota of zero, as in some private-browsing modes), or
    every access throws (storage disabled). *)
Inductive AccessMode := Working | ReadOnly | Blocked.

#[global] Instance AccessMode_eq_dec : EqDecision AccessMode.
Proof. solve_decision. Defined.

(** The values the script serialises with [JSON.stringify], and [VRaw] for
    text that [JSON.parse] rejects (or the empty string). *)
Inductive StoredValue :=
| VBool (b : bool)
| VCycle (startTime : Z) (resetAt : option Z)
| VClosed (entries : gmap string Z)
| VRaw (text : string).

Record Storage := mkStorage {
  items : gmap string StoredValue;
  mode : AccessMode }.

(** [safeGetStorage] / [safeGetSession]: [None] stands for the caller's
    [defaultValue], returned when the key is absent, when the text does not
    parse, and when the access throws. *)
Definition safeGet (st : Storage) (key : string) : option StoredValue :=
  match mode st with
  | Blocked => None
  | Working | ReadOnly =>
    match items st !! key with
    | None => None
    | Some (VRaw _) => None
    | Some v => Some v
    end
  end.

(** [safeSetStorage] / [safeSetSession]: the new store and the returned flag. *)
Definition safeSet (st : Storage) (key : string) (v : StoredValue) : Storage * bool :=
  match mode st with
  | Working => (mkStorage (<[key := v]> (items st)) (mode st), true)
  | ReadOnly | Blocked => (st, false)
  end.

Definition safeGetStorage := safeGet.
Definition safeSetStorage := safeSet.
Definition safeGetSession := safeGet.
Definition safeSetSession := safeSet.

(** Truthiness of a parsed value: objects are truthy, [false] is not. *)
Definition truthyValue (v : option StoredValue) : bool :=
  match v with
  | None => false
  | Some (VBool b) => b
  | Some _ => true
  end.

Module STORAGE_KEYS.
Definition CLOSED : string := "countdown_timer_closed".
Definition IMPRESSIONS : string := "countdown_timer_impressions".
Definition EVERGREEN_PREFIX : string := "countdown_evergreen_".
Definition CART_PREFIX : string := "countdown_cart_".
End STORAGE_KEYS.

(** ** Timer configuration, as [extractTimerData] reads it *)

(** A list-valued attribute holding JSON text: absent, unparsable, or parsed. *)
Inductive JsonAttr (A : Type) :=
| AttrMissing
| AttrInvalid
| AttrList (l : list A).
Arguments AttrMissing {A}.
Arguments AttrInvalid {A}.
Arguments AttrList {A} l.

Record Timer := mkTimer {
  id : string;                         (* the empty string when the attribute is absent *)
  evergreenDuration : option Z;
  evergreenResetDelay : option Z;
  dailyStartTime : option string;
  dailyEndTime : option string;
  recurringDays : JsonAttr Z;
  cartThreshold : option Q;
  cartTimerDuration : option Z;
  showOnAllPages : bool;
  targetPages : JsonAttr string;
  excludePages : JsonAttr string }.

(** The wall clock as the handlers sample it: [Date.now()] and the weekday,
    hour and minute that [Intl.DateTimeFormat] reports for the timer's zone. *)
Record Clock := mkClock {
  now : Z;
  dayOfWeek : Z;
  hour : Z;
  minute : Z }.

(** [parseTimeToMinutes]; [None] is [NaN]. *)
Definition parseTimeToMinutes (timeStr : option string) : option Z :=
  match timeStr with
  | None => Some 0
  | Some EmptyString => Some 0
  | Some s =>
    match Str.split_colon s with
    | h :: m :: _ =>
      match Str.Number h, Str.Number m with
      | Some hours, Some minutes => Some (hours * 60 + minutes)
      | _, _ => None
      end
    | _ => None
    end
  end.

(** Comparisons of numbers where an operand may be [NaN]: then they are false. *)
Definition num_lt (a b : option Z) : bool :=
  match a, b with
  | Some x, Some y => x <? y
  | _, _ => false
  end.

Definition num_ge (a b : option Z) : bool :=
  match a, b with
  | Some x, Some y => y <=? x
  | _, _ => false
  end.

Definition num_add (a b : option Z) : option Z :=
  match a, b with
  | Some x, Some y => Some (x + y)
  | _, _ => None
  end.

Definition num_sub (a b : option Z) : option Z :=
  match a, b with
  | Some x, Some y => Some (x - y)
  | _, _ => None
  end.

(** ** Evergreen handler *)

Module EvergreenTimerHandler.

(** The key computed by the constructor; the visitor id is the persisted
    random identifier returned by [getVisitorId]. *)
Definition storageKey (t : Timer) (visitorId : string) : string :=
  STORAGE_KEYS.EVERGREEN_PREFIX +:+ id t +:+ "_" +:+ visitorId.

(** [setNewStartTime(startTime)]; its callers have checked that the duration
    is a non-zero number. *)
Definition setNewStartTime (t : Timer) (key : string) (ls : Storage) (startTime : Z)
  : option Z * Storage :=
  let endTime := num_add (Some startTime)
                   (match evergreenDuration t with
                    | Some d => Some (d * 60 * 1000)
                    | None => None
                    end) in
  (endTime, fst (safeSetStorage ls key (VCycle startTime None))).

(** [calculateEndTime()]: the end-timestamp and the durable store after the call. *)
Definition calculateEndTime (t : Timer) (key : string) (ls : Storage) (now : Z)
  : option Z * Storage :=
  if negb (Js.truthyZ (evergreenDuration t)) then (None, ls)
  else
    match evergreenDuration t with
    | None => (None, ls)
    | Some d =>
      let stored := safeGetStorage ls key in
      if truthyValue stored then
        match stored with
        | Some (VCycle startTime resetAt) =>
          if Js.truthyZ resetAt && num_ge (Some now) resetAt
          then setNewStartTime t key ls now
          else
            let endTime := startTime + d * 60 * 1000 in
            if endTime <=? now then
              let resetDelay :=
                (if Js.truthyZ (evergreenResetDelay t)
                 then default 0 (evergreenResetDelay t) else 0) * 60 * 1000 in
              if 0 <? resetDelay then
                let resetAt' := endTime + resetDelay in
                let ls' := fst (safeSetStorage ls key (VCycle startTime (Some resetAt'))) in
                if now <? resetAt' then (None, ls')
                else setNewStartTime t key ls' now
              else setNewStartTime t key ls now
            else (Some endTime, ls)
        | _ =>
          (* a stored value without [startTime]: the sum is [NaN], no
             comparison with it holds, and [NaN] is returned *)
          (None, ls)
        end
      else setNewStartTime t key ls now
    end.

(** [initialize()]: the handler's [endTime] and the store. *)
Definition initialize (t : Timer) (key : string) (ls : Storage) (now : Z)
  : option Z * Storage :=
  calculateEndTime t key ls now.

(** [isActive()]: recompute [endTime], then the base check.  The result is
    the verdict, the handler's new [endTime], and the store. *)
Definition isActive (t : Timer) (key : string) (ls : Storage) (now : Z)
  : bool * option Z * Storage :=
  let '(endTime, ls') := calculateEndTime t key ls now in
  (TimerHandler.isActive endTime now, endTime, ls').

End EvergreenTimerHandler.

(** ** Recurring (daily) handler *)

Module RecurringTimerHandler.

Definition parseRecurringDays (t : Timer) : list Z :=
  match recurringDays t with
  | AttrList l => l
  | AttrMissing | AttrInvalid => [0; 1; 2; 3; 4; 5; 6]
  end.

Definition includes (l : list Z) (x : Z) : bool := existsb (Z.eqb x) l.

(** The locals [isInWindow] and [minutesUntilEnd] after the window test. *)
Definition windowState (startMinutes endMinutes : option Z) (currentMinutes : Z)
  : bool * option Z :=
  let cur := Some currentMinutes in
  let isOvernight := num_lt endMinutes startMinutes in
  if isOvernight then
    if num_ge cur startMinutes || num_lt cur endMinutes then
      (true,
       if num_ge cur startMinutes
       then num_add (Some (24 * 60 - currentMinutes)) endMinutes
       else num_sub endMinutes cur)
    else (false, Some 0)
  else
    if num_ge cur startMinutes && num_lt cur endMinutes
    then (true, num_sub endMinutes cur)
    else (false, Some 0).

Definition calculateEndTime (t : Timer) (c : Clock) : option Z :=
  let currentDay := dayOfWeek c in
  let currentMinutes := hour c * 60 + minute c in
  if negb (includes (parseRecurringDays t) currentDay) then None
  else
    let startMinutes := parseTimeToMinutes (dailyStartTime t) in
    let endMinutes := parseTimeToMinutes (dailyEndTime t) in
    let '(isInWindow, minutesUntilEnd) :=
      windowState startMinutes endMinutes currentMinutes in
    if negb isInWindow then None
    else num_add (Some (now c))
           (match minutesUntilEnd with
            | Some m => Some (m * 60 * 1000)
            | None => None
            end).

(** [isActive()]: [updateEndTime()] then the base check. *)
Definition isActive (t : Timer) (c : Clock) : bool :=
  TimerHandler.isActive (calculateEndTime t c) (now c).

End RecurringTimerHandler.

(** ** Cart handler *)

(** What the page exposes to [isCartPage]: [window.location.pathname] and
    [window.Shopify.routes.cartUrl] when the platform provides it. *)
Record Page := mkPage {
  pathname : string;
  cartUrl : option string }.

Definition isCartPage (p : Page) : bool :=
  if String.eqb (pathname p) "/cart" || Str.endsWith (pathname p) "/cart" then true
  else
    match cartUrl p with
    | Some u => if String.eqb u "" then false else String.eqb (pathname p) u
    | None => false
    end.

(** A handler's optional display text.  [MessageExponent] stands for a text
    whose amount the host prints in exponent notation (see [Str.toFixed2]). *)
Inductive Display :=
| NoMessage
| Message (text : string)
| MessageExponent.

Module CartTimerHandler.

Record State := mkState {
  endTime : option Z;
  cartTotal : Q }.

Definition storageKey (t : Timer) : string := STORAGE_KEYS.CART_PREFIX +:+ id t.

(** [this.timer.cartThreshold && this.cartTotal < this.timer.cartThreshold]. *)
Definition belowThreshold (t : Timer) (h : State) : bool :=
  match cartThreshold t with
  | Some th => Js.truthyQ (Some th) && negb (Qle_bool th (cartTotal h))
  | None => false
  end.

Definition calculateEndTime (t : Timer) (p : Page) (ss : Storage) (now : Z)
  : option Z * Storage :=
  if negb (isCartPage p) then (None, ss)
  else
    let duration :=
      if Js.truthyZ (cartTimerDuration t) then default 0 (cartTimerDuration t)
      else if Js.truthyZ (evergreenDuration t) then default 0 (evergreenDuration t)
      else 15 in
    let reuse :=
      match safeGetSession ss (storageKey t) with
      | Some (VCycle startTime _) =>
        if negb (startTime =? 0) && (now <? startTime + duration * 60 * 1000)
        then Some (startTime + duration * 60 * 1000) else None
      | _ => None
      end in
    match reuse with
    | Some endTime => (Some endTime, ss)
    | None =>
      (Some (now + duration * 60 * 1000),
       fst (safeSetSession ss (storageKey t) (VCycle now None)))
    end.

(** [initialize()]; [fetched] is the cents total answered by [/cart.js], or
    [None] when the fetch fails (then the total is [0]). *)
Definition initialize (t : Timer) (p : Page) (fetched : option Z) (ss : Storage) (now : Z)
  : State * Storage :=
  if negb (isCartPage p) then (mkState None 0, ss)
  else
    let total := match fetched with
                 | Some cents => (inject_Z cents / inject_Z 100)%Q
                 | None => 0%Q
                 end in
    let h := mkState None total in
    if belowThreshold t h then (h, ss)
    else
      let '(e, ss') := calculateEndTime t p ss now in
      (mkState e total, ss').

Definition isActive (t : Timer) (p : Page) (h : State) (now : Z) : bool :=
  if negb (isCartPage p) then false
  else if belowThreshold t h then false
  else TimerHandler.isActive (endTime h) now.

Definition getDisplayMessage (t : Timer) (h : State) : Display :=
  if belowThreshold t h then
    let remaining := (default 0%Q (cartThreshold t) - cartTotal h)%Q in
    match Str.toFixed2 remaining with
    | Some amount => Message ("Add $" +:+ amount +:+ " more to qualify!")
    | None => MessageExponent
    end
  else NoMessage.

End CartTimerHandler.

(** ** Render loop of [TimerEngine] *)

Module TimerEngine.

(** [lastUpdateTime], and the frame timestamps at which [updateAllDisplays]
    has run so far, oldest first. *)
Record State := mkState {
  lastUpdateTime : Q;
  displayUpdates : list Q }.

(** The state set up by the constructor. *)
Definition init : State := mkState 0 [].

(** The frame callback [update] of [startCountdown]. *)
Definition update (e : State) (timestamp : Q) : State :=
  if Qle_bool 1000 (timestamp - lastUpdateTime e)
  then mkState timestamp (displayUpdates e ++ [timestamp])
  else e.

(** The loop over the frames the browser delivers. *)
Definition runFrames (e : State) (frames : list Q) : State :=
  fold_left update frames e.

End TimerEngine.

(** ** Closed-timer bookkeeping *)

Definition DAY_MS : Z := 24 * 60 * 60 * 1000.

(** [safeGetStorage(STORAGE_KEYS.CLOSED, {})] as a map from timer id to close
    timestamp.  Only this script writes the key, always as such a map; any
    other readable value is taken as having no entries. *)
Definition closedData (ls : Storage) : gmap string Z :=
  match safeGetStorage ls STORAGE_KEYS.CLOSED with
  | Some (VClosed m) => m
  | _ => ∅
  end.

(** The entries [getClosedTimers] keeps at time [now]. *)
Definition youngerThanDay (now : Z) (m : gmap string Z) : gmap string Z :=
  filter (λ kv : string * Z, now - kv.2 < DAY_MS) m.

(** [getClosedTimers()]: the returned ids and the durable store after the call. *)
Definition getClosedTimers (ls : Storage) (now : Z) : list string * Storage :=
  let data := closedData ls in
  let filtered := youngerThanDay now data in
  let ls' :=
    if negb (size filtered =? size data)%nat
    then fst (safeSetStorage ls STORAGE_KEYS.CLOSED (VClosed filtered))
    else ls in
  ((map_to_list filtered).*1, ls').

(** [saveClosedTimer(timerId)]. *)
Definition saveClosedTimer (ls : Storage) (timerId : string) (now : Z) : Storage :=
  let data := closedData ls in
  fst (safeSetStorage ls STORAGE_KEYS.CLOSED (VClosed (<[timerId := now]> data))).

(** ** Page targeting *)

Definition pageTypes : list (string * string) :=
  [("home", "/"); ("collection", "/collections/"); ("product", "/products/");
   ("cart", "/cart"); ("checkout", "/checkout"); ("page", "/pages/");
   ("blog", "/blogs/")]%string.

(** [pageTypes[pattern]] on the own properties of the table (names that an
    object literal inherits, such as "constructor", are not page types and
    are looked up as absent). *)
Fixpoint pageType (entries : list (string * string)) (pattern : string) : option string :=
  match entries with
  | [] => None
  | (k, v) :: rest => if String.eqb k pattern then Some v else pageType rest pattern
  end.

(** [matchPage(path, pattern)]. *)
Definition matchPage (path pattern : string) : bool :=
  if String.eqb pattern "*" || String.eqb pattern "/" then true
  else if String.eqb path pattern then true
  else if Str.endsWith pattern "*" then
    let prefix := Str.slice_0_m1 pattern in
    Str.startsWith path prefix
  else
    match pageType pageTypes pattern with
    | Some target =>
      if String.eqb pattern "home"
      then String.eqb path "/" || String.eqb path ""
      else Str.startsWith path target
    | None => false
    end.

(** [shouldShowOnPage(timer)] on the current path. *)
Definition shouldShowOnPage (currentPath : string) (t : Timer) : bool :=
  if showOnAllPages t then
    match excludePages t with
    | AttrList excludes => negb (existsb (matchPage currentPath) excludes)
    | AttrMissing | AttrInvalid => true
    end
  else
    match targetPages t with
    | AttrList targets => existsb (matchPage currentPath) targets
    | AttrMissing | AttrInvalid => false
    end.

(** ** Bootstrap: the filters of [initTimers] *)

(** What the loop of [initTimers] decides for one timer element before it
    tracks the impression and registers the timer with the engine. *)
Inductive Disposition :=
| SkippedNoId           (* [continue] on a missing id *)
| HiddenClosed          (* id in the closed list: hidden, not registered *)
| HiddenByTargeting     (* page targeting says no: hidden, not registered *)
| Registered.           (* impression tracked, handed to [registerTimer] *)

Definition includesId (ids : list string) (x : string) : bool :=
  existsb (String.eqb x) ids.

Definition processTimer (closedTimers : list string) (currentPath : string) (t : Timer)
  : Disposition :=
  if String.eqb (id t) "" then SkippedNoId
  else if includesId closedTimers (id t) then HiddenClosed
  else if negb (shouldShowOnPage currentPath t) then HiddenByTargeting
  else Registered.

(** [initTimers()] up to registration, on a page that has the wrapper and
    the container: with no timer element it returns at once; otherwise the
    closed list is read once and every timer element is classified in
    document order. *)
Definition initTimers (ls : Storage) (currentPath : string) (now : Z) (timerEls : list Timer)
  : list (Timer * Disposition) * Storage :=
  match timerEls with
  | [] => ([], ls)
  | _ :: _ =>
    let '(closedTimers, ls') := getClosedTimers ls now in
    (map (λ t, (t, processTimer closedTimers currentPath t)) timerEls, ls')
  end.



(** ** Analytics delivery *)

Module Analytics.

Inductive EventKind := Impression | Click.

(** How a [fetch] settles: a response with its status, and whether its body
    can then be read, or a rejection. *)
Inductive Outcome :=
| Response (status : Z) (bodyReadable : bool)
| NetworkError.

(** A submission: the payload's event, timer id and page, and the attempt
    counter of the call that issued it. *)
Record Request := mkRequest {
  reqEvent : EventKind;
  reqTimerId : string;
  reqRetryCount : nat;
  reqPath : string }.

(** A [setTimeout] whose callback calls [sendAnalyticsEvent] again. *)
Record Timeout := mkTimeout {
  delay : Z;
  toEvent : EventKind;
  toTimerId : string;
  toRetryCount : nat }.

(** One tab of the browser as the sender sees it.  [sent] and [scheduled]
    record every request issued and every timeout set during the session,
    oldest first; [inflight] and [pending] are those of the current page not
    yet settled or fired. *)
Record World := mkWorld {
  currentPath : string;
  session : Storage;
  sent : list Request;
  inflight : list Request;
  scheduled : list Timeout;
  pending : list Timeout }.

Definition sessionKey (timerId path : string) : string :=
  "impression_" +:+ timerId +:+ "_" +:+ path.

(** Whether the session store reads the mark of a timer on a path as set. *)
Definition marked (ss : Storage) (timerId path : string) : bool :=
  truthyValue (safeGetSession ss (sessionKey timerId path)).

Definition alreadyTracked (w : World) (timerId : string) : bool :=
  marked (session w) timerId (currentPath w).

Definition markTracked (w : World) (timerId : string) : World :=
  mkWorld (currentPath w)
          (fst (safeSetSession (session w) (sessionKey timerId (currentPath w)) (VBool true)))
          (sent w) (inflight w) (scheduled w) (pending w).

(** The [fetch] call: the request leaves the page. *)
Definition fetch (w : World) (r : Request) : World :=
  mkWorld (currentPath w) (session w) (sent w ++ [r]) (inflight w ++ [r])
          (scheduled w) (pending w).

Definition setTimeout (w : World) (t : Timeout) : World :=
  mkWorld (currentPath w) (session w) (sent w) (inflight w)
          (scheduled w ++ [t]) (pending w ++ [t]).

(** The synchronous part of [sendAnalyticsEvent(event, timerId, retryCount)]. *)
Definition sendAnalyticsEvent (w : World) (event : EventKind) (timerId : string)
           (retryCount : nat) : World :=
  if String.eqb timerId "" then w
  else
    match event with
    | Impression =>
      if alreadyTracked w timerId then w
      else fetch (markTracked w timerId)
                 (mkRequest event timerId retryCount (currentPath w))
    | Click => fetch w (mkRequest event timerId retryCount (currentPath w))
    end.

Definition response_ok (status : Z) : bool := (200 <=? status) && (status <=? 299).

Definition retry (w : World) (r : Request) : World :=
  setTimeout w (mkTimeout (2 ^ Z.of_nat (reqRetryCount r) * 1000)
                          (reqEvent r) (reqTimerId r) (reqRetryCount r + 1)).

(** The [then] / [catch] callbacks of the [fetch] promise. *)
Definition onSettled (w : World) (r : Request) (o : Outcome) : World :=
  match o with
  | Response status bodyReadable =>
    if response_ok status then w
    else if bodyReadable then
      if ((500 <=? status) || (status =? 404)) && (reqRetryCount r <? 3)%nat
      then retry w r
      else w
    else w (* "Could not read error response": nothing is scheduled *)
  | NetworkError =>
    if (reqRetryCount r <? 3)%nat then retry w r else w
  end.

(** What can happen next in the tab. *)
Inductive Action :=
| Call (event : EventKind) (timerId : string)   (* [trackImpression] / [trackClick] *)
| Settle (i : nat) (o : Outcome)                (* the [i]-th request in flight settles *)
| Fire (i : nat)                                (* the [i]-th pending timeout fires *)
| Load (path : string).                         (* reload, or navigation to [path] *)

(** A page load keeps the session store; the callbacks and timers of the
    page left behind never run, while its requests, sent with [keepalive],
    still reach the server. *)
Definition step (w : World) (a : Action) : World :=
  match a with
  | Call event timerId => sendAnalyticsEvent w event timerId 0
  | Settle i o =>
    match inflight w !! i with
    | Some r =>
      onSettled (mkWorld (currentPath w) (session w) (sent w) (delete i (inflight w))
                         (scheduled w) (pending w)) r o
    | None => w
    end
  | Fire i =>
    match pending w !! i with
    | Some t =>
      sendAnalyticsEvent (mkWorld (currentPath w) (session w) (sent w) (inflight w)
                                  (scheduled w) (delete i (pending w)))
                         (toEvent t) (toTimerId t) (toRetryCount t)
    | None => w
    end
  | Load path => mkWorld path (session w) (sent w) [] (scheduled w) []
  end.

Definition run (w : World) (actions : list Action) : World := fold_left step actions w.

(** A tab just opened on [path] with the given session store. *)
Definition fresh (path : string) (ss : Storage) : World := mkWorld path ss [] [] [] [].

Definition isImpressionFor (timerId path : string) (r : Request) : bool :=
  match reqEvent r with
  | Impression => String.eqb (reqTimerId r) timerId && String.eqb (reqPath r) path
  | Click => false
  end.

(** Number of impression requests issued so far for a timer id on a path. *)
Definition impressionsSent (w : World) (timerId path : string) : nat :=
  length (filter (λ r, isImpressionFor timerId path r = true) (sent w)).

End Analytics.

(** * Specification-level predicates *)

(** The breakdown the specification words describe: floor division on the
    total of remaining milliseconds. *)
Definition breakdown (t : Z) : TimeRemaining :=
  {| total := t;
     days := t / 86400000;
     hours := (t / 3600000) mod 24;
     minutes := (t / 60000) mod 60;
     seconds := (t / 1000) mod 60 |}.

(** Whole days, hours, minutes and seconds of a breakdown, put back together. *)
Definition reassembled (r : TimeRemaining) : Z :=
  days r * 86400000 + hours r * 3600000 + minutes r * 60000 + seconds r * 1000.

(** A value of [window.location.pathname], the only path [matchPage] is
    called with: empty, or beginning with "/". *)
Definition isPathname (path : string) : Prop :=
  path = ""%string \/ Str.startsWith path "/" = true.

(** Consecutive entries of a list of frame timestamps are at least 1000ms apart. *)
Definition spaced (l : list Q) : Prop :=
  forall (i : nat) (a b : Q), l !! i = Some a -> l !! S i = Some b -> (1000 <= b - a)%Q.

(** [lastUpdateTime] is the timestamp of the last frame that updated, or the
    constructor's [0] when none has. *)
Definition tracksLastUpdate (e : TimerEngine.State) : Prop :=
  last (TimerEngine.displayUpdates e) = Some (TimerEngine.lastUpdateTime e)
  \/ (TimerEngine.displayUpdates e = [] /\ TimerEngine.lastUpdateTime e = 0%Q).


Import Analytics.

(** The outcomes after which the policy of the specification retries. *)
Definition retryable (o : Outcome) (retryCount : nat) : Prop :=
  match o with
  | Response status bodyReadable =>
    bodyReadable = true /\ (500 <= status \/ status = 404) /\ (retryCount < 3)%nat
  | NetworkError => (retryCount < 3)%nat
  end.

(** Responses and timers, as opposed to top-level calls and page loads. *)
Definition isCallback (a : Action) : bool :=
  match a with
  | Settle _ _ | Fire _ => true
  | Call _ _ | Load _ => false
  end.

(** An action that leaves the tab on [path]: anything but a navigation to
    another path. *)
Definition staysOn (path : string) (a : Action) : Prop :=
  match a with
  | Load p => p = path
  | Call _ _ | Settle _ _ | Fire _ => True
  end.

(** The part of the tab the deduplication depends on. *)
Definition sameTracking (w1 w2 : World) : Prop :=
  currentPath w1 = currentPath w2 /\ session w1 = session w2 /\ sent w1 = sent w2.

(** With a working session store, on [path]: no impression request for the
    timer on this path has been issued and the mark is unset, or exactly one
    has been issued and the mark is set. *)
Definition dedupState (timerId path : string) (w : World) : Prop :=
  mode (session w) = Working /\ currentPath w = path
  /\ ((impressionsSent w timerId path = 0%nat /\ marked (session w) timerId path = false)
      \/ (impressionsSent w timerId path = 1%nat /\ marked (session w) timerId path = true)).

(** With a working session store, at most one impression request has been
    issued for the timer on the path, and if one has, the mark is set. *)
Definition atMostOnce (timerId path : string) (w : World) : Prop :=
  mode (session w) = Working
  /\ (impressionsSent w timerId path = 0%nat
      \/ (impressionsSent w timerId path = 1%nat /\ marked (session w) timerId path = true)).

(** Every impression request in flight and every pending impression retry
    belongs to a timer whose mark on the current path is set. *)
Definition retriesMarked (w : World) : Prop :=
  mode (session w) = Working
  /\ (forall r, r ∈ inflight w -> reqEvent r = Impression ->
                alreadyTracked w (reqTimerId r) = true)
  /\ (forall t, t ∈ pending w -> toEvent t = Impression ->
                alreadyTracked w (toTimerId t) = true).

(** * Further parts of the engine *)

(** ** Digits *)

(** [num.toString()] on an integer. *)
Definition toStringZ (z : Z) : string :=
  if z <? 0 then "-" +:+ Str.decimal (Z.to_N (- z)) else Str.decimal (Z.to_N z).

(** [s.padStart(2, '0')]. *)
Definition padStart2 (s : string) : string :=
  Str.zeros (2 - String.length s) +:+ s.

(** [padZero(num)]. *)
Definition padZero (num : Z) : string := padStart2 (toStringZ num).

(** ** Shipping handler *)

(** The shipping fields of the timer configuration. *)
Record ShippingTimer := mkShippingTimer {
  shippingCutoffTime : option string;
  shippingExcludedDays : JsonAttr Z;
  shippingHolidays : JsonAttr string;
  shippingNextDayText : option string }.

(** What the shipping handler samples from the host: the clock, the calendar
    date that [getTimeInTimezone] reports ([month] counts from 0), and, for
    [k] days ahead, the date part of [toISOString()] of the local date
    advanced by [k] days. *)
Record ShippingClock := mkShippingClock {
  sample : Clock;
  year : Z;
  month : Z;
  day : Z;
  isoDateAfter : nat -> string }.

Module ShippingTimerHandler.

(** The value of [nextShippingDay] (its [date] field is never read). *)
Record NextDay := mkNextDay {
  nextDayOfWeek : Z;
  daysAway : nat }.

Record State := mkState {
  endTime : option Z;
  isPastCutoff : bool;
  nextShippingDay : option NextDay }.

(** The state set up by the constructors. *)
Definition init : State := mkState None false None.

Definition parseExcludedDays (t : ShippingTimer) : list Z :=
  match shippingExcludedDays t with
  | AttrList l => l
  | AttrMissing | AttrInvalid => [0; 6]
  end.

Definition parseHolidays (t : ShippingTimer) : list string :=
  match shippingHolidays t with
  | AttrList l => l
  | AttrMissing | AttrInvalid => []
  end.

Definition formatDateStr (c : ShippingClock) : string :=
  toStringZ (year c) +:+ "-" +:+ padStart2 (toStringZ (month c + 1))
            +:+ "-" +:+ padStart2 (toStringZ (day c)).

(** The body of the [while] loop of [findNextShippingDay]: [fuel] is the
    number of iterations left before [daysToAdd] passes [maxDays]. *)
Fixpoint findNextShippingDay_from (fuel daysToAdd : nat) (currentDay : Z)
         (excludedDays : list Z) (holidays : list string) (c : ShippingClock)
  : option NextDay :=
  match fuel with
  | O => None
  | S fuel' =>
    let checkDay := Z.rem (currentDay + Z.of_nat daysToAdd) 7 in
    let checkDateStr := isoDateAfter c daysToAdd in
    if negb (RecurringTimerHandler.includes excludedDays checkDay)
       && negb (includesId holidays checkDateStr)
    then Some (mkNextDay checkDay daysToAdd)
    else findNextShippingDay_from fuel' (S daysToAdd) currentDay excludedDays holidays c
  end.

Definition maxDays : nat := 14.

Definition findNextShippingDay (currentDay : Z) (excludedDays : list Z)
           (holidays : list string) (c : ShippingClock) : option NextDay :=
  findNextShippingDay_from maxDays 1 currentDay excludedDays holidays c.

(** The cutoff as [updateState] parses it: the default applies to a missing
    or empty field. *)
Definition cutoffMinutesOf (t : ShippingTimer) : option Z :=
  parseTimeToMinutes
    (match shippingCutoffTime t with
     | None | Some EmptyString => Some "14:00"%string
     | Some s => Some s
     end).

(** [calculateEndTime(cutoffMinutes, currentMinutes)] with both arguments given. *)
Definition calculateEndTime (now : Z) (cutoffMinutes : option Z) (currentMinutes : Z)
  : option Z :=
  let minutesUntilCutoff := num_sub cutoffMinutes (Some currentMinutes) in
  match minutesUntilCutoff with
  | Some m => if m <=? 0 then None else Some (now + m * 60 * 1000)
  | None => None (* [NaN <= 0] is false and the sum is [NaN] *)
  end.

(** [updateState()]. *)
Definition updateState (t : ShippingTimer) (c : ShippingClock) (h : State) : State :=
  let currentDay := dayOfWeek (sample c) in
  let currentMinutes := hour (sample c) * 60 + minute (sample c) in
  let cutoffMinutes := cutoffMinutesOf t in
  let excludedDays := parseExcludedDays t in
  let holidays := parseHolidays t in
  let todayStr := formatDateStr c in
  let isTodayExcluded :=
    RecurringTimerHandler.includes excludedDays currentDay || includesId holidays todayStr in
  if isTodayExcluded || num_ge (Some currentMinutes) cutoffMinutes then
    mkState None true (findNextShippingDay currentDay excludedDays holidays c)
  else
    mkState (calculateEndTime (now (sample c)) cutoffMinutes currentMinutes)
            false (nextShippingDay h).

Definition initialize (t : ShippingTimer) (c : ShippingClock) : State :=
  updateState t c init.

(** [isActive()]: the verdict and the handler state after the call. *)
Definition isActive (t : ShippingTimer) (c : ShippingClock) (h : State) : bool * State :=
  let h' := updateState t c h in
  (negb (isPastCutoff h') && TimerHandler.isActive (endTime h') (now (sample c)), h').

Definition dayNames : list string :=
  ["Sunday"; "Monday"; "Tuesday"; "Wednesday"; "Thursday"; "Friday"; "Saturday"]%string.

(** [dayNames[i]] inside a template literal. *)
Definition dayName (i : Z) : string :=
  if i <? 0 then "undefined"%string
  else default "undefined"%string (dayNames !! Z.to_nat i).

Definition getDisplayMessage (t : ShippingTimer) (h : State) : option string :=
  if isPastCutoff h then
    match shippingNextDayText t with
    | Some (String c rest) => Some (String c rest)
    | Some EmptyString | None =>
      match nextShippingDay h with
      | Some next =>
        if (daysAway next =? 1)%nat then Some "Order now for delivery tomorrow!"%string
        else Some ("Order now for " +:+ dayName (nextDayOfWeek next) +:+ " delivery!")
      | None => Some "Order now for next business day delivery!"%string
      end
    end
  else None.

End ShippingTimerHandler.

(** ** Handler registry of [TimerEngine] *)

Module Registry.

(** [this.handlers] and [this.timers], for any representation [H] of an
    initialised handler. *)
Record State (H : Type) := mkState {
  handlers : gmap string H;
  timers : list Timer }.
Arguments mkState {H} handlers timers.
Arguments handlers {H} s.
Arguments timers {H} s.

(** The state set up by the constructor. *)
Definition init {H : Type} : State H := mkState ∅ [].

(** [registerTimer(timer)], given the initialised handler. *)
Definition registerTimer {H : Type} (g : State H) (t : Timer) (handler : H) : State H :=
  mkState (<[id t := handler]> (handlers g)) (timers g ++ [t]).

(** [unregisterTimer(id)]. *)
Definition unregisterTimer {H : Type} (g : State H) (timerId : string) : State H :=
  mkState (match handlers g !! timerId with
           | Some _ => delete timerId (handlers g)
           | None => handlers g
           end)
          (List.filter (λ t, negb (String.eqb (id t) timerId)) (timers g)).

(** [getEndTime(id)] and its siblings: the handler's answer, or the default. *)
Definition withHandler {H A : Type} (g : State H) (timerId : string) (f : H -> A) (d : A) : A :=
  match handlers g !! timerId with
  | Some h => f h
  | None => d
  end.

(** Registrations and removals, in order. *)
Inductive Op (H : Type) :=
| Register (t : Timer) (handler : H)
| Unregister (timerId : string).
Arguments Register {H} t handler.
Arguments Unregister {H} timerId.

Definition apply {H : Type} (g : State H) (op : Op H) : State H :=
  match op with
  | Register t handler => registerTimer g t handler
  | Unregister timerId => unregisterTimer g timerId
  end.

End Registry.

(** ** Specification-level predicates for the further parts *)

(** The characters that occur in the texts [Number()] reads as a number:
    blanks and line ends (codes 9 to 13 and 32; a code from 128 on counts,
    since it may belong to a Unicode blank), decimal digits, sign and point,
    and the letters of exponents, of the prefixes 0x, 0o and 0b, of
    hexadecimal digits and of "Infinity". *)
Definition numericChar (c : ascii) : bool :=
  let n := nat_of_ascii c in
  ((9 <=? n) && (n <=? 13))%nat || (n =? 32)%nat || (128 <=? n)%nat
  || ((48 <=? n) && (n <=? 57))%nat
  || existsb (Ascii.eqb c) (list_ascii_of_string "+-.abcdefABCDEFxXoOInity").

(** A text that holds a character of no numeric literal: [Number()] gives [NaN]. *)
Definition notNumeric (s : string) : bool :=
  negb (forallb numericChar (list_ascii_of_string s)).

(** A field on which [Str.Number] and [Number()] agree. *)
Definition plainField (s : string) : bool := Str.all_digits s || notNumeric s.

(** A time text on which [parseTimeToMinutes] of the embedding and of the
    code agree: absent or empty, without a colon (the minutes are then
    [undefined]), or with two plain leading fields. *)
Definition plainTime (timeStr : option string) : bool :=
  match timeStr with
  | None | Some EmptyString => true
  | Some s =>
    match Str.split_colon s with
    | h :: m :: _ => plainField h && plainField m
    | _ => true
    end
  end.

(** A time text that [parseTimeToMinutes] sends to [NaN] whatever the
    digits: not empty, and without a colon or with a character of no
    numeric literal in one of its two leading fields. *)
Definition nanTime (timeStr : option string) : bool :=
  match timeStr with
  | None | Some EmptyString => false
  | Some s =>
    match Str.split_colon s with
    | h :: m :: _ => notNumeric h || notNumeric m
    | _ => true
    end
  end.

(** A text without the field separator of a time. *)
Definition no_colon (s : string) : bool :=
  forallb (λ c, negb (Ascii.eqb c ":"%char)) (list_ascii_of_string s).

(** The day [k] days ahead is a shipping day: its weekday is not excluded
    and its date is no holiday. *)
Definition shipsOn (currentDay : Z) (excludedDays : list Z) (holidays : list string)
           (c : ShippingClock) (k : nat) : bool :=
  negb (RecurringTimerHandler.includes excludedDays (Z.rem (currentDay + Z.of_nat k) 7))
  && negb (includesId holidays (isoDateAfter c k)).

(** Today is excluded from shipping, as [updateState] decides it. *)
Definition todayExcluded (t : ShippingTimer) (c : ShippingClock) : bool :=
  RecurringTimerHandler.includes (ShippingTimerHandler.parseExcludedDays t) (dayOfWeek (sample c))
  || includesId (ShippingTimerHandler.parseHolidays t) (ShippingTimerHandler.formatDateStr c).

(** The minutes a cart cycle lasts:
    [cartTimerDuration || evergreenDuration || 15]. *)
Definition cartDuration (t : Timer) : Z :=
  if Js.truthyZ (cartTimerDuration t) then default 0 (cartTimerDuration t)
  else if Js.truthyZ (evergreenDuration t) then default 0 (evergreenDuration t)
  else 15.

(** The update number [k + 1] comes no earlier than [(k + 1) * 1000] ms. *)
Definition paced (l : list Q) : Prop :=
  forall (k : nat) (ts : Q), l !! k = Some ts -> (1000 * inject_Z (Z.of_nat (S k)) <= ts)%Q.

(** Number of top-level calls among the actions. *)
Definition callCount (actions : list Action) : nat :=
  length (List.filter (λ a, match a with Call _ _ => true | _ => false end) actions).

(** The attempts a request in flight, or a pending retry, can still cause,
    itself included for a retry. *)
Definition attemptsLeft (w : World) : nat :=
  list_sum (map (λ r, 3 - reqRetryCount r)%nat (inflight w))
  + list_sum (map (λ t, 4 - toRetryCount t)%nat (pending w)).

(** Requests issued so far plus attempts still possible. *)
Definition potential (w : World) : nat := (length (sent w) + attemptsLeft w)%nat.

(** All attempt counters are within the policy's bound. *)
Definition countersBounded (w : World) : Prop :=
  Forall (λ r, reqRetryCount r <= 3)%nat (sent w)
  /\ Forall (λ r, reqRetryCount r <= 3)%nat (inflight w)
  /\ Forall (λ t, (1 <= toRetryCount t <= 3)%nat
                   /\ delay t = 2 ^ Z.of_nat (toRetryCount t - 1) * 1000)
            (scheduled w)
  /\ Forall (λ t, 1 <= toRetryCount t <= 3)%nat (pending w).

(** The ids of the registered timers and the keys of the handler map agree. *)
Definition registryConsistent {H : Type} (g : Registry.State H) : Prop :=
  forall timerId : string,
    is_Some (Registry.handlers g !! timerId)
    <-> exists t, t ∈ Registry.timers g /\ id t = timerId.

(** * Properties *)

(** ** Worked examples *)

Example parseTimeToMinutes_evening : parseTimeToMinutes (Some "22:00"%string) = Some 1320.
Proof. reflexivity. Qed.

Example parseTimeToMinutes_absent : parseTimeToMinutes None = Some 0.
Proof. reflexivity. Qed.

Example parseTimeToMinutes_no_colon : parseTimeToMinutes (Some "6"%string) = None.
Proof. reflexivity. Qed.

Example toFixed2_rounds_half_up : Str.toFixed2 (1 # 200) = Some "0.01"%string.
Proof. reflexivity. Qed.

Example toFixed2_pads : Str.toFixed2 (3 # 1) = Some "3.00"%string.
Proof. reflexivity. Qed.

Example toFixed2_negative : Str.toFixed2 (- (1 # 3)) = Some "-0.33"%string.
Proof. reflexivity. Qed.

Example toFixed2_exponent_range : Str.toFixed2 (inject_Z (10 ^ 21)) = None.
Proof. reflexivity. Qed.

Example getTimeRemaining_one_day_odd :
  TimerHandler.getTimeRemaining (Some 100000000) 1000
  = Some (mkRemaining 99999000 1 3 46 39).
Proof. reflexivity. Qed.

Example isCartPage_localised :
  isCartPage (mkPage "/en-gb/cart" None) = true
  /\ isCartPage (mkPage "/cart/items" None) = false
  /\ isCartPage (mkPage "/basket" (Some "/basket"%string)) = true.
Proof. repeat split. Qed.

(** An Evergreen timer of 5 minutes with a reset delay of 2 minutes: at 5
    minutes the handler is inactive and the reset time is recorded; at 7
    minutes a new cycle starts. *)
Example evergreen_reset_delay :
  let t := mkTimer "t1" (Some 5) (Some 2) None None AttrMissing None None true
                   AttrMissing AttrMissing in
  let t0 := 1000000 in
  let s0 := EvergreenTimerHandler.initialize t "k" (mkStorage ∅ Working) t0 in
  let s5 := EvergreenTimerHandler.isActive t "k" (snd s0) (t0 + 300000) in
  let s6 := EvergreenTimerHandler.isActive t "k" (snd s5) (t0 + 360000) in
  let s7 := EvergreenTimerHandler.isActive t "k" (snd s6) (t0 + 420000) in
  fst s0 = Some (t0 + 300000)
  /\ fst s5 = (false, None)
  /\ safeGetStorage (snd s5) "k" = Some (VCycle t0 (Some (t0 + 420000)))
  /\ fst s6 = (false, None)
  /\ fst s7 = (true, Some (t0 + 720000)).
Proof. vm_compute. repeat split. Qed.

Example shouldShowOnPage_excluded :
  let t := mkTimer "t1" None None None None AttrMissing None None true
                   AttrMissing (AttrList ["cart"; "/pages/*"]%string) in
  shouldShowOnPage "/cart" t = false
  /\ shouldShowOnPage "/pages/about" t = false
  /\ shouldShowOnPage "/products/x" t = true.
Proof. repeat split. Qed.

(** ** Time remaining *)

Lemma floor_div_pos (t : Z) (d : positive) :
  Js.Math_floor (Js.div (inject_Z t) (inject_Z (Z.pos d))) = t / Z.pos d.
Proof.
  unfold Js.Math_floor, Js.div, Qdiv, Qinv, Qmult, inject_Z, Qfloor; simpl.
  now rewrite Z.mul_1_r.
Qed.

Lemma floor_rem_pos (t : Z) (d m : positive) :
  0 <= t ->
  Js.Math_floor (Js.rem (Js.div (inject_Z t) (inject_Z (Z.pos d))) (inject_Z (Z.pos m)))
  = (t / Z.pos d) mod Z.pos m.
Proof.
  intros Ht.
  unfold Js.Math_floor, Js.rem, Js.trunc.
  assert (Hq : (0 <= Js.div (inject_Z t) (inject_Z (Z.pos d)) / inject_Z (Z.pos m))%Q).
  { unfold Js.div, Qdiv, Qinv, Qmult, inject_Z, Qle; simpl. lia. }
  apply Qle_bool_iff in Hq. rewrite Hq.
  unfold Js.div, Qdiv, Qinv, Qmult, Qminus, Qplus, Qopp, inject_Z, Qfloor; simpl.
  rewrite ?Pos.mul_1_l, ?Pos.mul_1_r, ?Z.mul_1_r, Pos2Z.inj_mul.
  rewrite <- Z.div_div by lia.
  set (q := t / Z.pos d).
  rewrite Z.div_add by lia.
  fold q. rewrite Z.mod_eq by lia. ring.
Qed.

Lemma getTimeRemaining_positive (e now : Z) :
  e ≠ 0 -> 0 < e - now ->
  TimerHandler.getTimeRemaining (Some e) now = Some (breakdown (e - now)).
Proof.
  intros He Ht. unfold TimerHandler.getTimeRemaining, Js.truthyZ.
  destruct (Z.eqb_spec e 0) as [|_]; [contradiction|]. simpl.
  destruct (Z.leb_spec (e - now) 0) as [|_]; [lia|].
  unfold breakdown. do 2 f_equal.
  - apply (floor_div_pos (e - now) 86400000).
  - apply (floor_rem_pos (e - now) 3600000 24). lia.
  - apply (floor_rem_pos (e - now) 60000 60). lia.
  - apply (floor_rem_pos (e - now) 1000 60). lia.
Qed.

Lemma breakdown_reassembled (t : Z) :
  0 <= t -> reassembled (breakdown t) <= t < reassembled (breakdown t) + 1000.
Proof.
  intros Ht. unfold reassembled, breakdown; simpl.
  replace (t / 86400000) with (t / 1000 / 60 / 60 / 24)
    by (rewrite !Z.div_div by lia; reflexivity).
  replace (t / 3600000) with (t / 1000 / 60 / 60)
    by (rewrite !Z.div_div by lia; reflexivity).
  replace (t / 60000) with (t / 1000 / 60)
    by (rewrite !Z.div_div by lia; reflexivity).
  set (s := t / 1000).
  pose proof (Z.div_mod t 1000 ltac:(lia)) as H1.
  pose proof (Z.mod_pos_bound t 1000 ltac:(lia)) as B1.
  pose proof (Z.div_mod s 60 ltac:(lia)) as H2.
  pose proof (Z.div_mod (s / 60) 60 ltac:(lia)) as H3.
  pose proof (Z.div_mod (s / 60 / 60) 24 ltac:(lia)) as H4.
  fold s in H1. lia.
Qed.

(** C1 (as amended).  [getTimeRemaining()] at wall-clock time [now] returns
    [null] when no end-timestamp is stored and also when the stored
    end-timestamp is [0]; for a non-zero end-timestamp [e] it returns the
    all-zero record when [e - now <= 0], and otherwise the record with
    [total = e - now], [days = floor(total/86400000)],
    [hours = floor(total/3600000) mod 24], [minutes = floor(total/60000) mod 60],
    [seconds = floor(total/1000) mod 60], whose parts put back together lie
    within one second below [total]. *)
Theorem getTimeRemaining_cases (e now : Z) :
  TimerHandler.getTimeRemaining None now = None
  /\ TimerHandler.getTimeRemaining (Some 0) now = None
  /\ (e ≠ 0 -> e - now <= 0 ->
      TimerHandler.getTimeRemaining (Some e) now = Some zeroRemaining)
  /\ (e ≠ 0 -> 0 < e - now ->
      TimerHandler.getTimeRemaining (Some e) now = Some (breakdown (e - now))
      /\ total (breakdown (e - now)) = e - now
      /\ reassembled (breakdown (e - now)) <= e - now
         < reassembled (breakdown (e - now)) + 1000).
Proof.
  repeat split.
  - intros He Ht. unfold TimerHandler.getTimeRemaining, Js.truthyZ.
    destruct (Z.eqb_spec e 0) as [|_]; [contradiction|]. simpl.
    destruct (Z.leb_spec (e - now) 0); [reflexivity|lia].
  - now apply getTimeRemaining_positive.
  - apply breakdown_reassembled; lia.
  - apply breakdown_reassembled; lia.
Qed.

Lemma getTimeRemaining_cases_witness :
  TimerHandler.getTimeRemaining (Some 100000000) 1000
  = Some (mkRemaining 99999000 1 3 46 39)
  /\ TimerHandler.getTimeRemaining (Some 500) 1000 = Some zeroRemaining.
Proof.
  split.
  - apply (proj1 (proj2 (proj2 (proj2 (getTimeRemaining_cases 100000000 1000)))
                   ltac:(lia) ltac:(lia))).
  - apply (proj1 (proj2 (proj2 (getTimeRemaining_cases 500 1000)))); lia.
Defined.

(** C1, as the claim words it, fails for a stored end-timestamp of [0] (the
    epoch itself): [0 - now <= 0], yet the result is [null], not the all-zero
    record. *)
Lemma getTimeRemaining_epoch_is_null :
  0 - 5 <= 0 /\ TimerHandler.getTimeRemaining (Some 0) 5 ≠ Some zeroRemaining.
Proof. split; [lia | discriminate]. Qed.

(** ** Recurring window *)

Lemma timeRemaining_active (e now : Z) :
  0 <= now -> now < e -> TimerHandler.isActive (Some e) now = true.
Proof.
  intros Hn He. unfold TimerHandler.isActive.
  rewrite getTimeRemaining_positive by lia. simpl. apply Z.ltb_lt. lia.
Qed.

Lemma recurring_general (t : Timer) (c : Clock) (s e : Z) :
  parseTimeToMinutes (dailyStartTime t) = Some s ->
  parseTimeToMinutes (dailyEndTime t) = Some e ->
  e < s ->
  RecurringTimerHandler.includes (RecurringTimerHandler.parseRecurringDays t) (dayOfWeek c) = true ->
  let cur := hour c * 60 + minute c in
  let inWindow := (s <=? cur) || (cur <? e) in
  let m := if s <=? cur then (24 * 60 - cur) + e else e - cur in
  RecurringTimerHandler.windowState (Some s) (Some e) cur
  = (inWindow, Some (if inWindow then m else 0))
  /\ RecurringTimerHandler.calculateEndTime t c
     = (if inWindow then Some (now c + m * 60000) else None)
  /\ (0 <= e -> cur < 24 * 60 -> 0 <= now c ->
      RecurringTimerHandler.isActive t c = inWindow).
Proof.
  intros Hs He Hlt Hday cur inWindow m.
  assert (Hw : RecurringTimerHandler.windowState (Some s) (Some e) cur
               = (inWindow, Some (if inWindow then m else 0))).
  { unfold RecurringTimerHandler.windowState, num_lt, num_ge, num_add, num_sub.
    subst inWindow m.
    destruct (Z.ltb_spec e s) as [_|]; [|lia].
    destruct (Z.leb_spec s cur), (Z.ltb_spec cur e); simpl; reflexivity. }
  assert (Hc : RecurringTimerHandler.calculateEndTime t c
               = (if inWindow then Some (now c + m * 60000) else None)).
  { unfold RecurringTimerHandler.calculateEndTime.
    rewrite Hday, Hs, He. simpl negb. cbv iota. fold cur. rewrite Hw.
    destruct inWindow; simpl; [|reflexivity].
    f_equal. lia. }
  split; [exact Hw|]. split; [exact Hc|].
  intros He0 Hcur Hnow. unfold RecurringTimerHandler.isActive. rewrite Hc.
  destruct inWindow eqn:Hin; [|reflexivity].
  apply timeRemaining_active; [lia|].
  subst inWindow m.
  destruct (Z.leb_spec s cur); [lia|].
  simpl in Hin. apply Z.ltb_lt in Hin. lia.
Qed.

(** C5.  For a Recurring timer whose end minute is strictly less than its
    start minute, on a day of the active-days set: the handler is in its
    window exactly when current >= start or current < end, minutes-until-end
    is [(24*60 - current) + end] when current >= start and [end - current]
    when current < end, the end-timestamp is [now + minutes-until-end * 60000],
    and [isActive()] agrees for a minute-of-day [current < 24*60], [end >= 0].
    With start "22:00" and end "06:00": at 23:30 active with 390 minutes
    until the end, at 05:00 active with 60, at 12:00 inactive. *)
Theorem recurring_overnight_window :
  (forall (t : Timer) (c : Clock) (s e : Z),
      parseTimeToMinutes (dailyStartTime t) = Some s ->
      parseTimeToMinutes (dailyEndTime t) = Some e ->
      e < s ->
      RecurringTimerHandler.includes (RecurringTimerHandler.parseRecurringDays t) (dayOfWeek c)
      = true ->
      let cur := hour c * 60 + minute c in
      let inWindow := (s <=? cur) || (cur <? e) in
      let m := if s <=? cur then (24 * 60 - cur) + e else e - cur in
      RecurringTimerHandler.windowState (Some s) (Some e) cur
      = (inWindow, Some (if inWindow then m else 0))
      /\ RecurringTimerHandler.calculateEndTime t c
         = (if inWindow then Some (now c + m * 60000) else None)
      /\ (0 <= e -> cur < 24 * 60 -> 0 <= now c ->
          RecurringTimerHandler.isActive t c = inWindow))
  /\ (forall (t : Timer) (day clock : Z),
         dailyStartTime t = Some "22:00"%string ->
         dailyEndTime t = Some "06:00"%string ->
         RecurringTimerHandler.includes (RecurringTimerHandler.parseRecurringDays t) day = true ->
         0 <= clock ->
         let start := parseTimeToMinutes (dailyStartTime t) in
         let finish := parseTimeToMinutes (dailyEndTime t) in
         (RecurringTimerHandler.windowState start finish (23 * 60 + 30) = (true, Some 390)
          /\ RecurringTimerHandler.calculateEndTime t (mkClock clock day 23 30)
             = Some (clock + 390 * 60000)
          /\ RecurringTimerHandler.isActive t (mkClock clock day 23 30) = true)
         /\ (RecurringTimerHandler.windowState start finish (5 * 60 + 0) = (true, Some 60)
             /\ RecurringTimerHandler.calculateEndTime t (mkClock clock day 5 0)
                = Some (clock + 60 * 60000)
             /\ RecurringTimerHandler.isActive t (mkClock clock day 5 0) = true)
         /\ (RecurringTimerHandler.calculateEndTime t (mkClock clock day 12 0) = None
             /\ RecurringTimerHandler.isActive t (mkClock clock day 12 0) = false)).
Proof.
  split; [exact recurring_general|].
  intros t day clock Hs He Hday Hclock start finish.
  assert (Ps : parseTimeToMinutes (dailyStartTime t) = Some 1320) by (rewrite Hs; reflexivity).
  assert (Pe : parseTimeToMinutes (dailyEndTime t) = Some 360) by (rewrite He; reflexivity).
  subst start finish. rewrite Ps, Pe.
  pose proof (recurring_general t (mkClock clock day 23 30) 1320 360 Ps Pe ltac:(lia) Hday)
    as (A1 & A2 & A3).
  pose proof (recurring_general t (mkClock clock day 5 0) 1320 360 Ps Pe ltac:(lia) Hday)
    as (B1 & B2 & B3).
  pose proof (recurring_general t (mkClock clock day 12 0) 1320 360 Ps Pe ltac:(lia) Hday)
    as (C1 & C2 & C3).
  simpl in *.
  repeat split; try assumption.
  - apply A3; lia.
  - apply B3; lia.
  - apply C3; lia.
Qed.

Lemma recurring_overnight_window_witness :
  let t := mkTimer "t1" None None (Some "22:00"%string) (Some "06:00"%string)
                   AttrMissing None None true AttrMissing AttrMissing in
  RecurringTimerHandler.calculateEndTime t (mkClock 1000 2 23 30) = Some 23401000
  /\ RecurringTimerHandler.isActive t (mkClock 1000 2 23 30) = true.
Proof.
  intros t.
  pose proof (proj1 recurring_overnight_window t (mkClock 1000 2 23 30) 1320 360
                    eq_refl eq_refl ltac:(lia) eq_refl) as (_ & H2 & H3).
  split; [exact H2 | apply H3; simpl; lia].
Defined.

(** ** Page-pattern matching *)

Lemma prefix_substring (s : string) (n : nat) :
  String.prefix (substring 0 n s) s = true.
Proof.
  revert n. induction s as [|a s IH]; intros [|n]; simpl; try reflexivity.
  destruct (ascii_dec a a); [apply IH | congruence].
Qed.

Lemma append_cons (a : ascii) (p r : string) :
  String a p +:+ r = String a (p +:+ r).
Proof. reflexivity. Qed.

Lemma prefix_app_iff (p s : string) :
  String.prefix p s = true <-> exists rest, s = p +:+ rest.
Proof.
  revert s. induction p as [|a p IH]; intros s.
  - split; [intros _; now exists s | intros _; now destruct s].
  - destruct s as [|b s]; simpl.
    + split; [discriminate | intros [rest H]; discriminate].
    + destruct (ascii_dec a b) as [->|Hab].
      * split.
        -- intros H. apply IH in H as [rest ->]. now exists rest.
        -- intros [rest H]. apply IH. exists rest. rewrite append_cons in H. now inversion H.
      * split; [discriminate | intros [rest H]; rewrite append_cons in H; congruence].
Qed.

Lemma append_nil (r : string) : "" +:+ r = r.
Proof. reflexivity. Qed.

Lemma length_append (a b : string) :
  String.length (a +:+ b) = (String.length a + String.length b)%nat.
Proof.
  induction a as [|c a IH]; rewrite ?append_nil, ?append_cons; simpl;
    [reflexivity | now rewrite IH].
Qed.

Lemma substring_full (b : string) : substring 0 (String.length b) b = b.
Proof. induction b as [|c b IH]; simpl; [reflexivity | now rewrite IH]. Qed.

Lemma substring_append_left (a b : string) :
  substring 0 (String.length a) (a +:+ b) = a.
Proof.
  induction a as [|c a IH]; rewrite ?append_nil, ?append_cons; simpl;
    [now destruct b | now rewrite IH].
Qed.

Lemma substring_append_right (a b : string) :
  substring (String.length a) (String.length b) (a +:+ b) = b.
Proof.
  induction a as [|c a IH]; rewrite ?append_nil, ?append_cons; simpl;
    [apply substring_full | exact IH].
Qed.

Lemma endsWith_append (a b : string) : Str.endsWith (a +:+ b) b = true.
Proof.
  unfold Str.endsWith. rewrite length_append.
  apply andb_true_intro; split.
  - apply Nat.leb_le. lia.
  - replace (String.length a + String.length b - String.length b)%nat
      with (String.length a) by lia.
    rewrite substring_append_right. apply String.eqb_refl.
Qed.

Lemma slice_append_star (a : string) : Str.slice_0_m1 (a +:+ "*") = a.
Proof.
  unfold Str.slice_0_m1. rewrite length_append. simpl.
  replace (String.length a + 1 - 1)%nat with (String.length a) by lia.
  apply substring_append_left.
Qed.

Lemma matchPage_wildcard (path pattern : string) :
  Str.endsWith pattern "*" = true ->
  matchPage path pattern = Str.startsWith path (Str.slice_0_m1 pattern).
Proof.
  intros Hend. unfold matchPage.
  destruct (String.eqb_spec pattern "*") as [->|_]; simpl.
  { now destruct path. }
  destruct (String.eqb_spec pattern "/") as [->|_]; simpl.
  { discriminate Hend. }
  destruct (String.eqb_spec path pattern) as [->|_].
  { unfold Str.startsWith, Str.slice_0_m1. now rewrite prefix_substring. }
  now rewrite Hend.
Qed.

Lemma matchPage_home (path : string) :
  matchPage path "home"
  = String.eqb path "home" || String.eqb path "/" || String.eqb path "".
Proof.
  unfold matchPage.
  change (String.eqb "home" "*" || String.eqb "home" "/") with false.
  change (Str.endsWith "home" "*") with false.
  change (pageType pageTypes "home") with (Some "/"%string).
  change (String.eqb "home" "home") with true. cbv iota.
  destruct (String.eqb path "home"); reflexivity.
Qed.

(** C8.  A pattern ending in '*' matches exactly the paths that start with
    the pattern minus its final '*'; "/collections/*" matches
    "/collections/sale" and not "/collection-info"; and on the paths the
    matcher is called with (the pathname of the page: empty, or beginning
    with "/") the named pattern "home" matches exactly "/" and "" and no
    other path. *)
Theorem matchPage_patterns :
  (forall path pattern : string,
      Str.endsWith pattern "*" = true ->
      matchPage path pattern = Str.startsWith path (Str.slice_0_m1 pattern))
  /\ (forall path prefix : string,
         matchPage path (prefix +:+ "*") = true <-> exists rest, path = prefix +:+ rest)
  /\ matchPage "/collections/sale" "/collections/*" = true
  /\ matchPage "/collection-info" "/collections/*" = false
  /\ (forall path : string,
         isPathname path ->
         matchPage path "home" = true <-> path = "/"%string \/ path = ""%string).
Proof.
  split; [exact matchPage_wildcard|].
  split.
  { intros path prefix.
    rewrite matchPage_wildcard by apply endsWith_append.
    rewrite slice_append_star. apply prefix_app_iff. }
  split; [reflexivity|]. split; [reflexivity|].
  intros path Hpath. rewrite matchPage_home.
  assert (Hne : path ≠ "home"%string).
  { intros ->. destruct Hpath as [H|H]; discriminate H. }
  destruct (String.eqb_spec path "home"), (String.eqb_spec path "/"),
    (String.eqb_spec path ""); simpl; split; intros H; try tauto; try discriminate.
Qed.

Lemma matchPage_patterns_witness :
  matchPage "/collections/sale" "/collections/*"
  = Str.startsWith "/collections/sale" "/collections/"
  /\ (matchPage "/products/home" "home" = true
      <-> "/products/home"%string = "/"%string \/ "/products/home"%string = ""%string).
Proof.
  split.
  - exact (proj1 matchPage_patterns "/collections/sale"%string "/collections/*"%string eq_refl).
  - apply (proj2 (proj2 (proj2 (proj2 matchPage_patterns))) "/products/home"%string).
    right. reflexivity.
Defined.

(** ** Render loop *)

Lemma spaced_snoc (l : list Q) (ts : Q) :
  spaced l ->
  (forall a, last l = Some a -> (1000 <= ts - a)%Q) ->
  spaced (l ++ [ts]).
Proof.
  intros Hl Hlast i a b Ha Hb.
  destruct (decide (S i < length l)%nat) as [Hlt|Hge].
  - rewrite lookup_app_l in Ha by lia. rewrite lookup_app_l in Hb by lia.
    eapply Hl; eassumption.
  - assert (Hi : (i < length l)%nat).
    { apply lookup_lt_Some in Hb. rewrite length_app in Hb. simpl in Hb. lia. }
    assert (HSi : S i = length l) by lia.
    rewrite lookup_app_l in Ha by lia.
    rewrite lookup_app_r in Hb by lia.
    rewrite HSi, Nat.sub_diag in Hb. simpl in Hb. inversion Hb; subst b.
    apply Hlast. rewrite last_lookup.
    replace (Nat.pred (length l)) with i by lia. exact Ha.
Qed.

Lemma update_cases (e : TimerEngine.State) (ts : Q) :
  ((1000 <= ts - TimerEngine.lastUpdateTime e)%Q ->
   TimerEngine.update e ts
   = TimerEngine.mkState ts (TimerEngine.displayUpdates e ++ [ts]))
  /\ (~ (1000 <= ts - TimerEngine.lastUpdateTime e)%Q -> TimerEngine.update e ts = e).
Proof.
  unfold TimerEngine.update.
  destruct (Qle_bool 1000 (ts - TimerEngine.lastUpdateTime e)) eqn:H; split; intros H'.
  - reflexivity.
  - apply Qle_bool_iff in H. contradiction.
  - apply Qle_bool_iff in H'. congruence.
  - reflexivity.
Qed.

Lemma update_invariant (e : TimerEngine.State) (ts : Q) :
  spaced (TimerEngine.displayUpdates e) /\ tracksLastUpdate e ->
  spaced (TimerEngine.displayUpdates (TimerEngine.update e ts))
  /\ tracksLastUpdate (TimerEngine.update e ts).
Proof.
  intros [Hs Ht]. unfold TimerEngine.update.
  destruct (Qle_bool 1000 (ts - TimerEngine.lastUpdateTime e)) eqn:H; [|now split].
  apply Qle_bool_iff in H. simpl. split.
  - apply spaced_snoc; [exact Hs|].
    intros a Ha. destruct Ht as [Ht|[Hnil _]].
    + rewrite Ht in Ha. inversion Ha; subst a. exact H.
    + rewrite Hnil in Ha. discriminate.
  - left. simpl. apply last_snoc.
Qed.

Lemma runFrames_invariant (frames : list Q) (e : TimerEngine.State) :
  spaced (TimerEngine.displayUpdates e) /\ tracksLastUpdate e ->
  spaced (TimerEngine.displayUpdates (TimerEngine.runFrames e frames))
  /\ tracksLastUpdate (TimerEngine.runFrames e frames).
Proof.
  revert e. induction frames as [|ts frames IH]; intros e He; simpl.
  - exact He.
  - apply IH. now apply update_invariant.
Qed.

(** C9.  In the render loop the display update runs on a frame only when
    that frame's timestamp minus the timestamp of the last frame that
    updated (initially 0) is at least 1000; hence, whatever frames the
    browser delivers, any two consecutive display updates are at least
    1000ms of frame time apart. *)
Theorem render_loop_throttled (frames : list Q) :
  let e := TimerEngine.runFrames TimerEngine.init frames in
  (forall ts : Q,
      ((1000 <= ts - TimerEngine.lastUpdateTime e)%Q ->
       TimerEngine.displayUpdates (TimerEngine.update e ts)
       = TimerEngine.displayUpdates e ++ [ts])
      /\ (~ (1000 <= ts - TimerEngine.lastUpdateTime e)%Q ->
          TimerEngine.displayUpdates (TimerEngine.update e ts)
          = TimerEngine.displayUpdates e))
  /\ tracksLastUpdate e
  /\ (forall (i : nat) (a b : Q),
         TimerEngine.displayUpdates e !! i = Some a ->
         TimerEngine.displayUpdates e !! S i = Some b ->
         (1000 <= b - a)%Q).
Proof.
  intros e.
  assert (Hinv : spaced (TimerEngine.displayUpdates e) /\ tracksLastUpdate e).
  { apply runFrames_invariant. split.
    - intros i a b Ha. simpl in Ha. discriminate.
    - right. now split. }
  split; [|split; [apply Hinv | apply Hinv]].
  intros ts. destruct (update_cases e ts) as [H1 H2]. split; intros H.
  - now rewrite H1.
  - now rewrite H2.
Qed.

Lemma render_loop_throttled_witness :
  TimerEngine.displayUpdates
    (TimerEngine.runFrames TimerEngine.init [16; 500; 1000; 1500; 2001; 3000; 3001]%Q)
  = [1000; 2001; 3001]%Q
  /\ (1000 <= 2001 - 1000)%Q.
Proof.
  split; [reflexivity|].
  apply (proj2 (proj2 (render_loop_throttled [16; 500; 1000; 1500; 2001; 3000; 3001]%Q))
               0%nat 1000%Q 2001%Q); reflexivity.
Defined.

(** ** Cart threshold *)

Lemma all_digits_append (a b : string) :
  Str.all_digits (a +:+ b) = Str.all_digits a && Str.all_digits b.
Proof.
  induction a as [|c a IH]; rewrite ?append_nil, ?append_cons; simpl;
    [reflexivity | now rewrite IH, andb_assoc].
Qed.

Lemma all_digits_zeros (k : nat) : Str.all_digits (Str.zeros k) = true.
Proof. induction k as [|k IH]; simpl; [reflexivity | exact IH]. Qed.

Lemma length_zeros (k : nat) : String.length (Str.zeros k) = k.
Proof. induction k as [|k IH]; simpl; [reflexivity | now rewrite IH]. Qed.

Lemma all_digits_decimal (n : N) : Str.all_digits (Str.decimal n) = true.
Proof.
  unfold Str.decimal. generalize (N.to_uint n) as d.
  induction d as [|d IH|d IH|d IH|d IH|d IH|d IH|d IH|d IH|d IH|d IH]; simpl;
    try reflexivity; exact IH.
Qed.




Lemma digits_value_zeros (k : nat) (s : string) :
  Str.digits_value 0 (Str.zeros k +:+ s) = Str.digits_value 0 s.
Proof.
  induction k as [|k IH]; rewrite ?append_nil; [reflexivity|].
  cbn [Str.zeros]. rewrite append_cons. exact IH.
Qed.

Lemma digits_value_acc (d : Decimal.uint) (acc : positive) :
  Str.digits_value (Z.pos acc) (NilEmpty.string_of_uint d)
  = Some (Z.pos (Pos.of_uint_acc d acc)).
Proof.
  revert acc.
  induction d as [|d IH|d IH|d IH|d IH|d IH|d IH|d IH|d IH|d IH|d IH]; intros acc;
    cbn [NilEmpty.string_of_uint Str.digits_value Pos.of_uint_acc];
    [reflexivity|..];
    match goal with
    | |- context [Str.digit_value ?c] =>
      let v := eval vm_compute in (Str.digit_value c) in
      change (Str.digit_value c) with v
    end; cbv iota; rewrite <- IH; f_equal; lia.
Qed.

Lemma digits_value_uint (d : Decimal.uint) :
  Str.digits_value 0 (NilEmpty.string_of_uint d) = Some (Z.of_N (N.of_uint d)).
Proof.
  unfold N.of_uint.
  induction d as [|d IH|d IH|d IH|d IH|d IH|d IH|d IH|d IH|d IH|d IH];
    cbn [NilEmpty.string_of_uint Str.digits_value Pos.of_uint];
    [reflexivity|..];
    match goal with
    | |- context [Str.digit_value ?c] =>
      let v := eval vm_compute in (Str.digit_value c) in
      change (Str.digit_value c) with v
    end; cbv iota; [exact IH|..]; apply digits_value_acc.
Qed.

Lemma Number_decimal (n : N) : Str.Number (Str.decimal n) = Some (Z.of_N n).
Proof.
  unfold Str.Number, Str.decimal. rewrite digits_value_uint.
  now rewrite DecimalN.Unsigned.of_to.
Qed.









(** ** Evergreen cycles *)

Lemma safeGet_safeSet_working (st : Storage) (key : string) (v : StoredValue) :
  mode st = Working ->
  safeGet (fst (safeSet st key v)) key
  = match v with VRaw _ => None | _ => Some v end.
Proof.
  intros Hm. unfold safeSet, safeGet. rewrite Hm. simpl.
  rewrite lookup_insert_eq. now destruct v.
Qed.

Lemma safeSet_not_working (st : Storage) (key : string) (v : StoredValue) :
  mode st ≠ Working -> fst (safeSet st key v) = st.
Proof. intros Hm. unfold safeSet. destruct (mode st); simpl; congruence. Qed.

Lemma safeSet_mode (st : Storage) (key : string) (v : StoredValue) :
  mode (fst (safeSet st key v)) = mode st.
Proof. unfold safeSet. destruct (mode st) eqn:E; simpl; congruence. Qed.

Lemma evergreen_first_cycle (t : Timer) (key : string) (ls : Storage) (now d : Z) :
  evergreenDuration t = Some d -> d ≠ 0 ->
  truthyValue (safeGetStorage ls key) = false ->
  EvergreenTimerHandler.calculateEndTime t key ls now
  = (Some (now + d * 60 * 1000), fst (safeSetStorage ls key (VCycle now None))).
Proof.
  intros Hd Hd0 Hst. unfold EvergreenTimerHandler.calculateEndTime.
  rewrite Hd. unfold Js.truthyZ at 1.
  destruct (Z.eqb_spec d 0) as [|_]; [contradiction|]. simpl negb. cbv iota.
  rewrite Hst. unfold EvergreenTimerHandler.setNewStartTime. now rewrite Hd.
Qed.

Lemma evergreen_restart (t : Timer) (key : string) (ls : Storage)
      (start now d : Z) (resetAt : option Z) :
  evergreenDuration t = Some d -> d ≠ 0 ->
  Js.truthyZ (evergreenResetDelay t) = false ->
  safeGetStorage ls key = Some (VCycle start resetAt) ->
  (Js.truthyZ resetAt && num_ge (Some now) resetAt = true) \/ start + d * 60 * 1000 <= now ->
  EvergreenTimerHandler.calculateEndTime t key ls now
  = (Some (now + d * 60 * 1000), fst (safeSetStorage ls key (VCycle now None))).
Proof.
  intros Hd Hd0 Hr Hst Hdue. unfold EvergreenTimerHandler.calculateEndTime.
  rewrite Hd. unfold Js.truthyZ at 1.
  destruct (Z.eqb_spec d 0) as [|_]; [contradiction|]. simpl negb. cbv iota.
  rewrite Hst. simpl truthyValue. cbv iota.
  assert (Hnew : EvergreenTimerHandler.setNewStartTime t key ls now
                 = (Some (now + d * 60 * 1000),
                    fst (safeSetStorage ls key (VCycle now None)))).
  { unfold EvergreenTimerHandler.setNewStartTime. now rewrite Hd. }
  destruct (Js.truthyZ resetAt && num_ge (Some now) resetAt) eqn:Hreset; [exact Hnew|].
  destruct Hdue as [Hdue|Hdue]; [discriminate|].
  destruct (Z.leb_spec (start + d * 60 * 1000) now) as [_|]; [|lia].
  rewrite Hr. simpl. exact Hnew.
Qed.

(** The call of [calculateEndTime] at [now] returned the end of a cycle
    started at [now]: what the store holds afterwards. *)
Lemma evergreen_started (t : Timer) (key : string) (ls ls1 : Storage) (now d : Z) :
  evergreenDuration t = Some d -> 0 < d ->
  Js.truthyZ (evergreenResetDelay t) = false ->
  EvergreenTimerHandler.calculateEndTime t key ls now = (Some (now + d * 60 * 1000), ls1) ->
  truthyValue (safeGetStorage ls1 key) = false
  \/ exists start resetAt,
      safeGetStorage ls1 key = Some (VCycle start resetAt)
      /\ ((Js.truthyZ resetAt && num_ge (Some now) resetAt = true) \/ start <= now).
Proof.
  intros Hd Hd0 Hr. unfold EvergreenTimerHandler.calculateEndTime.
  rewrite Hd. unfold Js.truthyZ at 1.
  destruct (Z.eqb_spec d 0) as [|_]; [lia|]. simpl negb. cbv iota.
  assert (Hnew :
            (truthyValue (safeGetStorage ls key) = false
             \/ exists start resetAt,
                 safeGetStorage ls key = Some (VCycle start resetAt)
                 /\ ((Js.truthyZ resetAt && num_ge (Some now) resetAt = true)
                     \/ start <= now)) ->
            EvergreenTimerHandler.setNewStartTime t key ls now
            = (Some (now + d * 60 * 1000), ls1) ->
            truthyValue (safeGetStorage ls1 key) = false
            \/ exists start resetAt,
                safeGetStorage ls1 key = Some (VCycle start resetAt)
                /\ ((Js.truthyZ resetAt && num_ge (Some now) resetAt = true)
                    \/ start <= now)).
  { intros Hold. unfold EvergreenTimerHandler.setNewStartTime. rewrite Hd.
    intros E. inversion E as [Hls1]. clear E.
    destruct (decide (mode ls = Working)) as [Hm|Hm].
    - right. exists now, None. split; [|right; lia].
      unfold safeGetStorage, safeSetStorage. now rewrite safeGet_safeSet_working.
    - unfold safeSetStorage. now rewrite safeSet_not_working by assumption. }
  destruct (truthyValue (safeGetStorage ls key)) eqn:Htruthy.
  2:{ apply Hnew. now left. }
  destruct (safeGetStorage ls key) as [[b|start resetAt|m|raw]|] eqn:Hst;
    try discriminate.
  destruct (Js.truthyZ resetAt && num_ge (Some now) resetAt) eqn:Hreset.
  { apply Hnew. right. exists start, resetAt. split; [reflexivity | now left]. }
  destruct (Z.leb_spec (start + d * 60 * 1000) now) as [Hexp|Hlive].
  - rewrite Hr. simpl.
    apply Hnew. right. exists start, resetAt. split; [reflexivity | right; lia].
  - intros E. inversion E as [[Hs Hls]]. subst ls1.
    right. exists start, resetAt. split; [exact Hst | right; lia].
Qed.

(** C4 (as amended).  An Evergreen handler with duration 10 minutes and no
    reset delay, whose cycle was started at [t0] (the end-timestamp computed
    at [t0] is [t0 + 10 minutes]): when the wall clock reads exactly
    [t0 + 10 minutes], [isActive()] itself starts the fresh cycle and returns
    true, and the new end-timestamp [t0 + 20 minutes] is strictly later than
    the first one. *)
Theorem evergreen_round_trip (t : Timer) (key : string) (ls ls1 : Storage) (t0 : Z) :
  evergreenDuration t = Some 10 ->
  Js.truthyZ (evergreenResetDelay t) = false ->
  0 <= t0 ->
  EvergreenTimerHandler.initialize t key ls t0 = (Some (t0 + 600000), ls1) ->
  exists ls2 : Storage,
    EvergreenTimerHandler.isActive t key ls1 (t0 + 600000)
    = (true, Some (t0 + 1200000), ls2)
    /\ t0 + 600000 < t0 + 1200000.
Proof.
  intros Hd Hr Ht0 Hinit.
  exists (fst (safeSetStorage ls1 key (VCycle (t0 + 600000) None))).
  split; [|lia].
  unfold EvergreenTimerHandler.initialize in Hinit.
  assert (Hcalc : EvergreenTimerHandler.calculateEndTime t key ls1 (t0 + 600000)
                  = (Some (t0 + 600000 + 10 * 60 * 1000),
                     fst (safeSetStorage ls1 key (VCycle (t0 + 600000) None)))).
  { destruct (evergreen_started t key ls ls1 t0 10 Hd ltac:(lia) Hr Hinit)
      as [Hnone|(start & resetAt & Hst & Hdue)].
    - apply evergreen_first_cycle; try assumption; lia.
    - apply (evergreen_restart t key ls1 start (t0 + 600000) 10 resetAt);
        try assumption; try lia.
      destruct Hdue as [Hdue|Hdue]; [left | right; lia].
      apply andb_true_iff in Hdue as [H1 H2]. apply andb_true_iff. split; [exact H1|].
      destruct resetAt as [r|]; [|discriminate]. simpl in *.
      apply Z.leb_le in H2. apply Z.leb_le. lia. }
  unfold EvergreenTimerHandler.isActive. rewrite Hcalc.
  rewrite timeRemaining_active by lia.
  replace (t0 + 600000 + 10 * 60 * 1000) with (t0 + 1200000) by lia.
  reflexivity.
Qed.

Lemma evergreen_round_trip_witness :
  let t := mkTimer "t1" (Some 10) None None None AttrMissing None None true
                   AttrMissing AttrMissing in
  let started := EvergreenTimerHandler.initialize t "k" (mkStorage ∅ Working) 1000000 in
  exists ls2 : Storage,
    EvergreenTimerHandler.isActive t "k" (snd started) (1000000 + 600000)
    = (true, Some (1000000 + 1200000), ls2)
    /\ 1000000 + 600000 < 1000000 + 1200000.
Proof.
  intros t started.
  apply (evergreen_round_trip t "k" (mkStorage ∅ Working) (snd started) 1000000);
    [reflexivity | reflexivity | lia | reflexivity].
Defined.

(** C4, as the claim words it, fails: at exactly [t0 + 10 minutes] the call
    of [isActive()] returns true, not false. *)
Lemma evergreen_active_at_rollover :
  let t := mkTimer "t1" (Some 10) None None None AttrMissing None None true
                   AttrMissing AttrMissing in
  let t0 := 1000000 in
  let started := EvergreenTimerHandler.initialize t "k" (mkStorage ∅ Working) t0 in
  fst started = Some (t0 + 600000)
  /\ fst (fst (EvergreenTimerHandler.isActive t "k" (snd started) (t0 + 600000))) ≠ false.
Proof. vm_compute. split; [reflexivity | discriminate]. Qed.

(** ** Closed-timer suppression *)

Lemma includesId_iff (ids : list string) (x : string) :
  includesId ids x = true <-> x ∈ ids.
Proof.
  unfold includesId. rewrite existsb_exists, list_elem_of_In. split.
  - intros (y & Hy & E). apply String.eqb_eq in E. now subst.
  - intros H. exists x. split; [exact H | apply String.eqb_refl].
Qed.

Lemma getClosedTimers_ids (ls : Storage) (now : Z) (timerId : string) :
  includesId (fst (getClosedTimers ls now)) timerId = true
  <-> exists ts, closedData ls !! timerId = Some ts /\ now - ts < DAY_MS.
Proof.
  rewrite includesId_iff. unfold getClosedTimers, youngerThanDay. simpl.
  rewrite list_elem_of_fmap. split.
  - intros ([k ts] & -> & Hin). apply elem_of_map_to_list in Hin.
    apply map_lookup_filter_Some in Hin as [Hl Hp]. now exists ts.
  - intros (ts & Hl & Hp). exists (timerId, ts). split; [reflexivity|].
    apply elem_of_map_to_list. apply map_lookup_filter_Some. now split.
Qed.

Lemma closedData_written (ls : Storage) (m : gmap string Z) :
  mode ls = Working ->
  closedData (fst (safeSetStorage ls STORAGE_KEYS.CLOSED (VClosed m))) = m.
Proof.
  intros Hm. unfold closedData, safeGetStorage, safeSetStorage.
  now rewrite safeGet_safeSet_working.
Qed.

Lemma getClosedTimers_store (ls : Storage) (now : Z) :
  mode ls = Working ->
  closedData (snd (getClosedTimers ls now)) = youngerThanDay now (closedData ls)
  /\ mode (snd (getClosedTimers ls now)) = Working.
Proof.
  intros Hm. unfold getClosedTimers. simpl.
  destruct (Nat.eqb_spec (size (youngerThanDay now (closedData ls))) (size (closedData ls)))
    as [Hsize|Hsize]; simpl.
  - split; [|exact Hm]. symmetry. apply map_subseteq_size_eq.
    + apply map_filter_subseteq.
    + lia.
  - split; [now apply closedData_written|].
    unfold safeSetStorage. now rewrite safeSet_mode.
Qed.

Lemma saveClosedTimer_store (ls : Storage) (timerId : string) (t : Z) :
  mode ls = Working ->
  closedData (saveClosedTimer ls timerId t) = <[timerId := t]> (closedData ls)
  /\ mode (saveClosedTimer ls timerId t) = Working.
Proof.
  intros Hm. unfold saveClosedTimer. split; [now apply closedData_written|].
  unfold safeSetStorage. now rewrite safeSet_mode.
Qed.












(** ** Analytics: retry policy *)

Lemma onSettled_cases (w : World) (r : Request) (o : Outcome) :
  (retryable o (reqRetryCount r) -> onSettled w r o = retry w r)
  /\ (~ retryable o (reqRetryCount r) -> onSettled w r o = w).
Proof.
  unfold onSettled, retryable, response_ok.
  destruct o as [status readable|].
  - split.
    + intros (-> & Hs & Hrc).
      replace (200 <=? status) with true by (symmetry; apply Z.leb_le; lia).
      replace (status <=? 299) with false by (symmetry; apply Z.leb_gt; lia).
      simpl.
      replace ((500 <=? status) || (status =? 404)) with true.
      2:{ symmetry. apply orb_true_iff. destruct Hs; [left; lia | right; lia]. }
      replace (reqRetryCount r <? 3)%nat with true by (symmetry; apply Nat.ltb_lt; lia).
      reflexivity.
    + intros Hn.
      destruct ((200 <=? status) && (status <=? 299)); [reflexivity|].
      destruct readable; [|reflexivity].
      destruct (((500 <=? status) || (status =? 404)) && (reqRetryCount r <? 3)%nat) eqn:E;
        [|reflexivity].
      exfalso. apply Hn. apply andb_true_iff in E as [E1 E2].
      apply orb_true_iff in E1. apply Nat.ltb_lt in E2.
      split; [reflexivity|]. split; [|exact E2]. destruct E1; [left; lia | right; lia].
  - split.
    + intros H. apply Nat.ltb_lt in H. now rewrite H.
    + intros H. destruct (Nat.ltb_spec (reqRetryCount r) 3); [contradiction | reflexivity].
Qed.

Lemma run_idle (w : World) (actions : list Action) :
  inflight w = [] -> pending w = [] ->
  Forall (λ a, isCallback a = true) actions ->
  run w actions = w.
Proof.
  intros Hi Hp Hall. induction Hall as [|a rest Ha Hrest IH]; [reflexivity|].
  unfold run in *. simpl.
  assert (Hstep : step w a = w).
  { destruct a as [ev tid|i o|i|p]; simpl in *; try discriminate.
    - now rewrite Hi.
    - now rewrite Hp. }
  rewrite Hstep. exact IH.
Qed.

(** The retry policy on every outcome.  When a submission with attempt
    counter [retryCount] settles, a retry is scheduled, after [2^retryCount]
    seconds and with the counter incremented, exactly when [retryCount < 3]
    and either the response has status >= 500 or 404 and its error body could
    be read, or the request failed at the network level; every other outcome
    schedules nothing (in particular any outcome of the attempt with
    [retryCount = 3]).  So the attempts 0, 1 and 2 of a submission answered
    by 503 are followed by retries after 1s, 2s and 4s and attempt 3 by none;
    a click that receives four consecutive 503 responses is sent four times
    and then abandoned. *)
Theorem analytics_retry_policy :
  (forall (w : World) (r : Request) (o : Outcome),
      (retryable o (reqRetryCount r) ->
       onSettled w r o
       = setTimeout w (mkTimeout (2 ^ Z.of_nat (reqRetryCount r) * 1000)
                                 (reqEvent r) (reqTimerId r) (reqRetryCount r + 1)))
      /\ (~ retryable o (reqRetryCount r) -> onSettled w r o = w))
  /\ (forall (w : World) (r : Request) (o : Outcome),
         (3 <= reqRetryCount r)%nat -> onSettled w r o = w)
  /\ (forall (w : World) (event : EventKind) (timerId path : string),
         let bad := Response 503 true in
         let attempt k := mkRequest event timerId k path in
         onSettled w (attempt 0%nat) bad = setTimeout w (mkTimeout 1000 event timerId 1)
         /\ onSettled w (attempt 1%nat) bad = setTimeout w (mkTimeout 2000 event timerId 2)
         /\ onSettled w (attempt 2%nat) bad = setTimeout w (mkTimeout 4000 event timerId 3)
         /\ onSettled w (attempt 3%nat) bad = w)
  /\ (forall (path timerId : string) (ss : Storage),
         timerId ≠ ""%string ->
         let bad := Response 503 true in
         let w := run (fresh path ss)
                      [Call Click timerId; Settle 0 bad; Fire 0; Settle 0 bad;
                       Fire 0; Settle 0 bad; Fire 0; Settle 0 bad] in
         sent w = [mkRequest Click timerId 0 path; mkRequest Click timerId 1 path;
                   mkRequest Click timerId 2 path; mkRequest Click timerId 3 path]
         /\ delay <$> scheduled w = [1000; 2000; 4000]
         /\ inflight w = [] /\ pending w = []
         /\ forall later, Forall (λ a, isCallback a = true) later -> run w later = w).
Proof.
  split; [exact onSettled_cases|].
  split.
  { intros w r o Hrc. apply (onSettled_cases w r o).
    destruct o; simpl; lia. }
  split.
  { intros w event timerId path bad attempt. repeat split. }
  intros path timerId ss Hne bad w.
  assert (Hw : w = mkWorld path ss
                 [mkRequest Click timerId 0 path; mkRequest Click timerId 1 path;
                  mkRequest Click timerId 2 path; mkRequest Click timerId 3 path]
                 []
                 [mkTimeout 1000 Click timerId 1; mkTimeout 2000 Click timerId 2;
                  mkTimeout 4000 Click timerId 3]
                 []).
  { subst w bad. destruct timerId as [|c rest]; [congruence|].
    vm_compute. reflexivity. }
  rewrite Hw. cbv [sent scheduled inflight pending fmap list_fmap delay].
  repeat split.
  intros later Hlater. now apply run_idle.
Qed.

Lemma analytics_retry_policy_witness :
  scheduled (onSettled (fresh "/" (mkStorage ∅ Working)) (mkRequest Click "t1" 2 "/")
                       NetworkError)
  = [mkTimeout 4000 Click "t1" 3].
Proof.
  rewrite (proj1 (proj1 analytics_retry_policy (fresh "/" (mkStorage ∅ Working))
                        (mkRequest Click "t1" 2 "/") NetworkError)).
  - reflexivity.
  - simpl. lia.
Defined.

(** C2.  The claim has a retry scheduled whenever a response has status
    >= 500 and [retryCount < 3].  The code decides on the retry only after
    reading the error body: a 503 response at [retryCount = 0] whose body
    cannot be read schedules nothing, whereas the same response with a
    readable body, and a request rejected at the network level, both
    schedule the retry after one second. *)
Lemma no_retry_when_error_body_unreadable :
  let r := mkRequest Click "t1" 0 "/" in
  let w := fetch (fresh "/" (mkStorage ∅ Working)) r in
  500 <= 503 /\ (reqRetryCount r < 3)%nat
  /\ scheduled (onSettled w r (Response 503 false)) = []
  /\ pending (onSettled w r (Response 503 false)) = []
  /\ scheduled (onSettled w r (Response 503 true)) = [mkTimeout 1000 Click "t1" 1]
  /\ scheduled (onSettled w r NetworkError) = [mkTimeout 1000 Click "t1" 1].
Proof. repeat split; simpl; lia. Qed.

(** ** Analytics: impression deduplication *)

Lemma append_inv_head (s x y : string) : s +:+ x = s +:+ y -> x = y.
Proof.
  induction s as [|c s IH]; rewrite ?append_nil, ?append_cons; [tauto|].
  intros H. apply IH. now inversion H.
Qed.

Lemma append_inv_tail (x y s : string) : x +:+ s = y +:+ s -> x = y.
Proof.
  revert y. induction x as [|c x IH]; intros [|d y] H;
    rewrite ?append_nil, ?append_cons in H.
  - reflexivity.
  - apply (f_equal String.length) in H. simpl in H. rewrite length_append in H. lia.
  - apply (f_equal String.length) in H. simpl in H. rewrite length_append in H. lia.
  - inversion H. f_equal. now apply IH.
Qed.

Lemma sessionKey_inj (a b path : string) :
  sessionKey a path = sessionKey b path -> a = b.
Proof.
  unfold sessionKey. intros H. apply append_inv_head in H.
  now apply append_inv_tail in H.
Qed.

(** A mark, once readable as set, stays set when a key is marked. *)
Lemma marked_mono (ss : Storage) (timerId path key' : string) :
  marked ss timerId path = true ->
  marked (fst (safeSetSession ss key' (VBool true))) timerId path = true.
Proof.
  unfold marked, safeSetSession, safeGetSession, safeSet, safeGet.
  destruct (mode ss) eqn:Hm; simpl; rewrite ?Hm; try tauto.
  destruct (decide (key' = sessionKey timerId path)) as [->|Hne].
  - now rewrite lookup_insert_eq.
  - now rewrite lookup_insert_ne.
Qed.

Lemma marked_other_key (ss : Storage) (timerId path key' : string) :
  key' ≠ sessionKey timerId path ->
  marked (fst (safeSetSession ss key' (VBool true))) timerId path = marked ss timerId path.
Proof.
  intros Hne. unfold marked, safeSetSession, safeGetSession, safeSet, safeGet.
  destruct (mode ss) eqn:Hm; simpl; rewrite ?Hm; try reflexivity.
  now rewrite lookup_insert_ne.
Qed.

Lemma marked_set (ss : Storage) (timerId path : string) :
  mode ss = Working ->
  marked (fst (safeSetSession ss (sessionKey timerId path) (VBool true))) timerId path = true.
Proof.
  intros Hm. unfold marked, safeGetSession, safeSetSession.
  now rewrite safeGet_safeSet_working.
Qed.

Lemma markTracked_sets (w : World) (timerId : string) :
  mode (session w) = Working -> alreadyTracked (markTracked w timerId) timerId = true.
Proof. intros Hm. unfold alreadyTracked, markTracked. simpl. now apply marked_set. Qed.

Lemma sameTracking_tracked (w1 w2 : World) (timerId : string) :
  sameTracking w1 w2 -> alreadyTracked w1 timerId = alreadyTracked w2 timerId.
Proof. intros (Hp & Hs & _). unfold alreadyTracked. now rewrite Hp, Hs. Qed.

Lemma onSettled_sameTracking (w : World) (r : Request) (o : Outcome) :
  sameTracking (onSettled w r o) w.
Proof.
  unfold onSettled, retry, setTimeout.
  destruct o as [status readable|].
  - destruct (response_ok status); [now repeat split|].
    destruct readable; [|now repeat split].
    destruct (_ && _); now repeat split.
  - destruct (_ <? _)%nat; now repeat split.
Qed.

Lemma impressionsSent_fetch (w : World) (r : Request) (timerId path : string) :
  impressionsSent (fetch w r) timerId path
  = (impressionsSent w timerId path + if isImpressionFor timerId path r then 1 else 0)%nat.
Proof.
  unfold impressionsSent, fetch. simpl. rewrite filter_app, length_app. f_equal.
  destruct (isImpressionFor timerId path r) eqn:E.
  - now rewrite filter_cons_True.
  - rewrite filter_cons_False; [reflexivity | congruence].
Qed.

Lemma mode_markTracked (w : World) (timerId : string) :
  mode (session (markTracked w timerId)) = mode (session w).
Proof. unfold markTracked, safeSetSession. simpl. apply safeSet_mode. Qed.

(** What one call of the sender does. *)
Lemma sendAnalyticsEvent_cases (w : World) (event : EventKind) (timerId : string)
      (retryCount : nat) :
  (sendAnalyticsEvent w event timerId retryCount = w)
  \/ (event = Click /\ timerId ≠ ""%string
      /\ sendAnalyticsEvent w event timerId retryCount
         = fetch w (mkRequest Click timerId retryCount (currentPath w)))
  \/ (event = Impression /\ timerId ≠ ""%string /\ alreadyTracked w timerId = false
      /\ sendAnalyticsEvent w event timerId retryCount
         = fetch (markTracked w timerId)
                 (mkRequest Impression timerId retryCount (currentPath w))).
Proof.
  unfold sendAnalyticsEvent.
  destruct (String.eqb_spec timerId "") as [|Hne]; [now left|].
  destruct event.
  - destruct (alreadyTracked w timerId) eqn:E; [now left|]. right; right. now repeat split.
  - right; left. now repeat split.
Qed.

(** The tracking state after one call of the sender: the path and the mode
    of the store are kept and marks are never cleared; either the store and
    the impression counts are as before, or the call was an impression whose
    mark was unset, the mark was written, and the one request counted. *)
Lemma sendAnalyticsEvent_tracking (w : World) (event : EventKind) (other : string)
      (retryCount : nat) :
  let w' := sendAnalyticsEvent w event other retryCount in
  currentPath w' = currentPath w
  /\ mode (session w') = mode (session w)
  /\ (forall timerId path, marked (session w) timerId path = true ->
                           marked (session w') timerId path = true)
  /\ ((session w' = session w
       /\ forall timerId path,
           impressionsSent w' timerId path = impressionsSent w timerId path)
      \/ (marked (session w) other (currentPath w) = false
          /\ session w'
             = fst (safeSetSession (session w) (sessionKey other (currentPath w))
                                   (VBool true))
          /\ forall timerId path,
              impressionsSent w' timerId path
              = (impressionsSent w timerId path
                 + if String.eqb other timerId && String.eqb (currentPath w) path
                   then 1 else 0)%nat)).
Proof.
  intros w'. subst w'.
  destruct (sendAnalyticsEvent_cases w event other retryCount)
    as [->|[(-> & Hne & ->)|(-> & Hne & Hun & ->)]].
  - split; [reflexivity|]. split; [reflexivity|]. split; [tauto|]. left. now split.
  - split; [reflexivity|]. split; [reflexivity|]. split; [tauto|].
    left. split; [reflexivity|].
    intros timerId path. rewrite impressionsSent_fetch. simpl. lia.
  - split; [reflexivity|]. split; [apply mode_markTracked|].
    split; [intros timerId path; simpl; apply marked_mono|].
    right. split; [exact Hun|]. split; [reflexivity|].
    intros timerId path. now rewrite impressionsSent_fetch.
Qed.

Lemma dedupState_ext (timerId path : string) (w1 w2 : World) :
  sameTracking w1 w2 -> dedupState timerId path w2 -> dedupState timerId path w1.
Proof.
  intros (Hp & Hs & Hsent) (Hm & Hpath & H). unfold dedupState, impressionsSent.
  now rewrite Hp, Hs, Hsent.
Qed.

Lemma sendAnalyticsEvent_dedupState (timerId path : string) (w : World)
      (event : EventKind) (other : string) (retryCount : nat) :
  dedupState timerId path w ->
  dedupState timerId path (sendAnalyticsEvent w event other retryCount).
Proof.
  intros (Hm & Hpath & H).
  destruct (sendAnalyticsEvent_tracking w event other retryCount)
    as (Hp' & Hm' & Hmono & [(Hs & Hc)|(Hun & Hs & Hc)]).
  - split; [now rewrite Hm'|]. split; [now rewrite Hp'|]. now rewrite Hs, Hc.
  - split; [now rewrite Hm'|]. split; [now rewrite Hp'|].
    rewrite Hc, Hs, Hpath. rewrite Hpath in Hun.
    rewrite String.eqb_refl, andb_true_r.
    destruct (String.eqb_spec other timerId) as [->|Hid].
    + right. destruct H as [[Hcount _]|[_ Ht]]; [|congruence].
      rewrite Hcount. split; [reflexivity | now apply marked_set].
    + rewrite Nat.add_0_r. rewrite marked_other_key; [exact H|].
      intros E. apply sessionKey_inj in E. contradiction.
Qed.

Lemma step_dedupState (timerId path : string) (w : World) (a : Action) :
  staysOn path a -> dedupState timerId path w -> dedupState timerId path (step w a).
Proof.
  intros Hstay H. destruct a as [event other|i o|i|p]; simpl.
  - now apply sendAnalyticsEvent_dedupState.
  - destruct (inflight w !! i) as [r|]; [|exact H].
    eapply dedupState_ext; [apply onSettled_sameTracking|].
    eapply dedupState_ext; [|exact H]. now repeat split.
  - destruct (pending w !! i) as [t|]; [|exact H].
    apply sendAnalyticsEvent_dedupState.
    eapply dedupState_ext; [|exact H]. now repeat split.
  - simpl in Hstay. subst p. destruct H as (Hm & Hpath & H).
    split; [exact Hm|]. split; [reflexivity | exact H].
Qed.

Lemma run_dedupState (timerId path : string) (actions : list Action) (w : World) :
  Forall (staysOn path) actions ->
  dedupState timerId path w -> dedupState timerId path (run w actions).
Proof.
  intros Hall. revert w. induction Hall as [|a rest Ha Hrest IH]; intros w H; [exact H|].
  unfold run in *. simpl. apply IH. now apply step_dedupState.
Qed.

Lemma step_marked_mono (w : World) (a : Action) (timerId path : string) :
  marked (session w) timerId path = true ->
  marked (session (step w a)) timerId path = true.
Proof.
  intros H. destruct a as [event other|i o|i|p]; simpl.
  - now apply sendAnalyticsEvent_tracking.
  - destruct (inflight w !! i) as [r|]; [|exact H].
    destruct (onSettled_sameTracking
                (mkWorld (currentPath w) (session w) (sent w) (delete i (inflight w))
                         (scheduled w) (pending w)) r o) as (_ & -> & _).
    exact H.
  - destruct (pending w !! i) as [t|]; [|exact H].
    now apply sendAnalyticsEvent_tracking.
  - exact H.
Qed.

Lemma run_marked_mono (actions : list Action) (w : World) (timerId path : string) :
  marked (session w) timerId path = true ->
  marked (session (run w actions)) timerId path = true.
Proof.
  revert w. induction actions as [|a rest IH]; intros w H; [exact H|].
  unfold run in *. simpl. apply IH. now apply step_marked_mono.
Qed.

Lemma run_app (w : World) (l1 l2 : list Action) :
  run w (l1 ++ l2) = run (run w l1) l2.
Proof. unfold run. apply fold_left_app. Qed.

Lemma call_marks_and_sends (timerId path : string) (w : World) :
  timerId ≠ ""%string -> dedupState timerId path w ->
  impressionsSent (step w (Call Impression timerId)) timerId path = 1%nat
  /\ marked (session (step w (Call Impression timerId))) timerId path = true.
Proof.
  intros Hne Hd.
  pose proof (step_dedupState timerId path w (Call Impression timerId) I Hd)
    as (_ & _ & Hafter).
  destruct Hd as (Hm & Hpath & Hbefore).
  assert (Ht : marked (session (step w (Call Impression timerId))) timerId path = true).
  { simpl. unfold sendAnalyticsEvent.
    destruct (String.eqb_spec timerId ""); [contradiction|].
    destruct (alreadyTracked w timerId) eqn:Htr.
    - unfold alreadyTracked in Htr. now rewrite Hpath in Htr.
    - simpl. rewrite Hpath. now apply marked_set. }
  split; [|exact Ht].
  destruct Hafter as [[_ Hf]|[Hc _]]; [congruence | exact Hc].
Qed.

(** C3 (as amended).  When [sendAnalyticsEvent] is called with kind
    'impression': if the session mark keyed by (timer id, current path) is
    already set, it returns without issuing a request; otherwise, provided
    the session store takes the write, the mark is written before the
    request is sent, and it stays set whatever happens to the request; so,
    in a tab whose session store works and holds no mark yet for the timer
    on the path, two top-level impression calls for the same timer id on
    that path, however interleaved with responses, retries, other events
    and reloads of the page, give exactly one submission. *)
Theorem impression_dedup :
  (forall (w : World) (timerId : string) (retryCount : nat),
      alreadyTracked w timerId = true ->
      sendAnalyticsEvent w Impression timerId retryCount = w)
  /\ (forall (w : World) (timerId : string) (retryCount : nat),
         timerId ≠ ""%string ->
         mode (session w) = Working ->
         alreadyTracked w timerId = false ->
         let w' := sendAnalyticsEvent w Impression timerId retryCount in
         w' = fetch (markTracked w timerId)
                    (mkRequest Impression timerId retryCount (currentPath w))
         /\ alreadyTracked (markTracked w timerId) timerId = true
         /\ sent w' = sent w ++ [mkRequest Impression timerId retryCount (currentPath w)]
         /\ forall later, marked (session (run w' later)) timerId (currentPath w) = true)
  /\ (forall (path timerId : string) (ss : Storage) (pre mid post : list Action),
         timerId ≠ ""%string ->
         mode ss = Working ->
         marked ss timerId path = false ->
         Forall (staysOn path) (pre ++ mid ++ post) ->
         impressionsSent
           (run (fresh path ss)
                (pre ++ Call Impression timerId :: mid ++ Call Impression timerId :: post))
           timerId path = 1%nat).
Proof.
  split.
  { intros w timerId retryCount Ht. unfold sendAnalyticsEvent. rewrite Ht.
    now destruct (String.eqb timerId ""). }
  split.
  { intros w timerId retryCount Hne Hm Hun w'.
    assert (E : w' = fetch (markTracked w timerId)
                           (mkRequest Impression timerId retryCount (currentPath w))).
    { subst w'. unfold sendAnalyticsEvent. rewrite Hun.
      now destruct (String.eqb_spec timerId ""). }
    split; [exact E|]. split; [now apply markTracked_sets|].
    split; [now rewrite E|].
    intros later. apply run_marked_mono. rewrite E. simpl. now apply marked_set. }
  intros path timerId ss pre mid post Hne Hm Hun Hstay.
  apply Forall_app in Hstay as [Hpre Hrest]. apply Forall_app in Hrest as [Hmid Hpost].
  assert (H0 : dedupState timerId path (fresh path ss)).
  { split; [exact Hm|]. split; [reflexivity|]. left. now split. }
  rewrite run_app.
  pose proof (run_dedupState timerId path pre _ Hpre H0) as H1.
  change (run (run (fresh path ss) pre)
              (Call Impression timerId :: mid ++ Call Impression timerId :: post))
    with (run (step (run (fresh path ss) pre) (Call Impression timerId))
              (mid ++ Call Impression timerId :: post)).
  destruct (call_marks_and_sends timerId path _ Hne H1) as [_ Ht].
  pose proof (step_dedupState timerId path _ (Call Impression timerId) I H1) as H2.
  assert (Hlater : Forall (staysOn path) (mid ++ Call Impression timerId :: post)).
  { apply Forall_app. split; [exact Hmid|]. constructor; [exact I | exact Hpost]. }
  pose proof (run_dedupState timerId path _ _ Hlater H2) as (_ & _ & [[_ Hf]|[Hc _]]);
    [|exact Hc].
  rewrite run_marked_mono in Hf by exact Ht. discriminate.
Qed.

Lemma impression_dedup_witness :
  impressionsSent
    (run (fresh "/products/x" (mkStorage ∅ Working))
         ([] ++ Call Impression "t1"
             :: [Settle 0 (Response 503 true); Fire 0; Load "/products/x"]
             ++ Call Impression "t1" :: []))
    "t1" "/products/x" = 1%nat.
Proof.
  apply (proj2 (proj2 impression_dedup) "/products/x"%string "t1"%string
               (mkStorage ∅ Working) []
               [Settle 0 (Response 503 true); Fire 0; Load "/products/x"] []).
  - discriminate.
  - reflexivity.
  - reflexivity.
  - repeat constructor.
Defined.

(** C3, as the claim words it, fails when the session store rejects writes:
    the mark is not written, and two impression calls for the same timer on
    the same path give two submissions. *)
Lemma impression_sent_twice_when_store_rejects_writes :
  let w0 := fresh "/products/x" (mkStorage ∅ ReadOnly) in
  alreadyTracked (step w0 (Call Impression "t1")) "t1" = false
  /\ impressionsSent (run w0 [Call Impression "t1"; Call Impression "t1"])
                     "t1" "/products/x" = 2%nat.
Proof. split; reflexivity. Qed.

(** ** Analytics: impressions and retries *)

Lemma atMostOnce_ext (timerId path : string) (w1 w2 : World) :
  sameTracking w1 w2 -> atMostOnce timerId path w2 -> atMostOnce timerId path w1.
Proof.
  intros (Hp & Hs & Hsent) (Hm & H). unfold atMostOnce, impressionsSent.
  now rewrite Hs, Hsent.
Qed.

Lemma sendAnalyticsEvent_atMostOnce (timerId path : string) (w : World)
      (event : EventKind) (other : string) (retryCount : nat) :
  atMostOnce timerId path w ->
  atMostOnce timerId path (sendAnalyticsEvent w event other retryCount).
Proof.
  intros (Hm & H).
  destruct (sendAnalyticsEvent_tracking w event other retryCount)
    as (Hp' & Hm' & Hmono & [(Hs & Hc)|(Hun & Hs & Hc)]).
  - split; [now rewrite Hm'|]. now rewrite Hs, Hc.
  - split; [now rewrite Hm'|]. rewrite Hc.
    destruct (String.eqb_spec other timerId) as [->|Hid];
      [destruct (String.eqb_spec (currentPath w) path) as [Hpath|Hpath]|]; simpl.
    + right. rewrite Hpath in Hun, Hs.
      destruct H as [Hcount|[_ Ht]]; [|congruence].
      rewrite Hcount, Hs. split; [reflexivity | now apply marked_set].
    + rewrite Nat.add_0_r. destruct H as [Hcount|[Hcount Ht]]; [now left | right].
      split; [exact Hcount | now apply Hmono].
    + rewrite Nat.add_0_r. destruct H as [Hcount|[Hcount Ht]]; [now left | right].
      split; [exact Hcount | now apply Hmono].
Qed.

Lemma step_atMostOnce (timerId path : string) (w : World) (a : Action) :
  atMostOnce timerId path w -> atMostOnce timerId path (step w a).
Proof.
  intros H. destruct a as [event other|i o|i|p]; simpl.
  - now apply sendAnalyticsEvent_atMostOnce.
  - destruct (inflight w !! i) as [r|]; [|exact H].
    eapply atMostOnce_ext; [apply onSettled_sameTracking|].
    eapply atMostOnce_ext; [|exact H]. now repeat split.
  - destruct (pending w !! i) as [t|]; [|exact H].
    apply sendAnalyticsEvent_atMostOnce.
    eapply atMostOnce_ext; [|exact H]. now repeat split.
  - exact H.
Qed.

Lemma sendAnalyticsEvent_retriesMarked (w : World) (event : EventKind)
      (other : string) (retryCount : nat) :
  retriesMarked w -> retriesMarked (sendAnalyticsEvent w event other retryCount).
Proof.
  intros (Hm & Hin & Hpe).
  destruct (sendAnalyticsEvent_cases w event other retryCount)
    as [->|[(_ & _ & ->)|(_ & Hne & Hun & ->)]].
  - now repeat split.
  - split; [exact Hm|]. split; [|exact Hpe].
    intros r Hr Hev. simpl in Hr. apply elem_of_app in Hr as [Hr|Hr].
    + now apply Hin.
    + apply list_elem_of_singleton in Hr. subst r. discriminate.
  - split; [simpl; now rewrite safeSet_mode|]. split.
    + intros r Hr Hev. simpl in Hr. apply elem_of_app in Hr as [Hr|Hr].
      * unfold alreadyTracked. simpl. apply marked_mono. now apply Hin.
      * apply list_elem_of_singleton in Hr. subst r.
        unfold alreadyTracked. simpl. now apply marked_set.
    + intros t Ht Hev. unfold alreadyTracked. simpl. apply marked_mono. now apply Hpe.
Qed.

Lemma step_retriesMarked (w : World) (a : Action) :
  retriesMarked w -> retriesMarked (step w a).
Proof.
  intros (Hm & Hin & Hpe). destruct a as [event other|i o|i|p]; simpl.
  - now apply sendAnalyticsEvent_retriesMarked.
  - destruct (inflight w !! i) as [r|] eqn:Hr; [|now repeat split].
    set (w0 := mkWorld (currentPath w) (session w) (sent w) (delete i (inflight w))
                       (scheduled w) (pending w)).
    assert (Hin0 : forall r', r' ∈ inflight w0 -> reqEvent r' = Impression ->
                              alreadyTracked w0 (reqTimerId r') = true).
    { intros r' Hr' Hev. apply list_elem_of_delete_inv in Hr'. now apply Hin. }
    assert (Hr0 : reqEvent r = Impression -> alreadyTracked w0 (reqTimerId r) = true).
    { intros Hev. apply Hin; [|exact Hev]. eapply list_elem_of_lookup_2. exact Hr. }
    assert (Hretry : retriesMarked (retry w0 r)).
    { split; [exact Hm|]. split; [exact Hin0|].
      intros t Ht Hev. simpl in Ht. apply elem_of_app in Ht as [Ht|Ht].
      - now apply Hpe.
      - apply list_elem_of_singleton in Ht. subst t. simpl in *. now apply Hr0. }
    assert (Hsame : retriesMarked w0) by (split; [exact Hm | now split]).
    unfold onSettled.
    destruct o as [status readable|].
    + destruct (response_ok status); [exact Hsame|].
      destruct readable; [|exact Hsame].
      destruct (_ && _); [exact Hretry | exact Hsame].
    + destruct (_ <? _)%nat; [exact Hretry | exact Hsame].
  - destruct (pending w !! i) as [t|] eqn:Ht; [|now repeat split].
    apply sendAnalyticsEvent_retriesMarked.
    split; [exact Hm|]. split; [exact Hin|].
    intros t' Ht' Hev. apply list_elem_of_delete_inv in Ht'. now apply Hpe.
  - split; [exact Hm|]. split; intros x Hx; simpl in Hx; inversion Hx.
Qed.

Lemma run_invariant (P : World -> Prop) (actions : list Action) (w : World) :
  (forall w' a, P w' -> P (step w' a)) -> P w -> P (run w actions).
Proof.
  intros Hstep. revert w. induction actions as [|a rest IH]; intros w H; [exact H|].
  unfold run in *. simpl. apply IH. now apply Hstep.
Qed.

(** C10 (as amended).  In a browser session whose session store takes
    writes, for every timer id and path at most one impression request is
    ever issued, whatever the responses and however calls, responses, retry
    timers and page loads interleave: the mark is written before the first
    request, so every scheduled impression retry finds it set and returns
    without sending. *)
Theorem impression_sent_at_most_once :
  (forall (start path timerId : string) (ss : Storage) (actions : list Action),
      mode ss = Working ->
      (impressionsSent (run (fresh start ss) actions) timerId path <= 1)%nat)
  /\ (forall (start : string) (ss : Storage) (actions : list Action) (i : nat) (t : Timeout),
         mode ss = Working ->
         let w := run (fresh start ss) actions in
         pending w !! i = Some t ->
         toEvent t = Impression ->
         alreadyTracked w (toTimerId t) = true
         /\ sent (step w (Fire i)) = sent w
         /\ inflight (step w (Fire i)) = inflight w).
Proof.
  split.
  - intros start path timerId ss actions Hm.
    assert (H : atMostOnce timerId path (run (fresh start ss) actions)).
    { apply run_invariant; [intros; now apply step_atMostOnce|].
      split; [exact Hm | now left]. }
    destruct H as [_ [H|[H _]]]; lia.
  - intros start ss actions i t Hm w Ht Hev.
    assert (H : retriesMarked w).
    { apply run_invariant; [intros; now apply step_retriesMarked|].
      split; [exact Hm|]. split; intros x Hx; simpl in Hx; inversion Hx. }
    destruct H as (_ & _ & Hpe).
    assert (Htr : alreadyTracked w (toTimerId t) = true).
    { apply Hpe; [|exact Hev]. eapply list_elem_of_lookup_2. exact Ht. }
    split; [exact Htr|].
    simpl. rewrite Ht, Hev. unfold sendAnalyticsEvent.
    change (alreadyTracked
              (mkWorld (currentPath w) (session w) (sent w) (inflight w) (scheduled w)
                       (delete i (pending w))) (toTimerId t))
      with (alreadyTracked w (toTimerId t)).
    rewrite Htr. now destruct (String.eqb (toTimerId t) "").
Qed.

Lemma impression_sent_at_most_once_witness :
  (impressionsSent
     (run (fresh "/products/x" (mkStorage ∅ Working))
          [Call Impression "t1"; Settle 0 (Response 503 true); Fire 0;
           Load "/cart"; Call Impression "t1"; Load "/products/x";
           Call Impression "t1"; Settle 0 NetworkError])
     "t1" "/products/x" <= 1)%nat.
Proof.
  apply (proj1 impression_sent_at_most_once "/products/x"%string "/products/x"%string
               "t1"%string (mkStorage ∅ Working)).
  reflexivity.
Defined.

(** C10, as the claim words it, fails when the session store rejects
    writes: the retry scheduled after a 503 finds no mark and sends again. *)
Lemma impression_retried_when_store_rejects_writes :
  let w := run (fresh "/products/x" (mkStorage ∅ ReadOnly))
               [Call Impression "t1"; Settle 0 (Response 503 true); Fire 0] in
  sent w = [mkRequest Impression "t1" 0 "/products/x";
            mkRequest Impression "t1" 1 "/products/x"]
  /\ ~ (impressionsSent w "t1" "/products/x" <= 1)%nat.
Proof. split; [reflexivity | vm_compute; lia]. Qed.

(** ** Remaining time and its digits *)

Lemma getTimeRemaining_expired (e now : Z) :
  e ≠ 0 -> e - now <= 0 ->
  TimerHandler.getTimeRemaining (Some e) now = Some zeroRemaining.
Proof.
  intros He Ht. unfold TimerHandler.getTimeRemaining, Js.truthyZ.
  destruct (Z.eqb_spec e 0) as [|_]; [contradiction|]. simpl.
  destruct (Z.leb_spec (e - now) 0); [reflexivity | lia].
Qed.

Lemma getTimeRemaining_inv (endTime : option Z) (now : Z) (r : TimeRemaining) :
  TimerHandler.getTimeRemaining endTime now = Some r ->
  exists e, endTime = Some e /\ e ≠ 0
            /\ ((e - now <= 0 /\ r = zeroRemaining)
                \/ (0 < e - now /\ r = breakdown (e - now))).
Proof.
  intros H. destruct endTime as [e|]; [|discriminate].
  destruct (Z.eq_dec e 0) as [->|He]; [discriminate|].
  exists e. split; [reflexivity|]. split; [exact He|].
  destruct (Z.le_gt_cases (e - now) 0) as [Hle|Hgt].
  - left. split; [exact Hle|]. rewrite getTimeRemaining_expired in H by assumption.
    now inversion H.
  - right. split; [lia|]. rewrite getTimeRemaining_positive in H by (assumption || lia).
    now inversion H.
Qed.

(** X1.  Whatever the stored end-timestamp and the clock, a result of
    [getTimeRemaining()] has a total that is never negative, whole days that
    are never negative, hours in 0..23, minutes in 0..59 and seconds in
    0..59. *)
Theorem getTimeRemaining_ranges (endTime : option Z) (now : Z) (r : TimeRemaining) :
  TimerHandler.getTimeRemaining endTime now = Some r ->
  0 <= total r /\ 0 <= days r
  /\ 0 <= hours r < 24 /\ 0 <= minutes r < 60 /\ 0 <= seconds r < 60.
Proof.
  intros H. apply getTimeRemaining_inv in H as (e & _ & _ & [[_ ->]|[Hpos ->]]).
  - simpl. lia.
  - unfold breakdown; simpl.
    pose proof (Z.mod_pos_bound ((e - now) / 3600000) 24 ltac:(lia)).
    pose proof (Z.mod_pos_bound ((e - now) / 60000) 60 ltac:(lia)).
    pose proof (Z.mod_pos_bound ((e - now) / 1000) 60 ltac:(lia)).
    pose proof (Z.div_pos (e - now) 86400000 ltac:(lia) ltac:(lia)).
    lia.
Qed.

Lemma getTimeRemaining_ranges_witness :
  0 <= total (mkRemaining 99999000 1 3 46 39) /\ 0 <= days (mkRemaining 99999000 1 3 46 39)
  /\ 0 <= hours (mkRemaining 99999000 1 3 46 39) < 24
  /\ 0 <= minutes (mkRemaining 99999000 1 3 46 39) < 60
  /\ 0 <= seconds (mkRemaining 99999000 1 3 46 39) < 60.
Proof.
  apply (getTimeRemaining_ranges (Some 100000000) 1000). reflexivity.
Defined.

(** X2.  The base [isActive()] holds exactly while the clock is strictly
    before a non-zero end-timestamp; so, for a handler whose end-timestamp
    is not recomputed, once it reports inactive it stays inactive at every
    later clock reading. *)
Theorem isActive_until_end :
  (forall (e now : Z), TimerHandler.isActive (Some e) now = true <-> e ≠ 0 /\ now < e)
  /\ (forall (endTime : option Z) (now later : Z),
         TimerHandler.isActive endTime now = false -> now <= later ->
         TimerHandler.isActive endTime later = false).
Proof.
  assert (Hiff : forall e now, TimerHandler.isActive (Some e) now = true <-> e ≠ 0 /\ now < e).
  { intros e now. unfold TimerHandler.isActive. split.
    - destruct (TimerHandler.getTimeRemaining (Some e) now) as [r|] eqn:E; [|discriminate].
      intros Hr. apply Z.ltb_lt in Hr.
      apply getTimeRemaining_inv in E as (e' & He' & Hne & [[_ ->]|[Hpos _]]);
        inversion He'; subst e'; [simpl in Hr; lia | split; [exact Hne | lia]].
    - intros [Hne Hlt]. rewrite getTimeRemaining_positive by (assumption || lia).
      simpl. apply Z.ltb_lt. lia. }
  split; [exact Hiff|].
  intros [e|] now later Hoff Hle; [|reflexivity].
  destruct (TimerHandler.isActive (Some e) later) eqn:E; [|reflexivity].
  apply Hiff in E as [Hne Hlt].
  assert (Hon : TimerHandler.isActive (Some e) now = true) by (apply Hiff; split; [exact Hne | lia]).
  congruence.
Qed.

Lemma isActive_until_end_witness :
  TimerHandler.isActive (Some 5000) 6000 = false.
Proof.
  apply (proj2 isActive_until_end (Some 5000) 5000 6000); [reflexivity | lia].
Defined.

Lemma decimal_short (k : nat) :
  (k < 100)%nat ->
  (1 <= String.length (Str.decimal (N.of_nat k)) <= 2)%nat.
Proof.
  intros Hk.
  assert (Hall : forallb (λ i, let n := String.length (Str.decimal (N.of_nat i)) in
                               (1 <=? n)%nat && (n <=? 2)%nat) (seq 0 100) = true)
    by (vm_compute; reflexivity).
  rewrite forallb_forall in Hall.
  specialize (Hall k ltac:(apply in_seq; lia)). cbv zeta in Hall.
  apply andb_true_iff in Hall as [H1 H2].
  apply Nat.leb_le in H1. apply Nat.leb_le in H2. lia.
Qed.

Lemma padZero_nonneg (n : Z) :
  0 <= n ->
  Str.Number (padZero n) = Some n
  /\ Str.all_digits (padZero n) = true
  /\ (2 <= String.length (padZero n))%nat
  /\ (n < 100 -> String.length (padZero n) = 2%nat).
Proof.
  intros Hn. unfold padZero, padStart2, toStringZ.
  destruct (Z.ltb_spec n 0) as [|_]; [lia|].
  split.
  { unfold Str.Number. rewrite digits_value_zeros.
    fold (Str.Number (Str.decimal (Z.to_N n))). rewrite Number_decimal.
    f_equal. lia. }
  split.
  { now rewrite all_digits_append, all_digits_zeros, all_digits_decimal. }
  rewrite length_append, length_zeros.
  split; [lia|].
  intros Hlt.
  pose proof (decimal_short (Z.to_nat n) ltac:(lia)) as Hshort.
  replace (N.of_nat (Z.to_nat n)) with (Z.to_N n) in Hshort by lia.
  lia.
Qed.

(** X3.  [padZero] shows a non-negative number in decimal digits, at least
    two of them, and the text reads back as the number; so the hours,
    minutes and seconds of every [getTimeRemaining()] result are shown as
    exactly two digits, and the days as two or more. *)
Theorem padZero_time_fields :
  (forall n : Z,
      0 <= n ->
      Str.Number (padZero n) = Some n
      /\ Str.all_digits (padZero n) = true
      /\ (2 <= String.length (padZero n))%nat
      /\ (n < 100 -> String.length (padZero n) = 2%nat))
  /\ (forall (endTime : option Z) (now : Z) (r : TimeRemaining),
         TimerHandler.getTimeRemaining endTime now = Some r ->
         String.length (padZero (hours r)) = 2%nat
         /\ String.length (padZero (minutes r)) = 2%nat
         /\ String.length (padZero (seconds r)) = 2%nat
         /\ (2 <= String.length (padZero (days r)))%nat
         /\ Str.Number (padZero (days r)) = Some (days r)).
Proof.
  split; [exact padZero_nonneg|].
  intros endTime now r H.
  assert (Hb : 0 <= days r /\ 0 <= hours r < 24 /\ 0 <= minutes r < 60 /\ 0 <= seconds r < 60).
  { apply getTimeRemaining_inv in H as (e & _ & _ & [[_ ->]|[Hpos ->]]).
    - simpl. lia.
    - unfold breakdown; simpl.
      pose proof (Z.mod_pos_bound ((e - now) / 3600000) 24 ltac:(lia)).
      pose proof (Z.mod_pos_bound ((e - now) / 60000) 60 ltac:(lia)).
      pose proof (Z.mod_pos_bound ((e - now) / 1000) 60 ltac:(lia)).
      pose proof (Z.div_pos (e - now) 86400000 ltac:(lia) ltac:(lia)).
      lia. }
  destruct Hb as (Hd & Hh & Hm & Hs).
  repeat split.
  - apply padZero_nonneg; lia.
  - apply padZero_nonneg; lia.
  - apply padZero_nonneg; lia.
  - apply padZero_nonneg; lia.
  - apply padZero_nonneg; lia.
Qed.

Lemma padZero_time_fields_witness :
  Str.Number (padZero 7) = Some 7
  /\ Str.all_digits (padZero 7) = true
  /\ (2 <= String.length (padZero 7))%nat
  /\ (7 < 100 -> String.length (padZero 7) = 2%nat).
Proof. apply (proj1 padZero_time_fields 7). lia. Defined.

(** ** Time fields *)

Lemma split_colon_go_plain (cur s : string) :
  no_colon s = true -> Str.split_colon_go cur s = [cur +:+ s].
Proof.
  revert cur. induction s as [|c s IH]; intros cur H.
  - cbn [Str.split_colon_go]. f_equal.
    clear H. induction cur as [|a cur IHc]; [reflexivity|].
    rewrite append_cons. now rewrite <- IHc.
  - unfold no_colon in H. cbn [list_ascii_of_string forallb] in H.
    apply andb_true_iff in H as [Hc Hs].
    cbn [Str.split_colon_go]. apply negb_true_iff in Hc. rewrite Hc.
    rewrite (IH _ Hs). f_equal.
    clear. induction cur as [|a cur IHc].
    + now rewrite !append_nil, append_cons, append_nil.
    + rewrite !append_cons. now rewrite IHc.
Qed.

Lemma split_colon_go_field (cur hs rest : string) :
  no_colon hs = true ->
  Str.split_colon_go cur (hs +:+ String ":"%char rest)
  = (cur +:+ hs) :: Str.split_colon_go EmptyString rest.
Proof.
  revert cur. induction hs as [|c hs IH]; intros cur H.
  - rewrite append_nil. cbn [Str.split_colon_go]. rewrite Ascii.eqb_refl.
    f_equal. clear. induction cur as [|a cur IHc]; [reflexivity|].
    rewrite append_cons. now rewrite <- IHc.
  - unfold no_colon in H. cbn [list_ascii_of_string forallb] in H.
    apply andb_true_iff in H as [Hc Hs].
    rewrite append_cons. cbn [Str.split_colon_go]. apply negb_true_iff in Hc. rewrite Hc.
    rewrite (IH _ Hs). f_equal.
    clear. induction cur as [|a cur IHc].
    + now rewrite !append_nil, append_cons, append_nil.
    + rewrite !append_cons. now rewrite IHc.
Qed.

Lemma all_digits_no_colon (s : string) : Str.all_digits s = true -> no_colon s = true.
Proof.
  induction s as [|c s IH]; [reflexivity|].
  cbn [Str.all_digits]. intros H. apply andb_true_iff in H as [Hc Hs].
  unfold no_colon. cbn [list_ascii_of_string forallb].
  apply andb_true_iff. split; [|exact (IH Hs)].
  apply negb_true_iff. destruct (Ascii.eqb_spec c ":"%char) as [->|]; [|reflexivity].
  discriminate Hc.
Qed.

Lemma digits_value_all_digits (s : string) (acc : Z) :
  Str.all_digits s = true -> is_Some (Str.digits_value acc s).
Proof.
  revert acc. induction s as [|c s IH]; intros acc H; [now eexists|].
  cbn [Str.all_digits] in H. apply andb_true_iff in H as [Hc Hs].
  cbn [Str.digits_value]. unfold Str.is_digit in Hc.
  destruct (Str.digit_value c); [|discriminate]. now apply IH.
Qed.

(** X4.  [parseTimeToMinutes] on a text "H:M" whose two fields are runs of
    decimal digits (possibly empty, possibly followed by a further
    colon-separated field) gives hours * 60 + minutes with no range check;
    a non-empty text without a colon gives [NaN]. *)
Theorem parseTimeToMinutes_fields :
  (forall (hs ms : string) (h m : Z),
      Str.all_digits hs = true -> Str.all_digits ms = true ->
      Str.Number hs = Some h -> Str.Number ms = Some m ->
      parseTimeToMinutes (Some (hs +:+ ":" +:+ ms)) = Some (h * 60 + m)
      /\ forall ss, parseTimeToMinutes (Some (hs +:+ ":" +:+ ms +:+ ":" +:+ ss))
                    = Some (h * 60 + m))
  /\ (forall s : string,
         s ≠ EmptyString -> no_colon s = true -> parseTimeToMinutes (Some s) = None).
Proof.
  split.
  - intros hs ms h m Hh Hm Nh Nm.
    apply all_digits_no_colon in Hh. apply all_digits_no_colon in Hm.
    assert (Hshape : forall rest l,
               Str.split_colon_go EmptyString rest = ms :: l ->
               parseTimeToMinutes (Some (hs +:+ String ":"%char rest)) = Some (h * 60 + m)).
    { intros rest l Hrest. unfold parseTimeToMinutes, Str.split_colon.
      rewrite split_colon_go_field by exact Hh. rewrite append_nil, Hrest, Nh, Nm.
      destruct hs; [rewrite append_nil|rewrite append_cons]; reflexivity. }
    split.
    + apply (Hshape ms []). rewrite <- (append_nil ms) at 2.
      now apply split_colon_go_plain.
    + intros ss. apply (Hshape (ms +:+ String ":"%char ss) (Str.split_colon_go EmptyString ss)).
      rewrite split_colon_go_field by exact Hm. now rewrite append_nil.
  - intros s Hne Hs. unfold parseTimeToMinutes, Str.split_colon.
    rewrite split_colon_go_plain by exact Hs.
    destruct s; [contradiction | reflexivity].
Qed.

Lemma parseTimeToMinutes_fields_witness :
  parseTimeToMinutes (Some ("25" +:+ ":" +:+ "99")) = Some (25 * 60 + 99)
  /\ parseTimeToMinutes (Some "1400"%string) = None.
Proof.
  split.
  - apply (proj1 parseTimeToMinutes_fields "25" "99" 25 99); reflexivity.
  - apply (proj2 parseTimeToMinutes_fields "1400"); [discriminate | reflexivity].
Defined.

(** ** Recurring windows that do not cross midnight *)

Lemma recurring_same_day (t : Timer) (c : Clock) (s e : Z) :
  parseTimeToMinutes (dailyStartTime t) = Some s ->
  parseTimeToMinutes (dailyEndTime t) = Some e ->
  s <= e ->
  RecurringTimerHandler.includes (RecurringTimerHandler.parseRecurringDays t) (dayOfWeek c) = true ->
  let cur := hour c * 60 + minute c in
  let inWindow := (s <=? cur) && (cur <? e) in
  RecurringTimerHandler.calculateEndTime t c
  = (if inWindow then Some (now c + (e - cur) * 60000) else None)
  /\ (0 <= now c -> RecurringTimerHandler.isActive t c = inWindow).
Proof.
  intros Hs He Hle Hday cur inWindow.
  assert (Hc : RecurringTimerHandler.calculateEndTime t c
               = (if inWindow then Some (now c + (e - cur) * 60000) else None)).
  { unfold RecurringTimerHandler.calculateEndTime.
    rewrite Hday, Hs, He. simpl negb. cbv iota. fold cur.
    unfold RecurringTimerHandler.windowState, num_lt, num_ge, num_add, num_sub.
    subst inWindow.
    destruct (Z.ltb_spec e s) as [|_]; [lia|].
    destruct (Z.leb_spec s cur), (Z.ltb_spec cur e); simpl; try reflexivity.
    f_equal. lia. }
  split; [exact Hc|].
  intros Hnow. unfold RecurringTimerHandler.isActive. rewrite Hc.
  destruct inWindow eqn:Hin; [|reflexivity].
  subst inWindow. apply andb_true_iff in Hin as [H1 H2].
  apply Z.leb_le in H1. apply Z.ltb_lt in H2.
  apply timeRemaining_active; lia.
Qed.

(** X5.  A Recurring timer whose end minute is not before its start minute,
    on a day of the active-days set, is in its window exactly when
    start <= current < end, and then counts down to
    [now + (end - current) * 60000]; when start and end are equal (as when
    neither time is configured, both reading as minute 0) the window is
    empty and the timer is never active. *)
Theorem recurring_same_day_window :
  (forall (t : Timer) (c : Clock) (s e : Z),
      parseTimeToMinutes (dailyStartTime t) = Some s ->
      parseTimeToMinutes (dailyEndTime t) = Some e ->
      s <= e ->
      RecurringTimerHandler.includes (RecurringTimerHandler.parseRecurringDays t) (dayOfWeek c)
      = true ->
      let cur := hour c * 60 + minute c in
      let inWindow := (s <=? cur) && (cur <? e) in
      RecurringTimerHandler.calculateEndTime t c
      = (if inWindow then Some (now c + (e - cur) * 60000) else None)
      /\ (0 <= now c -> RecurringTimerHandler.isActive t c = inWindow))
  /\ (forall (t : Timer) (c : Clock) (s : Z),
         parseTimeToMinutes (dailyStartTime t) = Some s ->
         parseTimeToMinutes (dailyEndTime t) = Some s ->
         RecurringTimerHandler.calculateEndTime t c = None
         /\ RecurringTimerHandler.isActive t c = false)
  /\ (forall (t : Timer) (c : Clock),
         dailyStartTime t = None -> dailyEndTime t = None ->
         RecurringTimerHandler.isActive t c = false).
Proof.
  split; [exact recurring_same_day|].
  assert (Hempty : forall (t : Timer) (c : Clock) (s : Z),
             parseTimeToMinutes (dailyStartTime t) = Some s ->
             parseTimeToMinutes (dailyEndTime t) = Some s ->
             RecurringTimerHandler.calculateEndTime t c = None
             /\ RecurringTimerHandler.isActive t c = false).
  { intros t c s Hs He.
    assert (Hc : RecurringTimerHandler.calculateEndTime t c = None).
    { destruct (RecurringTimerHandler.includes (RecurringTimerHandler.parseRecurringDays t)
                                               (dayOfWeek c)) eqn:Hday.
      - destruct (recurring_same_day t c s s Hs He ltac:(lia) Hday) as [-> _].
        destruct (Z.leb_spec s (hour c * 60 + minute c)),
                 (Z.ltb_spec (hour c * 60 + minute c) s); simpl; try reflexivity; lia.
      - unfold RecurringTimerHandler.calculateEndTime. now rewrite Hday. }
    split; [exact Hc|]. unfold RecurringTimerHandler.isActive. now rewrite Hc. }
  split; [exact Hempty|].
  intros t c Hs He. apply (Hempty t c 0); [rewrite Hs | rewrite He]; reflexivity.
Qed.

Lemma recurring_same_day_window_witness :
  let t := mkTimer "t1" None None (Some "09:00"%string) (Some "17:30"%string)
                   (AttrList [1; 2; 3; 4; 5]) None None true AttrMissing AttrMissing in
  RecurringTimerHandler.calculateEndTime t (mkClock 1000 2 16 45) = Some (1000 + 45 * 60000)
  /\ RecurringTimerHandler.isActive t (mkClock 1000 2 16 45) = true
  /\ RecurringTimerHandler.isActive t (mkClock 1000 2 17 30) = false.
Proof.
  intros t.
  pose proof (proj1 recurring_same_day_window t (mkClock 1000 2 16 45) 540 1050
                    eq_refl eq_refl ltac:(lia) eq_refl) as [H1 H2].
  pose proof (proj1 recurring_same_day_window t (mkClock 1000 2 17 30) 540 1050
                    eq_refl eq_refl ltac:(lia) eq_refl) as [_ H3].
  split; [exact H1|]. split; [apply H2 | apply H3]; simpl; lia.
Defined.

Lemma recurring_end_inv (t : Timer) (c : Clock) (e : Z) :
  RecurringTimerHandler.calculateEndTime t c = Some e ->
  exists s f m,
    parseTimeToMinutes (dailyStartTime t) = Some s
    /\ parseTimeToMinutes (dailyEndTime t) = Some f
    /\ RecurringTimerHandler.includes (RecurringTimerHandler.parseRecurringDays t) (dayOfWeek c)
       = true
    /\ e = now c + m * 60 * 1000
    /\ let cur := hour c * 60 + minute c in
       (f < s /\ s <= cur /\ m = 24 * 60 - cur + f)
       \/ (f < s /\ cur < s /\ cur < f /\ m = f - cur)
       \/ (s <= f /\ s <= cur /\ cur < f /\ m = f - cur).
Proof.
  unfold RecurringTimerHandler.calculateEndTime.
  destruct (RecurringTimerHandler.includes _ _) eqn:Hday; [|discriminate]. simpl negb. cbv iota.
  destruct (parseTimeToMinutes (dailyStartTime t)) as [s|] eqn:Hs;
    destruct (parseTimeToMinutes (dailyEndTime t)) as [f|] eqn:Hf;
    unfold RecurringTimerHandler.windowState, num_lt, num_ge, num_add, num_sub;
    try discriminate.
  - set (cur := hour c * 60 + minute c).
    destruct (Z.ltb_spec f s); destruct (Z.leb_spec s cur); destruct (Z.ltb_spec cur f);
      simpl; intros Heq; inversion Heq; subst e; clear Heq;
      exists s, f; eexists; (split; [reflexivity|]); (split; [reflexivity|]);
      (split; [reflexivity|]);
      (split; [reflexivity|]); lia.
  - destruct (Z.leb_spec s (hour c * 60 + minute c)); simpl; discriminate.
Qed.

Lemma notNumeric_Number (s : string) : notNumeric s = true -> Str.Number s = None.
Proof.
  unfold notNumeric, Str.Number. generalize 0 as acc.
  induction s as [|c s IH]; intros acc H; [discriminate H|].
  cbn [list_ascii_of_string forallb] in H. cbn [Str.digits_value].
  destruct (Str.digit_value c) as [d|] eqn:Ed; [|reflexivity].
  assert (Hc : numericChar c = true).
  { unfold Str.digit_value in Ed. unfold numericChar. cbv zeta.
    destruct ((48 <=? Z.of_nat (nat_of_ascii c)) && (Z.of_nat (nat_of_ascii c) <=? 57)) eqn:Er;
      [|discriminate Ed].
    apply andb_true_iff in Er as [E1 E2]. apply Z.leb_le in E1. apply Z.leb_le in E2.
    replace ((48 <=? nat_of_ascii c) && (nat_of_ascii c <=? 57))%nat with true.
    - now rewrite orb_true_r.
    - symmetry. apply andb_true_iff. split; apply Nat.leb_le; lia. }
  rewrite Hc in H. apply IH. exact H.
Qed.

Lemma nanTime_parse (timeStr : option string) :
  nanTime timeStr = true -> parseTimeToMinutes timeStr = None.
Proof.
  unfold nanTime, parseTimeToMinutes.
  destruct timeStr as [[|c s]|]; try discriminate.
  destruct (Str.split_colon (String c s)) as [|h [|m rest]]; try reflexivity.
  intros H. apply orb_true_iff in H as [H|H]; apply notNumeric_Number in H; rewrite H.
  - reflexivity.
  - now destruct (Str.Number h).
Qed.

(** X6.  A Recurring timer is never active on a day outside its active-days
    set, nor when its start time or its end time is a text that cannot
    parse to a number (not empty, and without a colon or with a character
    of no numeric literal in one of its two leading fields):
    [calculateEndTime()] is [null] and [isActive()] is false at every clock
    reading. *)
Theorem recurring_never_active :
  forall (t : Timer) (c : Clock),
    RecurringTimerHandler.includes (RecurringTimerHandler.parseRecurringDays t) (dayOfWeek c)
    = false
    \/ nanTime (dailyStartTime t) = true
    \/ nanTime (dailyEndTime t) = true ->
    RecurringTimerHandler.calculateEndTime t c = None
    /\ RecurringTimerHandler.isActive t c = false.
Proof.
  intros t c H.
  assert (Hc : RecurringTimerHandler.calculateEndTime t c = None).
  { destruct (RecurringTimerHandler.calculateEndTime t c) as [e|] eqn:E; [|reflexivity].
    apply recurring_end_inv in E as (s & f & m & Hs & Hf & Hday & _).
    destruct H as [H|[H|H]]; [congruence| |]; apply nanTime_parse in H; congruence. }
  split; [exact Hc|]. unfold RecurringTimerHandler.isActive. now rewrite Hc.
Qed.

Lemma recurring_never_active_witness :
  let t := mkTimer "t1" None None (Some "9h:30"%string) (Some "17:00"%string)
                   AttrMissing None None true AttrMissing AttrMissing in
  RecurringTimerHandler.calculateEndTime t (mkClock 1000 2 12 0) = None
  /\ RecurringTimerHandler.isActive t (mkClock 1000 2 12 0) = false.
Proof.
  intros t. apply (recurring_never_active t (mkClock 1000 2 12 0)).
  right. left. reflexivity.
Defined.

(** X7.  With start and end times inside a day (minutes 0..1439) and a
    clock inside a day, every end-timestamp a Recurring timer computes lies
    between one minute and 1439 minutes after [now]; the countdown it
    shows therefore has zero whole days. *)
Theorem recurring_countdown_within_day :
  forall (t : Timer) (c : Clock) (s f e : Z),
    parseTimeToMinutes (dailyStartTime t) = Some s ->
    parseTimeToMinutes (dailyEndTime t) = Some f ->
    0 <= s < 24 * 60 -> 0 <= f < 24 * 60 ->
    0 <= hour c * 60 + minute c < 24 * 60 ->
    RecurringTimerHandler.calculateEndTime t c = Some e ->
    now c + 60000 <= e <= now c + 1439 * 60000
    /\ (0 <= now c ->
        exists r, TimerHandler.getTimeRemaining (Some e) (now c) = Some r
                  /\ days r = 0 /\ total r = e - now c).
Proof.
  intros t c s f e Hs Hf Rs Rf Rc E.
  apply recurring_end_inv in E as (s' & f' & m & Hs' & Hf' & _ & -> & Hm).
  rewrite Hs in Hs'. rewrite Hf in Hf'. inversion Hs'. inversion Hf'. subst s' f'.
  cbv zeta in Hm.
  assert (Hrange : 1 <= m <= 1439) by lia.
  split; [lia|].
  intros Hnow. eexists. split.
  - apply getTimeRemaining_positive; lia.
  - unfold breakdown; simpl. split; [|reflexivity].
    apply Z.div_small. lia.
Qed.

Lemma recurring_countdown_within_day_witness :
  let t := mkTimer "t1" None None (Some "22:00"%string) (Some "06:00"%string)
                   AttrMissing None None true AttrMissing AttrMissing in
  1000 + 60000 <= 23401000 <= 1000 + 1439 * 60000.
Proof.
  intros t.
  apply (recurring_countdown_within_day t (mkClock 1000 2 23 30) 1320 360 23401000);
    try reflexivity; simpl; lia.
Defined.

(** ** Evergreen cycles: persistence, reset delay, unusable storage *)

Lemma evergreen_setNew (t : Timer) (key : string) (ls : Storage) (now d : Z) :
  evergreenDuration t = Some d ->
  EvergreenTimerHandler.setNewStartTime t key ls now
  = (Some (now + d * 60 * 1000), fst (safeSetStorage ls key (VCycle now None))).
Proof. intros Hd. unfold EvergreenTimerHandler.setNewStartTime. now rewrite Hd. Qed.

Lemma evergreen_end_cases (t : Timer) (key : string) (ls ls' : Storage) (now d e : Z) :
  evergreenDuration t = Some d ->
  EvergreenTimerHandler.calculateEndTime t key ls now = (Some e, ls') ->
  e = now + d * 60 * 1000
  \/ (exists start resetAt,
         safeGetStorage ls key = Some (VCycle start resetAt)
         /\ e = start + d * 60 * 1000 /\ now < e /\ ls' = ls).
Proof.
  intros Hd. unfold EvergreenTimerHandler.calculateEndTime.
  rewrite Hd. destruct (negb (Js.truthyZ (Some d))); [discriminate|].
  assert (Hnew : forall st, EvergreenTimerHandler.setNewStartTime t key st now = (Some e, ls') ->
                            e = now + d * 60 * 1000).
  { intros st E. rewrite (evergreen_setNew t key st now d Hd) in E. now inversion E. }
  destruct (truthyValue (safeGetStorage ls key)) eqn:Htruthy.
  2:{ intros E. left. exact (Hnew _ E). }
  destruct (safeGetStorage ls key) as [[b|start resetAt|m|raw]|] eqn:Hst; try discriminate.
  destruct (Js.truthyZ resetAt && num_ge (Some now) resetAt).
  { intros E. left. exact (Hnew _ E). }
  destruct (Z.leb_spec (start + d * 60 * 1000) now) as [Hexp|Hlive].
  - destruct (0 <? _).
    + destruct (now <? _); [discriminate|]. intros E. left. exact (Hnew _ E).
    + intros E. left. exact (Hnew _ E).
  - intros E. inversion E. subst. right. exists start, resetAt. repeat split; try reflexivity. lia.
Qed.

(** X8.  With a positive duration, every end-timestamp an Evergreen
    handler computes is strictly after the clock reading it was computed
    at, whatever the store holds and whether or not it can be written; so
    [isActive()] answers true exactly when the end-timestamp it has just
    computed is not [null]. *)
Theorem evergreen_end_in_future :
  forall (t : Timer) (key : string) (ls : Storage) (now d : Z),
    evergreenDuration t = Some d -> 0 < d ->
    (forall e ls', EvergreenTimerHandler.calculateEndTime t key ls now = (Some e, ls') ->
                   now < e)
    /\ (0 <= now ->
        forall active endTime ls',
          EvergreenTimerHandler.isActive t key ls now = (active, endTime, ls') ->
          active = true <-> endTime ≠ None).
Proof.
  intros t key ls now d Hd Hpos.
  assert (Hfut : forall e ls',
             EvergreenTimerHandler.calculateEndTime t key ls now = (Some e, ls') -> now < e).
  { intros e ls' E. apply (evergreen_end_cases t key ls ls' now d e Hd) in E.
    destruct E as [->|(start & resetAt & _ & _ & Hlt & _)]; lia. }
  split; [exact Hfut|].
  intros Hnow active endTime ls'. unfold EvergreenTimerHandler.isActive.
  destruct (EvergreenTimerHandler.calculateEndTime t key ls now) as [[e|] ls1] eqn:E;
    intros Heq; inversion Heq; subst; clear Heq.
  - specialize (Hfut e ls' eq_refl).
    rewrite timeRemaining_active by lia. split; [discriminate | reflexivity].
  - split; [discriminate | congruence].
Qed.

Lemma evergreen_end_in_future_witness :
  let t := mkTimer "t1" (Some 10) None None None AttrMissing None None true
                   AttrMissing AttrMissing in
  let ls := mkStorage {[ "k"%string := VCycle 5000 None ]} ReadOnly in
  EvergreenTimerHandler.calculateEndTime t "k" ls 7000 = (Some 605000, ls)
  /\ 7000 < 605000.
Proof.
  intros t ls. split; [reflexivity|].
  apply (proj1 (evergreen_end_in_future t "k" ls 7000 10 eq_refl ltac:(lia)) 605000 ls).
  reflexivity.
Defined.

Lemma evergreen_live_cycle (t : Timer) (key : string) (ls : Storage)
      (start now d : Z) (resetAt : option Z) :
  evergreenDuration t = Some d -> d ≠ 0 ->
  safeGetStorage ls key = Some (VCycle start resetAt) ->
  Js.truthyZ resetAt = false ->
  now < start + d * 60 * 1000 ->
  EvergreenTimerHandler.calculateEndTime t key ls now = (Some (start + d * 60 * 1000), ls).
Proof.
  intros Hd Hd0 Hst Hr Hlive. unfold EvergreenTimerHandler.calculateEndTime.
  rewrite Hd. unfold Js.truthyZ at 1.
  destruct (Z.eqb_spec d 0) as [|_]; [contradiction|]. simpl negb. cbv iota.
  rewrite Hst. simpl truthyValue. cbv iota. rewrite Hr. simpl andb. cbv iota.
  destruct (Z.leb_spec (start + d * 60 * 1000) now); [lia | reflexivity].
Qed.

(** X9.  Once an Evergreen cycle has been started in a store that takes
    writes, every later computation before the cycle's end (a later
    [isActive()], or [initialize()] on another page load) returns the same
    end-timestamp and leaves the store as it is: the countdown does not
    restart on a reload. *)
Theorem evergreen_cycle_persists :
  forall (t : Timer) (key : string) (ls ls1 : Storage) (t0 d : Z) (e : option Z),
    evergreenDuration t = Some d -> 0 < d ->
    mode ls = Working ->
    truthyValue (safeGetStorage ls key) = false ->
    EvergreenTimerHandler.initialize t key ls t0 = (e, ls1) ->
    e = Some (t0 + d * 60000)
    /\ safeGetStorage ls1 key = Some (VCycle t0 None)
    /\ forall now,
        now < t0 + d * 60000 ->
        EvergreenTimerHandler.initialize t key ls1 now = (Some (t0 + d * 60000), ls1)
        /\ (0 <= now ->
            EvergreenTimerHandler.isActive t key ls1 now
            = (true, Some (t0 + d * 60000), ls1)).
Proof.
  intros t key ls ls1 t0 d e Hd Hpos Hm Hst Hinit.
  unfold EvergreenTimerHandler.initialize in *.
  rewrite (evergreen_first_cycle t key ls t0 d Hd ltac:(lia) Hst) in Hinit.
  inversion Hinit as [[He Hls1]]. clear Hinit.
  assert (Hstored : safeGetStorage (fst (safeSetStorage ls key (VCycle t0 None))) key
                    = Some (VCycle t0 None)).
  { unfold safeGetStorage, safeSetStorage. now rewrite safeGet_safeSet_working. }
  split; [f_equal; lia|]. split; [exact Hstored|].
  intros now Hnow.
  assert (Hc : EvergreenTimerHandler.calculateEndTime
                 t key (fst (safeSetStorage ls key (VCycle t0 None))) now
               = (Some (t0 + d * 60000), fst (safeSetStorage ls key (VCycle t0 None)))).
  { rewrite (evergreen_live_cycle t key _ t0 now d None Hd ltac:(lia) Hstored eq_refl
                                  ltac:(lia)).
    do 2 f_equal. lia. }
  split; [exact Hc|].
  intros Hnn. unfold EvergreenTimerHandler.isActive. rewrite Hc.
  now rewrite timeRemaining_active by lia.
Qed.

Lemma evergreen_cycle_persists_witness :
  let t := mkTimer "t1" (Some 10) None None None AttrMissing None None true
                   AttrMissing AttrMissing in
  let started := EvergreenTimerHandler.initialize t "k" (mkStorage ∅ Working) 1000000 in
  fst started = Some (1000000 + 10 * 60000)
  /\ safeGetStorage (snd started) "k" = Some (VCycle 1000000 None)
  /\ forall now,
      now < 1000000 + 10 * 60000 ->
      EvergreenTimerHandler.initialize t "k" (snd started) now
      = (Some (1000000 + 10 * 60000), snd started)
      /\ (0 <= now ->
          EvergreenTimerHandler.isActive t "k" (snd started) now
          = (true, Some (1000000 + 10 * 60000), snd started)).
Proof.
  intros t started.
  apply (evergreen_cycle_persists t "k" (mkStorage ∅ Working) (snd started) 1000000 10
                                  (fst started));
    [reflexivity | lia | reflexivity | reflexivity | reflexivity].
Defined.

(** X10.  An Evergreen cycle (started at a non-negative clock reading) with
    a positive reset delay, in a store that takes writes: from the cycle's end until the reset time
    (end + delay) the handler has no end-timestamp, is inactive, and
    records the reset time beside the unchanged start; at or after the
    reset time the next computation starts a new cycle at that clock
    reading. *)
Theorem evergreen_reset_window :
  forall (t : Timer) (key : string) (ls : Storage) (start d r now : Z),
    evergreenDuration t = Some d -> 0 < d ->
    evergreenResetDelay t = Some r -> 0 < r ->
    mode ls = Working ->
    safeGetStorage ls key = Some (VCycle start None) -> 0 <= start ->
    let finish := start + d * 60000 in
    let resetAt := finish + r * 60000 in
    finish <= now ->
    (now < resetAt ->
     exists ls1,
       EvergreenTimerHandler.isActive t key ls now = (false, None, ls1)
       /\ safeGetStorage ls1 key = Some (VCycle start (Some resetAt))
       /\ forall later, resetAt <= later ->
            exists ls2,
              EvergreenTimerHandler.isActive t key ls1 later
              = (true, Some (later + d * 60000), ls2)
              /\ safeGetStorage ls2 key = Some (VCycle later None))
    /\ (resetAt <= now ->
        exists ls2,
          EvergreenTimerHandler.isActive t key ls now = (true, Some (now + d * 60000), ls2)
          /\ safeGetStorage ls2 key = Some (VCycle now None)).
Proof.
  intros t key ls start d r now Hd Hpos Hr Hrpos Hm Hst Hstart finish resetAt Hfin.
  assert (Hget : forall st v, mode st = Working ->
                   match v with VRaw _ => False | _ => True end ->
                   safeGetStorage (fst (safeSetStorage st key v)) key = Some v).
  { intros st v Hw Hv. unfold safeGetStorage, safeSetStorage.
    rewrite safeGet_safeSet_working by exact Hw. now destruct v. }
  assert (Hcalc : EvergreenTimerHandler.calculateEndTime t key ls now
                  = let ls' := fst (safeSetStorage ls key (VCycle start (Some resetAt))) in
                    if now <? resetAt then (None, ls')
                    else (Some (now + d * 60 * 1000),
                          fst (safeSetStorage ls' key (VCycle now None)))).
  { unfold EvergreenTimerHandler.calculateEndTime.
    rewrite Hd. unfold Js.truthyZ at 1.
    destruct (Z.eqb_spec d 0) as [|_]; [lia|]. simpl negb. cbv iota.
    rewrite Hst. simpl truthyValue. cbv iota. simpl andb. cbv iota.
    destruct (Z.leb_spec (start + d * 60 * 1000) now) as [_|]; [|subst finish; lia].
    rewrite Hr. unfold Js.truthyZ.
    destruct (Z.eqb_spec r 0) as [|_]; [lia|]. simpl negb. cbv iota. simpl default.
    destruct (Z.ltb_spec 0 (r * 60 * 1000)) as [_|]; [|lia].
    replace (start + d * 60 * 1000 + r * 60 * 1000) with resetAt by (subst resetAt finish; lia).
    cbv zeta. destruct (now <? resetAt); [reflexivity|].
    apply evergreen_setNew. exact Hd. }
  split.
  - intros Hlt.
    exists (fst (safeSetStorage ls key (VCycle start (Some resetAt)))).
    assert (Hst1 : safeGetStorage (fst (safeSetStorage ls key (VCycle start (Some resetAt)))) key
                   = Some (VCycle start (Some resetAt))) by now apply Hget.
    split; [|split; [exact Hst1|]].
    + unfold EvergreenTimerHandler.isActive. rewrite Hcalc. cbv zeta.
      destruct (Z.ltb_spec now resetAt); [reflexivity | lia].
    + intros later Hlater.
      exists (fst (safeSetStorage (fst (safeSetStorage ls key (VCycle start (Some resetAt))))
                                  key (VCycle later None))).
      split.
      * unfold EvergreenTimerHandler.isActive.
        assert (Hc2 : EvergreenTimerHandler.calculateEndTime
                        t key (fst (safeSetStorage ls key (VCycle start (Some resetAt)))) later
                      = (Some (later + d * 60 * 1000),
                         fst (safeSetStorage
                                (fst (safeSetStorage ls key (VCycle start (Some resetAt))))
                                key (VCycle later None)))).
        { unfold EvergreenTimerHandler.calculateEndTime.
          rewrite Hd. unfold Js.truthyZ at 1.
          destruct (Z.eqb_spec d 0) as [|_]; [lia|]. simpl negb. cbv iota.
          rewrite Hst1. simpl truthyValue. cbv iota.
          unfold Js.truthyZ, num_ge.
          destruct (Z.eqb_spec resetAt 0) as [|_]; [subst resetAt finish; lia|].
          destruct (Z.leb_spec resetAt later) as [_|]; [|lia].
          simpl. apply evergreen_setNew. exact Hd. }
        rewrite Hc2. rewrite timeRemaining_active by (subst resetAt finish; lia).
        do 3 f_equal. lia.
      * apply Hget; [|exact I]. now rewrite safeSet_mode.
  - intros Hge.
    exists (fst (safeSetStorage (fst (safeSetStorage ls key (VCycle start (Some resetAt))))
                                key (VCycle now None))).
    split.
    + unfold EvergreenTimerHandler.isActive. rewrite Hcalc. cbv zeta.
      destruct (Z.ltb_spec now resetAt); [lia|].
      rewrite timeRemaining_active by (subst resetAt finish; lia). do 3 f_equal. lia.
    + apply Hget; [|exact I]. now rewrite safeSet_mode.
Qed.

Lemma evergreen_reset_window_witness :
  let t := mkTimer "t1" (Some 5) (Some 2) None None AttrMissing None None true
                   AttrMissing AttrMissing in
  let ls := mkStorage {[ "k"%string := VCycle 1000000 None ]} Working in
  exists ls2,
    EvergreenTimerHandler.isActive t "k" ls 1420000 = (true, Some (1420000 + 5 * 60000), ls2)
    /\ safeGetStorage ls2 "k" = Some (VCycle 1420000 None).
Proof.
  intros t ls.
  apply (evergreen_reset_window t "k" ls 1000000 5 2 1420000);
    try reflexivity; simpl; lia.
Defined.

(** X11.  When the durable store cannot be written and holds nothing
    readable under the timer's key (storage disabled, or a quota of zero),
    an Evergreen handler with a positive duration starts over at every
    computation: the end-timestamp is always [now + duration], the store
    stays as it was, and [isActive()] is true at every clock reading, so
    the countdown never reaches its end. *)
Theorem evergreen_restarts_without_storage :
  forall (t : Timer) (key : string) (ls : Storage) (d now : Z),
    evergreenDuration t = Some d -> 0 < d ->
    mode ls ≠ Working ->
    safeGetStorage ls key = None ->
    EvergreenTimerHandler.calculateEndTime t key ls now = (Some (now + d * 60000), ls)
    /\ (0 <= now ->
        EvergreenTimerHandler.isActive t key ls now = (true, Some (now + d * 60000), ls)).
Proof.
  intros t key ls d now Hd Hpos Hm Hst.
  assert (Hc : EvergreenTimerHandler.calculateEndTime t key ls now
               = (Some (now + d * 60000), ls)).
  { rewrite (evergreen_first_cycle t key ls now d Hd ltac:(lia)) by now rewrite Hst.
    unfold safeSetStorage. rewrite safeSet_not_working by exact Hm.
    do 2 f_equal. lia. }
  split; [exact Hc|].
  intros Hnn. unfold EvergreenTimerHandler.isActive. rewrite Hc.
  now rewrite timeRemaining_active by lia.
Qed.

Lemma evergreen_restarts_without_storage_witness :
  let t := mkTimer "t1" (Some 10) None None None AttrMissing None None true
                   AttrMissing AttrMissing in
  EvergreenTimerHandler.calculateEndTime t "k" (mkStorage ∅ Blocked) 5000
  = (Some (5000 + 10 * 60000), mkStorage ∅ Blocked).
Proof.
  intros t.
  apply (evergreen_restarts_without_storage t "k" (mkStorage ∅ Blocked) 10 5000);
    [reflexivity | lia | discriminate | reflexivity].
Defined.

(** ** Shipping cutoff *)

Lemma findNextShippingDay_from_spec (fuel start : nat) (currentDay : Z)
      (excludedDays : list Z) (holidays : list string) (c : ShippingClock) :
  match ShippingTimerHandler.findNextShippingDay_from fuel start currentDay excludedDays holidays c
  with
  | Some next =>
    (start <= ShippingTimerHandler.daysAway next < start + fuel)%nat
    /\ ShippingTimerHandler.nextDayOfWeek next
       = Z.rem (currentDay + Z.of_nat (ShippingTimerHandler.daysAway next)) 7
    /\ shipsOn currentDay excludedDays holidays c (ShippingTimerHandler.daysAway next) = true
    /\ (forall j, (start <= j < ShippingTimerHandler.daysAway next)%nat ->
                  shipsOn currentDay excludedDays holidays c j = false)
  | None =>
    forall j, (start <= j < start + fuel)%nat ->
              shipsOn currentDay excludedDays holidays c j = false
  end.
Proof.
  revert start. induction fuel as [|fuel IH]; intros start.
  - simpl. intros j Hj. lia.
  - cbn [ShippingTimerHandler.findNextShippingDay_from]. cbv zeta.
    fold (shipsOn currentDay excludedDays holidays c start).
    destruct (shipsOn currentDay excludedDays holidays c start) eqn:Hs.
    + simpl. repeat split; try lia; try assumption; intros j Hj; lia.
    + specialize (IH (S start)).
      destruct (ShippingTimerHandler.findNextShippingDay_from
                  fuel (S start) currentDay excludedDays holidays c) as [next|].
      * destruct IH as (Hr & Hd & Hok & Hfirst).
        split; [lia|]. split; [exact Hd|]. split; [exact Hok|].
        intros j Hj. destruct (decide (j = start)) as [->|Hne]; [exact Hs|].
        apply Hfirst. lia.
      * intros j Hj. destruct (decide (j = start)) as [->|Hne]; [exact Hs|].
        apply IH. lia.
Qed.

(** X12.  [findNextShippingDay] answers the first day, one to fourteen days
    ahead, whose weekday is not excluded and whose date is no holiday, with
    the weekday [(currentDay + daysAway) % 7]; it answers [null] exactly
    when none of the next fourteen days qualifies. *)
Theorem findNextShippingDay_first :
  forall (currentDay : Z) (excludedDays : list Z) (holidays : list string) (c : ShippingClock),
    match ShippingTimerHandler.findNextShippingDay currentDay excludedDays holidays c with
    | Some next =>
      (1 <= ShippingTimerHandler.daysAway next <= 14)%nat
      /\ ShippingTimerHandler.nextDayOfWeek next
         = Z.rem (currentDay + Z.of_nat (ShippingTimerHandler.daysAway next)) 7
      /\ shipsOn currentDay excludedDays holidays c (ShippingTimerHandler.daysAway next) = true
      /\ (forall j, (1 <= j < ShippingTimerHandler.daysAway next)%nat ->
                    shipsOn currentDay excludedDays holidays c j = false)
    | None =>
      forall j, (1 <= j <= 14)%nat -> shipsOn currentDay excludedDays holidays c j = false
    end.
Proof.
  intros currentDay excludedDays holidays c.
  unfold ShippingTimerHandler.findNextShippingDay, ShippingTimerHandler.maxDays.
  pose proof (findNextShippingDay_from_spec 14 1 currentDay excludedDays holidays c) as H.
  destruct (ShippingTimerHandler.findNextShippingDay_from 14 1 currentDay excludedDays holidays c)
    as [next|].
  - destruct H as (Hr & Hd & Hok & Hfirst).
    split; [lia|]. split; [exact Hd|]. split; [exact Hok|].
    intros j Hj. apply Hfirst. lia.
  - intros j Hj. apply H. lia.
Qed.

Lemma findNextShippingDay_first_witness :
  let c := mkShippingClock (mkClock 1000 5 15 0) 2024 0 19 (λ _, "2024-01-20"%string) in
  shipsOn 5 [0; 6] [] c 3 = true
  /\ shipsOn 5 [0; 6] [] c 1 = false.
Proof.
  intros c.
  destruct (findNextShippingDay_first 5 [0; 6] [] c) as (_ & _ & Hok & Hfirst).
  split; [exact Hok | apply Hfirst; simpl; lia].
Defined.

Lemma shipping_state (t : ShippingTimer) (c : ShippingClock) (h : ShippingTimerHandler.State) :
  let cur := hour (sample c) * 60 + minute (sample c) in
  ShippingTimerHandler.updateState t c h
  = if todayExcluded t c || num_ge (Some cur) (ShippingTimerHandler.cutoffMinutesOf t)
    then ShippingTimerHandler.mkState
           None true
           (ShippingTimerHandler.findNextShippingDay
              (dayOfWeek (sample c)) (ShippingTimerHandler.parseExcludedDays t)
              (ShippingTimerHandler.parseHolidays t) c)
    else ShippingTimerHandler.mkState
           (ShippingTimerHandler.calculateEndTime
              (now (sample c)) (ShippingTimerHandler.cutoffMinutesOf t) cur)
           false (ShippingTimerHandler.nextShippingDay h).
Proof. reflexivity. Qed.

(** X13.  For a cutoff text that is absent, empty, without a colon, or made
    of fields that are digit runs or cannot be numbers (the texts on which
    [parseTimeToMinutes] here and in the code agree): a Shipping timer is
    active exactly when today is a shipping day and the clock is strictly
    before the cutoff (by default 14:00); then it counts down to
    [now + (cutoff - current) * 60000] and shows no message.  On an
    excluded day or a holiday, and from the cutoff minute on, it has no
    end-timestamp, is inactive and is past cutoff.  When the cutoff text
    does not parse, on a shipping day, it is neither: no end-timestamp,
    inactive, and no message. *)
Theorem shipping_cutoff :
  forall (t : ShippingTimer) (c : ShippingClock) (h : ShippingTimerHandler.State),
    plainTime (shippingCutoffTime t) = true ->
    0 <= now (sample c) ->
    let cur := hour (sample c) * 60 + minute (sample c) in
    let h' := snd (ShippingTimerHandler.isActive t c h) in
    (fst (ShippingTimerHandler.isActive t c h) = true
     <-> todayExcluded t c = false
         /\ exists k, ShippingTimerHandler.cutoffMinutesOf t = Some k /\ cur < k)
    /\ (forall k, todayExcluded t c = false ->
                  ShippingTimerHandler.cutoffMinutesOf t = Some k -> cur < k ->
                  ShippingTimerHandler.endTime h' = Some (now (sample c) + (k - cur) * 60000)
                  /\ ShippingTimerHandler.isPastCutoff h' = false
                  /\ ShippingTimerHandler.getDisplayMessage t h' = None)
    /\ (todayExcluded t c = true
        \/ (exists k, ShippingTimerHandler.cutoffMinutesOf t = Some k /\ k <= cur) ->
        ShippingTimerHandler.endTime h' = None
        /\ ShippingTimerHandler.isPastCutoff h' = true
        /\ ShippingTimerHandler.getDisplayMessage t h' ≠ None)
    /\ (todayExcluded t c = false -> ShippingTimerHandler.cutoffMinutesOf t = None ->
        ShippingTimerHandler.endTime h' = None
        /\ ShippingTimerHandler.isPastCutoff h' = false
        /\ ShippingTimerHandler.getDisplayMessage t h' = None).
Proof.
  intros t c h _ Hnow cur h'.
  unfold ShippingTimerHandler.isActive in *. cbv zeta in *. simpl fst. simpl snd in h'.
  subst h'. rewrite shipping_state. fold cur.
  unfold ShippingTimerHandler.calculateEndTime, num_ge, num_sub.
  destruct (todayExcluded t c) eqn:Hex;
    destruct (ShippingTimerHandler.cutoffMinutesOf t) as [k|] eqn:Hk; simpl.
  - split; [split; [discriminate | intros [? _]; discriminate]|].
    split; [intros; discriminate|].
    split; [|intros; discriminate].
    intros _. repeat split.
    unfold ShippingTimerHandler.getDisplayMessage. simpl.
    destruct (shippingNextDayText t) as [[|]|]; try discriminate;
      destruct (ShippingTimerHandler.findNextShippingDay _ _ _ _) as [next|]; try discriminate;
      destruct (_ =? 1)%nat; discriminate.
  - split; [split; [discriminate | intros [? _]; discriminate]|].
    split; [intros; discriminate|].
    split; [|intros; discriminate].
    intros _. repeat split.
    unfold ShippingTimerHandler.getDisplayMessage. simpl.
    destruct (shippingNextDayText t) as [[|]|]; try discriminate;
      destruct (ShippingTimerHandler.findNextShippingDay _ _ _ _) as [next|]; try discriminate;
      destruct (_ =? 1)%nat; discriminate.
  - destruct (Z.leb_spec k cur) as [Hpast|Hbefore]; simpl.
    + split; [split; [discriminate | intros [_ (k' & Hk' & Hlt)]; inversion Hk'; lia]|].
      split; [intros k' _ Hk' Hlt; inversion Hk'; lia|].
      split; [|intros _ Hk'; discriminate].
      intros _. repeat split.
      unfold ShippingTimerHandler.getDisplayMessage. simpl.
      destruct (shippingNextDayText t) as [[|]|]; try discriminate;
        destruct (ShippingTimerHandler.findNextShippingDay _ _ _ _) as [next|]; try discriminate;
        destruct (_ =? 1)%nat; discriminate.
    + destruct (Z.leb_spec (k - cur) 0) as [|_]; [lia|]. simpl.
      split.
      { split; [intros _; split; [reflexivity | exists k; split; [reflexivity | lia]]|].
        intros _. apply timeRemaining_active; lia. }
      split.
      { intros k' _ Hk' Hlt. inversion Hk'; subst k'.
        repeat split. f_equal. lia. }
      split; [|intros _ Hk'; discriminate].
      intros [Hd|(k' & Hk' & Hle)]; [discriminate | inversion Hk'; lia].
  - split; [split; [discriminate | intros [_ (k' & Hk' & _)]; discriminate]|].
    split; [intros k' _ Hk'; discriminate|].
    split; [intros [Hd|(k' & Hk' & _)]; discriminate|].
    intros _ _. repeat split.
Qed.

Lemma shipping_cutoff_witness :
  let t := mkShippingTimer (Some "16:30"%string) AttrMissing AttrMissing None in
  let c := mkShippingClock (mkClock 1000 3 13 30) 2024 0 17 (λ _, "2024-01-18"%string) in
  fst (ShippingTimerHandler.isActive t c ShippingTimerHandler.init) = true
  <-> todayExcluded t c = false
      /\ exists k, ShippingTimerHandler.cutoffMinutesOf t = Some k /\ 13 * 60 + 30 < k.
Proof.
  intros t c.
  apply (shipping_cutoff t c ShippingTimerHandler.init); [reflexivity | simpl; lia].
Defined.

Lemma dayName_weekday (d : Z) (k : nat) :
  0 <= d <= 6 ->
  ShippingTimerHandler.dayNames !! Z.to_nat ((d + Z.of_nat k) mod 7)
  = Some (ShippingTimerHandler.dayName (Z.rem (d + Z.of_nat k) 7)).
Proof.
  intros Hd.
  rewrite Z.rem_mod_nonneg by lia.
  pose proof (Z.mod_pos_bound (d + Z.of_nat k) 7 ltac:(lia)) as Hr.
  set (r := (d + Z.of_nat k) mod 7) in *.
  assert (Hcases : r = 0 \/ r = 1 \/ r = 2 \/ r = 3 \/ r = 4 \/ r = 5 \/ r = 6) by lia.
  destruct Hcases as [->|[->|[->|[->|[->|[->| ->]]]]]]; reflexivity.
Qed.

(** X14.  The message of a Shipping timer that is past cutoff: the
    configured next-day text when it is not empty; otherwise "delivery
    tomorrow" when the first shipping day is one day away; when it is
    further away, for a current weekday 0..6, the name of the first
    shipping day's weekday, which is the entry [(today + daysAway) mod 7] of
    Sunday, Monday, ..., Saturday; and the "next business day" text when
    none of the next fourteen days is a shipping day. *)
Theorem shipping_message :
  forall (t : ShippingTimer) (c : ShippingClock) (h : ShippingTimerHandler.State),
    let h' := ShippingTimerHandler.updateState t c h in
    ShippingTimerHandler.isPastCutoff h' = true ->
    (forall text, shippingNextDayText t = Some text -> text ≠ EmptyString ->
                  ShippingTimerHandler.getDisplayMessage t h' = Some text)
    /\ (shippingNextDayText t = None \/ shippingNextDayText t = Some EmptyString ->
        match ShippingTimerHandler.findNextShippingDay
                (dayOfWeek (sample c)) (ShippingTimerHandler.parseExcludedDays t)
                (ShippingTimerHandler.parseHolidays t) c with
        | None =>
          ShippingTimerHandler.getDisplayMessage t h'
          = Some "Order now for next business day delivery!"%string
        | Some next =>
          if (ShippingTimerHandler.daysAway next =? 1)%nat
          then ShippingTimerHandler.getDisplayMessage t h'
               = Some "Order now for delivery tomorrow!"%string
          else exists name,
              ShippingTimerHandler.getDisplayMessage t h'
              = Some ("Order now for " +:+ name +:+ " delivery!")
              /\ (0 <= dayOfWeek (sample c) <= 6 ->
                  ["Sunday"; "Monday"; "Tuesday"; "Wednesday"; "Thursday"; "Friday";
                   "Saturday"]%string
                  !! Z.to_nat ((dayOfWeek (sample c)
                                + Z.of_nat (ShippingTimerHandler.daysAway next)) mod 7)
                  = Some name)
        end).
Proof.
  intros t c h h'. subst h'. rewrite shipping_state.
  destruct (todayExcluded t c || num_ge _ _); [|discriminate].
  intros _. unfold ShippingTimerHandler.getDisplayMessage. simpl.
  split.
  - intros text -> Hne. destruct text; [contradiction | reflexivity].
  - intros Hnone.
    pose proof (findNextShippingDay_from_spec
                  14 1 (dayOfWeek (sample c)) (ShippingTimerHandler.parseExcludedDays t)
                  (ShippingTimerHandler.parseHolidays t) c) as Hfirst.
    unfold ShippingTimerHandler.findNextShippingDay, ShippingTimerHandler.maxDays.
    destruct (ShippingTimerHandler.findNextShippingDay_from _ _ _ _ _ _) as [next|].
    + destruct Hfirst as (_ & Hday & _).
      destruct (_ =? 1)%nat.
      * destruct Hnone as [-> | ->]; reflexivity.
      * exists (ShippingTimerHandler.dayName (ShippingTimerHandler.nextDayOfWeek next)).
        split; [destruct Hnone as [-> | ->]; reflexivity|].
        intros Hd. rewrite Hday.
        exact (dayName_weekday _ (ShippingTimerHandler.daysAway next) Hd).
    + destruct Hnone as [-> | ->]; reflexivity.
Qed.

Lemma shipping_message_witness :
  let t := mkShippingTimer None AttrMissing AttrMissing (Some "Ships next week"%string) in
  let c := mkShippingClock (mkClock 1000 5 15 0) 2024 0 19 (λ _, "2024-01-20"%string) in
  ShippingTimerHandler.getDisplayMessage
    t (ShippingTimerHandler.updateState t c ShippingTimerHandler.init)
  = Some "Ships next week"%string.
Proof.
  intros t c.
  apply (shipping_message t c ShippingTimerHandler.init); [reflexivity | reflexivity | discriminate].
Defined.

(** Friday after the cutoff with the default weekend exclusion: the first
    shipping day is Monday. *)
Example shipping_message_friday :
  let t := mkShippingTimer None AttrMissing AttrMissing None in
  let c := mkShippingClock (mkClock 1000 5 15 0) 2024 0 19 (λ _, "2024-01-20"%string) in
  ShippingTimerHandler.getDisplayMessage
    t (ShippingTimerHandler.updateState t c ShippingTimerHandler.init)
  = Some "Order now for Monday delivery!"%string.
Proof. reflexivity. Qed.

(** ** Cart cycles *)

Lemma cart_calculateEndTime_eq (t : Timer) (p : Page) (ss : Storage) (now : Z) :
  isCartPage p = true ->
  CartTimerHandler.calculateEndTime t p ss now
  = match safeGetSession ss (CartTimerHandler.storageKey t) with
    | Some (VCycle startTime _) =>
      if negb (startTime =? 0) && (now <? startTime + cartDuration t * 60 * 1000)
      then (Some (startTime + cartDuration t * 60 * 1000), ss)
      else (Some (now + cartDuration t * 60 * 1000),
            fst (safeSetSession ss (CartTimerHandler.storageKey t) (VCycle now None)))
    | _ => (Some (now + cartDuration t * 60 * 1000),
            fst (safeSetSession ss (CartTimerHandler.storageKey t) (VCycle now None)))
    end.
Proof.
  intros Hp. unfold CartTimerHandler.calculateEndTime. rewrite Hp. simpl negb. cbv iota.
  fold (cartDuration t).
  destruct (safeGetSession ss (CartTimerHandler.storageKey t)) as [[b|s r|m|raw]|];
    try reflexivity.
  destruct (negb (s =? 0) && (now <? s + cartDuration t * 60 * 1000)); reflexivity.
Qed.

(** X15.  The cycle of a Cart timer lives in the session store.  Off the
    cart page nothing is computed or stored and the timer is inactive.  On
    the cart page, with a session store that takes writes and holds no
    cycle, a computation at [t0] (not the epoch) starts a cycle of
    [cartTimerDuration || evergreenDuration || 15] minutes; until its end
    every computation returns the same end-timestamp and leaves the store
    alone, and from its end on the next computation starts a new cycle at
    its own clock reading, without any reset delay. *)
Theorem cart_session_cycle :
  (forall (t : Timer) (p : Page) (fetched : option Z) (ss : Storage) (now : Z)
          (h : CartTimerHandler.State),
      isCartPage p = false ->
      CartTimerHandler.initialize t p fetched ss now = (CartTimerHandler.mkState None 0, ss)
      /\ CartTimerHandler.calculateEndTime t p ss now = (None, ss)
      /\ CartTimerHandler.isActive t p h now = false)
  /\ (forall (t : Timer) (p : Page) (ss : Storage) (t0 : Z),
         isCartPage p = true ->
         mode ss = Working ->
         safeGetSession ss (CartTimerHandler.storageKey t) = None ->
         t0 ≠ 0 ->
         let finish := t0 + cartDuration t * 60000 in
         let ss1 := snd (CartTimerHandler.calculateEndTime t p ss t0) in
         fst (CartTimerHandler.calculateEndTime t p ss t0) = Some finish
         /\ safeGetSession ss1 (CartTimerHandler.storageKey t) = Some (VCycle t0 None)
         /\ (forall now, now < finish ->
                         CartTimerHandler.calculateEndTime t p ss1 now = (Some finish, ss1))
         /\ (forall now, finish <= now ->
                         let r := CartTimerHandler.calculateEndTime t p ss1 now in
                         fst r = Some (now + cartDuration t * 60000)
                         /\ safeGetSession (snd r) (CartTimerHandler.storageKey t)
                            = Some (VCycle now None)))
  /\ (forall (t : Timer),
         (forall d, cartTimerDuration t = Some d -> d ≠ 0 -> cartDuration t = d)
         /\ (forall d, Js.truthyZ (cartTimerDuration t) = false ->
                       evergreenDuration t = Some d -> d ≠ 0 -> cartDuration t = d)
         /\ (Js.truthyZ (cartTimerDuration t) = false ->
             Js.truthyZ (evergreenDuration t) = false -> cartDuration t = 15)).
Proof.
  split; [|split].
  - intros t p fetched ss now h Hp.
    unfold CartTimerHandler.initialize, CartTimerHandler.calculateEndTime,
      CartTimerHandler.isActive.
    rewrite Hp. repeat split.
  - intros t p ss t0 Hp Hm Hst Ht0 finish ss1.
    assert (Hfirst : CartTimerHandler.calculateEndTime t p ss t0
                     = (Some (t0 + cartDuration t * 60 * 1000),
                        fst (safeSetSession ss (CartTimerHandler.storageKey t)
                                            (VCycle t0 None)))).
    { rewrite cart_calculateEndTime_eq by exact Hp. now rewrite Hst. }
    subst ss1. rewrite Hfirst. simpl fst. simpl snd.
    assert (Hst1 : safeGetSession (fst (safeSetSession ss (CartTimerHandler.storageKey t)
                                                       (VCycle t0 None)))
                                  (CartTimerHandler.storageKey t)
                   = Some (VCycle t0 None)).
    { unfold safeGetSession, safeSetSession. now rewrite safeGet_safeSet_working. }
    split; [subst finish; f_equal; lia|]. split; [exact Hst1|].
    assert (Hne : (t0 =? 0) = false) by now apply Z.eqb_neq.
    split.
    + intros now Hnow. rewrite cart_calculateEndTime_eq by exact Hp. rewrite Hst1, Hne.
      destruct (Z.ltb_spec now (t0 + cartDuration t * 60 * 1000)); [|subst finish; lia].
      simpl. do 2 f_equal. subst finish. lia.
    + intros now Hnow r. subst r. rewrite cart_calculateEndTime_eq by exact Hp.
      rewrite Hst1, Hne.
      destruct (Z.ltb_spec now (t0 + cartDuration t * 60 * 1000)); [subst finish; lia|].
      simpl. split; [f_equal; lia|].
      unfold safeGetSession, safeSetSession. rewrite safeGet_safeSet_working; [reflexivity|].
      now rewrite safeSet_mode.
  - intros t. unfold cartDuration. repeat split.
    + intros d -> Hd. simpl. now destruct (Z.eqb_spec d 0).
    + intros d -> -> Hd. simpl. now destruct (Z.eqb_spec d 0).
    + intros -> ->. reflexivity.
Qed.

Lemma cart_session_cycle_witness :
  let t := mkTimer "t1" None None None None AttrMissing None None true
                   AttrMissing AttrMissing in
  let p := mkPage "/cart" None in
  let ss1 := snd (CartTimerHandler.calculateEndTime t p (mkStorage ∅ Working) 1000000) in
  fst (CartTimerHandler.calculateEndTime t p (mkStorage ∅ Working) 1000000)
  = Some (1000000 + 15 * 60000)
  /\ safeGetSession ss1 (CartTimerHandler.storageKey t) = Some (VCycle 1000000 None)
  /\ (forall now, now < 1000000 + 15 * 60000 ->
                  CartTimerHandler.calculateEndTime t p ss1 now
                  = (Some (1000000 + 15 * 60000), ss1))
  /\ (forall now, 1000000 + 15 * 60000 <= now ->
                  let r := CartTimerHandler.calculateEndTime t p ss1 now in
                  fst r = Some (now + 15 * 60000)
                  /\ safeGetSession (snd r) (CartTimerHandler.storageKey t)
                     = Some (VCycle now None)).
Proof.
  intros t p ss1.
  apply (proj1 (proj2 cart_session_cycle) t p (mkStorage ∅ Working) 1000000);
    [reflexivity | reflexivity | reflexivity | lia].
Defined.

(** X16.  The threshold gate of [initialize()] on the cart page, for a
    positive threshold: the subtotal is the cents of [/cart.js] divided by
    100, or 0 when the fetch fails; a subtotal below the threshold leaves
    the handler without end-timestamp and the session store untouched, and
    the handler inactive; a subtotal that reaches the threshold starts (or
    resumes) the cycle.  A failed fetch therefore always withholds the
    timer, and the nudge then asks for the full threshold. *)
Theorem cart_threshold_gate :
  forall (t : Timer) (p : Page) (fetched : option Z) (ss : Storage) (now : Z) (th : Q),
    isCartPage p = true ->
    cartThreshold t = Some th -> (0 < th)%Q ->
    let total := match fetched with
                 | Some cents => (inject_Z cents / inject_Z 100)%Q
                 | None => 0%Q
                 end in
    let h := fst (CartTimerHandler.initialize t p fetched ss now) in
    CartTimerHandler.cartTotal h = total
    /\ ((total < th)%Q ->
        CartTimerHandler.initialize t p fetched ss now = (CartTimerHandler.mkState None total, ss)
        /\ forall later, CartTimerHandler.isActive t p h later = false)
    /\ ((th <= total)%Q ->
        CartTimerHandler.initialize t p fetched ss now
        = (CartTimerHandler.mkState (fst (CartTimerHandler.calculateEndTime t p ss now)) total,
           snd (CartTimerHandler.calculateEndTime t p ss now))
        /\ CartTimerHandler.getDisplayMessage t h = NoMessage)
    /\ (fetched = None ->
        CartTimerHandler.initialize t p fetched ss now = (CartTimerHandler.mkState None 0, ss)
        /\ CartTimerHandler.getDisplayMessage t h
           = match Str.toFixed2 (th - 0) with
             | Some amount => Message ("Add $" +:+ amount +:+ " more to qualify!")
             | None => MessageExponent
             end).
Proof.
  intros t p fetched ss now th Hp Hth Hpos total h.
  assert (Htruthy : Js.truthyQ (Some th) = true).
  { unfold Js.truthyQ. apply negb_true_iff. destruct (Qeq_bool th 0) eqn:E; [|reflexivity].
    apply Qeq_bool_iff in E. rewrite E in Hpos. exfalso. exact (Qlt_irrefl 0 Hpos). }
  assert (Hbelow : forall e, CartTimerHandler.belowThreshold t (CartTimerHandler.mkState e total)
                             = negb (Qle_bool th total)).
  { intros e. unfold CartTimerHandler.belowThreshold. rewrite Hth, Htruthy. reflexivity. }
  assert (Hinit : CartTimerHandler.initialize t p fetched ss now
                  = if negb (Qle_bool th total)
                    then (CartTimerHandler.mkState None total, ss)
                    else (CartTimerHandler.mkState
                            (fst (CartTimerHandler.calculateEndTime t p ss now)) total,
                          snd (CartTimerHandler.calculateEndTime t p ss now))).
  { unfold CartTimerHandler.initialize. rewrite Hp. simpl negb. cbv iota zeta.
    fold total. rewrite Hbelow.
    destruct (negb (Qle_bool th total)); [reflexivity|].
    now destruct (CartTimerHandler.calculateEndTime t p ss now). }
  assert (Hlow : (total < th)%Q -> negb (Qle_bool th total) = true).
  { intros Hlt. apply negb_true_iff. destruct (Qle_bool th total) eqn:E; [|reflexivity].
    apply Qle_bool_iff in E. exfalso. exact (Qlt_not_le _ _ Hlt E). }
  assert (Hhigh : (th <= total)%Q -> negb (Qle_bool th total) = false).
  { intros Hle. apply negb_false_iff. now apply Qle_bool_iff. }
  split; [|split; [|split]].
  - subst h. rewrite Hinit. now destruct (negb (Qle_bool th total)).
  - intros Hlt. subst h. rewrite Hinit, (Hlow Hlt). split; [reflexivity|].
    intros later. unfold CartTimerHandler.isActive. rewrite Hp. simpl fst.
    rewrite Hbelow, (Hlow Hlt). reflexivity.
  - intros Hle. subst h. rewrite Hinit, (Hhigh Hle). split; [reflexivity|].
    simpl fst. unfold CartTimerHandler.getDisplayMessage.
    rewrite Hbelow, (Hhigh Hle). reflexivity.
  - intros ->. subst h total. rewrite Hinit, (Hlow Hpos). split; [reflexivity|].
    simpl fst. unfold CartTimerHandler.getDisplayMessage.
    rewrite Hbelow, (Hlow Hpos). rewrite Hth. reflexivity.
Qed.

Lemma cart_threshold_gate_witness :
  let t := mkTimer "t1" None None None None AttrMissing (Some 50%Q) None true
                   AttrMissing AttrMissing in
  let p := mkPage "/cart" None in
  CartTimerHandler.initialize t p None (mkStorage ∅ Working) 1000000
  = (CartTimerHandler.mkState None 0, mkStorage ∅ Working)
  /\ CartTimerHandler.getDisplayMessage
       t (fst (CartTimerHandler.initialize t p None (mkStorage ∅ Working) 1000000))
     = Message "Add $50.00 more to qualify!".
Proof.
  intros t p.
  destruct (cart_threshold_gate t p None (mkStorage ∅ Working) 1000000 50%Q
                                eq_refl eq_refl eq_refl) as (_ & _ & _ & H).
  exact (H eq_refl).
Defined.

(** ** Page targeting: literal patterns, page types, lists *)

Lemma matchPage_catch_all (path : string) :
  matchPage path "*" = true /\ matchPage path "/" = true.
Proof. split; reflexivity. Qed.

Lemma matchPage_page_type (path name target : string) :
  name ≠ "*"%string -> name ≠ "/"%string ->
  Str.endsWith name "*" = false ->
  pageType pageTypes name = Some target ->
  name ≠ "home"%string ->
  matchPage path name = String.eqb path name || Str.startsWith path target.
Proof.
  intros H1 H2 Hend Hty Hhome. unfold matchPage.
  apply String.eqb_neq in H1. apply String.eqb_neq in H2. apply String.eqb_neq in Hhome.
  rewrite H1, H2, Hend, Hty, Hhome. simpl.
  now destruct (String.eqb path name).
Qed.

Lemma matchPage_literal (path pattern : string) :
  pattern ≠ "*"%string -> pattern ≠ "/"%string ->
  Str.endsWith pattern "*" = false ->
  pageType pageTypes pattern = None ->
  matchPage path pattern = String.eqb path pattern.
Proof.
  intros H1 H2 Hend Hty. unfold matchPage.
  apply String.eqb_neq in H1. apply String.eqb_neq in H2.
  rewrite H1, H2, Hend, Hty. simpl.
  now destruct (String.eqb path pattern).
Qed.

(** X17.  [matchPage] beyond wildcards and "home": the patterns "*" and "/"
    match every path; a page-type name other than "home" matches the path
    equal to the name itself and every path that starts with the type's
    prefix (so "cart" also matches "/cartoon"); any other pattern without a
    trailing star matches only the path equal to it. *)
Theorem matchPage_names_and_literals :
  (forall path : string, matchPage path "*" = true /\ matchPage path "/" = true)
  /\ (forall path name target : string,
         (name, target) ∈ pageTypes -> name ≠ "home"%string ->
         matchPage path name = true <-> path = name \/ exists rest, path = target +:+ rest)
  /\ (forall path pattern : string,
         pattern ≠ "*"%string -> pattern ≠ "/"%string ->
         Str.endsWith pattern "*" = false ->
         pageType pageTypes pattern = None ->
         matchPage path pattern = true <-> path = pattern).
Proof.
  split; [exact matchPage_catch_all|]. split.
  - intros path name target Hin Hhome.
    assert (Hm : matchPage path name = String.eqb path name || Str.startsWith path target).
    { unfold pageTypes in Hin. rewrite !elem_of_cons in Hin. rewrite elem_of_nil in Hin.
      destruct Hin as [E|[E|[E|[E|[E|[E|[E|[]]]]]]]]; inversion E; subst name target;
        try contradiction; apply matchPage_page_type; (reflexivity || discriminate). }
    rewrite Hm, orb_true_iff. unfold Str.startsWith. rewrite prefix_app_iff.
    now rewrite String.eqb_eq.
  - intros path pattern H1 H2 Hend Hty.
    rewrite matchPage_literal by assumption. apply String.eqb_eq.
Qed.

Lemma matchPage_names_and_literals_witness :
  matchPage "/cartoon" "cart" = true <-> "/cartoon"%string = "cart"%string
                                         \/ exists rest, "/cartoon"%string = "/cart" +:+ rest.
Proof.
  apply (proj1 (proj2 matchPage_names_and_literals) "/cartoon" "cart" "/cart")%string.
  - unfold pageTypes. rewrite !elem_of_cons. tauto.
  - discriminate.
Defined.

Lemma existsb_elem_of {A : Type} (f : A -> bool) (l : list A) :
  existsb f l = true <-> exists x, x ∈ l /\ f x = true.
Proof.
  rewrite existsb_exists. split; intros (x & Hx & Hf); exists x; split; try assumption;
    now apply list_elem_of_In.
Qed.

(** X18.  [shouldShowOnPage]: a timer shown on all pages is hidden exactly
    where one of its exclude patterns matches (so an exclude list holding
    "/" or "*" hides it everywhere) and is shown everywhere when the
    exclude list is absent or unparsable; a targeted timer is shown exactly
    where one of its target patterns matches, nowhere when the target list
    is absent, unparsable or empty, and its exclude list is never
    consulted. *)
Theorem shouldShowOnPage_lists :
  (forall (path : string) (t : Timer) (excludes : list string),
      showOnAllPages t = true -> excludePages t = AttrList excludes ->
      (shouldShowOnPage path t = false
       <-> exists p, p ∈ excludes /\ matchPage path p = true)
      /\ ("/"%string ∈ excludes \/ "*"%string ∈ excludes -> shouldShowOnPage path t = false))
  /\ (forall (path : string) (t : Timer),
         showOnAllPages t = true ->
         excludePages t = AttrMissing \/ excludePages t = AttrInvalid ->
         shouldShowOnPage path t = true)
  /\ (forall (path : string) (t : Timer),
         showOnAllPages t = false ->
         (shouldShowOnPage path t = true
          <-> exists targets p,
             targetPages t = AttrList targets /\ p ∈ targets /\ matchPage path p = true)
         /\ forall excludes : JsonAttr string,
             shouldShowOnPage
               path (mkTimer (id t) (evergreenDuration t) (evergreenResetDelay t)
                             (dailyStartTime t) (dailyEndTime t) (recurringDays t)
                             (cartThreshold t) (cartTimerDuration t) (showOnAllPages t)
                             (targetPages t) excludes)
             = shouldShowOnPage path t).
Proof.
  split; [|split].
  - intros path t excludes Hall Hex. unfold shouldShowOnPage. rewrite Hall, Hex.
    assert (Hiff : negb (existsb (matchPage path) excludes) = false
                   <-> exists p, p ∈ excludes /\ matchPage path p = true).
    { rewrite negb_false_iff. apply existsb_elem_of. }
    split; [exact Hiff|].
    intros [H|H]; apply Hiff; [exists "/"%string | exists "*"%string];
      (split; [exact H | apply matchPage_catch_all]).
  - intros path t Hall [Hex|Hex]; unfold shouldShowOnPage; now rewrite Hall, Hex.
  - intros path t Hall. split.
    + unfold shouldShowOnPage. rewrite Hall.
      destruct (targetPages t) as [| |targets].
      * split; [discriminate | intros (ts & p & E & _); discriminate].
      * split; [discriminate | intros (ts & p & E & _); discriminate].
      * rewrite existsb_elem_of. split.
        -- intros (p & Hp & Hm). now exists targets, p.
        -- intros (ts & p & E & Hp & Hm). inversion E; subst ts. now exists p.
    + intros excludes. unfold shouldShowOnPage. simpl. now rewrite Hall.
Qed.

Lemma shouldShowOnPage_lists_witness :
  let t := mkTimer "t1" None None None None AttrMissing None None true
                   AttrMissing (AttrList ["/"; "/pages/faq"]%string) in
  shouldShowOnPage "/products/shoe" t = false.
Proof.
  intros t.
  apply (proj1 shouldShowOnPage_lists "/products/shoe"%string t ["/"; "/pages/faq"]%string
               eq_refl eq_refl).
  left. rewrite !elem_of_cons. tauto.
Defined.

(** ** Browser storage round trip *)

(** X19.  The storage helpers.  With storage that takes writes,
    [safeSet] answers true, a following [safeGet] of the same key returns
    the value written (whatever was there before) and every other key
    reads as before.  When writes throw, [safeSet] answers false and the
    store reads exactly as before; when every access throws, [safeGet]
    returns the default for every key.  A key whose text does not parse
    reads as the default. *)
Theorem storage_round_trip :
  (forall (st : Storage) (key : string) (v : StoredValue),
      mode st = Working ->
      (forall text, v ≠ VRaw text) ->
      snd (safeSet st key v) = true
      /\ safeGet (fst (safeSet st key v)) key = Some v
      /\ (forall other, other ≠ key ->
                        safeGet (fst (safeSet st key v)) other = safeGet st other)
      /\ mode (fst (safeSet st key v)) = Working)
  /\ (forall (st : Storage) (key : string) (v : StoredValue),
         mode st ≠ Working ->
         safeSet st key v = (st, false))
  /\ (forall (st : Storage) (key : string),
         mode st = Blocked -> safeGet st key = None)
  /\ (forall (st : Storage) (key text : string),
         items st !! key = Some (VRaw text) -> safeGet st key = None).
Proof.
  split; [|split; [|split]].
  - intros st key v Hm Hv. split; [|split; [|split]].
    + unfold safeSet. now rewrite Hm.
    + rewrite safeGet_safeSet_working by exact Hm.
      destruct v; try reflexivity. now destruct (Hv text).
    + intros other Hne. unfold safeSet, safeGet. rewrite Hm. simpl.
      now rewrite lookup_insert_ne by congruence.
    + now rewrite safeSet_mode.
  - intros st key v Hm. unfold safeSet. destruct (mode st); [contradiction| |]; reflexivity.
  - intros st key Hm. unfold safeGet. now rewrite Hm.
  - intros st key text Hraw. unfold safeGet. rewrite Hraw. now destruct (mode st).
Qed.

Lemma storage_round_trip_witness :
  safeGet (fst (safeSet (mkStorage {[ "k"%string := VBool false ]} Working)
                        "k" (VCycle 1000 None))) "k"
  = Some (VCycle 1000 None).
Proof.
  apply (proj1 storage_round_trip
               (mkStorage {[ "k"%string := VBool false ]} Working) "k"%string (VCycle 1000 None));
    [reflexivity | discriminate].
Defined.

(** ** Closed timers: purge and bookkeeping *)

Lemma youngerThanDay_all (now : Z) (m : gmap string Z) :
  (forall k ts, m !! k = Some ts -> now - ts < DAY_MS) -> youngerThanDay now m = m.
Proof.
  intros H. unfold youngerThanDay. apply map_eq. intros k.
  destruct (m !! k) as [ts|] eqn:E.
  - apply map_lookup_filter_Some. split; [exact E | exact (H k ts E)].
  - apply map_lookup_filter_None. left. exact E.
Qed.

Lemma youngerThanDay_idemp (now : Z) (m : gmap string Z) :
  youngerThanDay now (youngerThanDay now m) = youngerThanDay now m.
Proof.
  apply youngerThanDay_all. intros k ts H.
  apply map_lookup_filter_Some in H as [_ H]. exact H.
Qed.

Lemma getClosedTimers_unchanged (ls : Storage) (now : Z) :
  youngerThanDay now (closedData ls) = closedData ls ->
  getClosedTimers ls now = ((map_to_list (closedData ls)).*1, ls).
Proof.
  intros H. unfold getClosedTimers. cbv zeta. rewrite H.
  now rewrite Nat.eqb_refl.
Qed.

(** X20.  [getClosedTimers] only ever drops entries.  When no stored entry
    is a day old it leaves the store exactly as it was; run again at the
    same clock reading on the store it left, it returns the same ids and
    changes nothing; and with a store that takes writes, a later run
    returns no id that the earlier run did not return. *)
Theorem getClosedTimers_only_purges :
  (forall (ls : Storage) (now : Z),
      (forall timerId ts, closedData ls !! timerId = Some ts -> now - ts < DAY_MS) ->
      snd (getClosedTimers ls now) = ls)
  /\ (forall (ls : Storage) (now : Z),
         getClosedTimers (snd (getClosedTimers ls now)) now
         = (fst (getClosedTimers ls now), snd (getClosedTimers ls now)))
  /\ (forall (ls : Storage) (now later : Z) (timerId : string),
         mode ls = Working -> now <= later ->
         includesId (fst (getClosedTimers (snd (getClosedTimers ls now)) later)) timerId = true ->
         includesId (fst (getClosedTimers ls now)) timerId = true).
Proof.
  split; [|split].
  - intros ls now Hyoung.
    rewrite getClosedTimers_unchanged; [reflexivity|].
    now apply youngerThanDay_all.
  - intros ls now.
    destruct (decide (mode ls = Working)) as [Hm|Hm].
    + destruct (getClosedTimers_store ls now Hm) as [Hd _].
      rewrite getClosedTimers_unchanged by (rewrite Hd; apply youngerThanDay_idemp).
      rewrite Hd. reflexivity.
    + assert (Hsame : snd (getClosedTimers ls now) = ls).
      { unfold getClosedTimers. cbv zeta. simpl snd.
        destruct (negb _); [|reflexivity].
        unfold safeSetStorage. now rewrite safeSet_not_working. }
      rewrite Hsame at 1. apply surjective_pairing.
  - intros ls now later timerId Hm Hle Hin.
    apply getClosedTimers_ids in Hin as (ts & Hl & Hy).
    destruct (getClosedTimers_store ls now Hm) as [Hd _]. rewrite Hd in Hl.
    unfold youngerThanDay in Hl. apply map_lookup_filter_Some in Hl as [Hl Hy'].
    apply getClosedTimers_ids. now exists ts.
Qed.

Lemma getClosedTimers_only_purges_witness :
  let ls := saveClosedTimer (mkStorage ∅ Working) "t1" 1000 in
  snd (getClosedTimers ls 5000) = ls.
Proof.
  intros ls. apply (proj1 getClosedTimers_only_purges ls 5000).
  intros timerId ts H.
  destruct (decide (timerId = "t1"%string)) as [->|Hne].
  - vm_compute in H. inversion H. reflexivity.
  - unfold ls in H.
    rewrite (proj1 (saveClosedTimer_store (mkStorage ∅ Working) "t1"%string 1000 eq_refl)) in H.
    rewrite lookup_insert_ne in H by congruence. discriminate H.
Defined.

(** X21.  Closing is kept per timer.  With a store that takes writes,
    closing a timer records the clock reading under its id and leaves every
    other timer's entry as it was; closing it again replaces the reading,
    so the day of suppression is counted from the latest close; and
    a timer closed at [t] is listed by [getClosedTimers] exactly while
    fewer than 24 hours have passed since [t]. *)
Theorem saveClosedTimer_per_timer :
  forall (ls : Storage) (timerId : string) (t : Z),
    mode ls = Working ->
    let ls1 := saveClosedTimer ls timerId t in
    closedData ls1 !! timerId = Some t
    /\ (forall other, other ≠ timerId -> closedData ls1 !! other = closedData ls !! other)
    /\ (forall t2, closedData (saveClosedTimer ls1 timerId t2) !! timerId = Some t2)
    /\ (forall now, includesId (fst (getClosedTimers ls1 now)) timerId = true
                    <-> now - t < DAY_MS)
    /\ (forall now other, other ≠ timerId ->
                          includesId (fst (getClosedTimers ls1 now)) other
                          = includesId (fst (getClosedTimers ls now)) other).
Proof.
  intros ls timerId t Hm ls1.
  destruct (saveClosedTimer_store ls timerId t Hm) as [Hd Hm1]. fold ls1 in Hd, Hm1.
  split; [|split; [|split; [|split]]].
  - now rewrite Hd, lookup_insert_eq.
  - intros other Hne. rewrite Hd. now rewrite lookup_insert_ne by congruence.
  - intros t2. destruct (saveClosedTimer_store ls1 timerId t2 Hm1) as [Hd2 _].
    now rewrite Hd2, lookup_insert_eq.
  - intros now. rewrite getClosedTimers_ids, Hd, lookup_insert_eq. split.
    + intros (ts & E & Hy). now inversion E; subst ts.
    + intros Hy. now exists t.
  - intros now other Hne.
    apply eq_true_iff_eq. rewrite !getClosedTimers_ids, Hd.
    now rewrite lookup_insert_ne by congruence.
Qed.

Lemma saveClosedTimer_per_timer_witness :
  closedData (saveClosedTimer (mkStorage ∅ Working) "t1" 1000) !! "t1"%string = Some 1000.
Proof.
  apply (saveClosedTimer_per_timer (mkStorage ∅ Working) "t1"%string 1000). reflexivity.
Defined.

(** ** Bootstrap *)

(** X22.  [initTimers] hands a timer element to the engine exactly when it
    has an id, the id was not closed within the last 24 hours, and the page
    targeting admits the current path; the elements are classified in
    document order, one result each; and with no timer element on the page
    nothing is read or purged. *)
Theorem initTimers_registers :
  (forall (ls : Storage) (path : string) (now : Z) (timerEls : list Timer),
      (fst (initTimers ls path now timerEls)).*1 = timerEls)
  /\ (forall (ls : Storage) (path : string) (now : Z) (timerEls : list Timer)
             (t : Timer) (d : Disposition),
         (t, d) ∈ fst (initTimers ls path now timerEls) ->
         d = Registered
         <-> id t ≠ ""%string
             /\ (forall ts, closedData ls !! id t = Some ts -> DAY_MS <= now - ts)
             /\ shouldShowOnPage path t = true)
  /\ (forall (ls : Storage) (path : string) (now : Z),
         initTimers ls path now [] = ([], ls)).
Proof.
  split; [|split].
  - intros ls path now timerEls. unfold initTimers.
    destruct timerEls as [|first others]; [reflexivity|].
    destruct (getClosedTimers ls now) as [closed ls']. cbn [fst].
    induction (first :: others) as [|tm rest IH]; [reflexivity|].
    simpl. f_equal. exact IH.
  - intros ls path now timerEls t d Hin.
    assert (Hd : d = processTimer (fst (getClosedTimers ls now)) path t).
    { unfold initTimers in Hin. destruct timerEls as [|first others].
      - simpl in Hin. now apply elem_of_nil in Hin.
      - destruct (getClosedTimers ls now) as [closed ls']. cbn [fst] in *.
        apply list_elem_of_fmap in Hin as (tm & E & _). now inversion E. }
    subst d. unfold processTimer.
    destruct (String.eqb_spec (id t) "") as [He|Hne].
    { split; [discriminate | intros [? _]; contradiction]. }
    destruct (includesId (fst (getClosedTimers ls now)) (id t)) eqn:Hc.
    { split; [discriminate|]. intros (_ & Hold & _).
      apply getClosedTimers_ids in Hc as (ts & Hl & Hy). specialize (Hold ts Hl). lia. }
    assert (Hold : forall ts, closedData ls !! id t = Some ts -> DAY_MS <= now - ts).
    { intros ts Hl. destruct (Z.lt_ge_cases (now - ts) DAY_MS) as [Hy|Ho]; [|exact Ho].
      assert (Hin' : includesId (fst (getClosedTimers ls now)) (id t) = true)
        by (apply getClosedTimers_ids; now exists ts).
      congruence. }
    destruct (shouldShowOnPage path t); simpl.
    + split; [intros _; repeat split; assumption | reflexivity].
    + split; [discriminate | intros (_ & _ & H); discriminate].
  - reflexivity.
Qed.

Lemma initTimers_registers_witness :
  let tm := mkTimer "t1" None None None None AttrMissing None None true
                    AttrMissing AttrMissing in
  Registered = Registered
  <-> id tm ≠ ""%string
      /\ (forall ts, closedData (mkStorage ∅ Working) !! id tm = Some ts -> DAY_MS <= 5000 - ts)
      /\ shouldShowOnPage "/" tm = true.
Proof.
  intros tm.
  apply (proj1 (proj2 initTimers_registers) (mkStorage ∅ Working) "/"%string 5000 [tm] tm).
  vm_compute. apply list_elem_of_here.
Defined.

(** ** Analytics: clicks, bounded attempts, what the sender writes *)

Lemma step_call_click (w : World) (timerId : string) :
  timerId ≠ ""%string ->
  step w (Call Click timerId) = fetch w (mkRequest Click timerId 0 (currentPath w)).
Proof.
  intros Hne. simpl. unfold sendAnalyticsEvent.
  now destruct (String.eqb_spec timerId "").
Qed.

(** X23.  Clicks are never deduplicated: [n] calls of [trackClick] with a
    timer id issue [n] requests, each with attempt counter 0 and the
    current path, whatever the session store holds and whether or not it
    works, and they write nothing to the session store.  A call without a
    timer id, of either kind, does nothing. *)
Theorem clicks_not_deduplicated :
  (forall (w : World) (timerId : string) (n : nat),
      timerId ≠ ""%string ->
      let w' := run w (replicate n (Call Click timerId)) in
      sent w' = sent w ++ replicate n (mkRequest Click timerId 0 (currentPath w))
      /\ session w' = session w
      /\ currentPath w' = currentPath w)
  /\ (forall (w : World) (event : EventKind), step w (Call event "") = w).
Proof.
  split; [|reflexivity].
  intros w timerId n Hne. revert w.
  induction n as [|n IH]; intros w; cbv zeta.
  - simpl. now rewrite app_nil_r.
  - change (replicate (S n) (Call Click timerId))
      with ([Call Click timerId] ++ replicate n (Call Click timerId)).
    rewrite run_app. change (run w [Call Click timerId]) with (step w (Call Click timerId)).
    rewrite step_call_click by exact Hne.
    destruct (IH (fetch w (mkRequest Click timerId 0 (currentPath w)))) as (Hs & Hses & Hp).
    cbv zeta in Hs, Hses, Hp. rewrite Hs, Hses, Hp. simpl.
    repeat split. now rewrite <- app_assoc.
Qed.

Lemma clicks_not_deduplicated_witness :
  let w := fresh "/products/shoe" (mkStorage ∅ Blocked) in
  sent (run w (replicate 3 (Call Click "t1")))
  = sent w ++ replicate 3 (mkRequest Click "t1" 0 (currentPath w)).
Proof.
  intros w. apply (proj1 clicks_not_deduplicated w "t1"%string 3%nat). discriminate.
Defined.

Lemma list_sum_delete {A : Type} (f : A -> nat) (l : list A) (i : nat) (x : A) :
  l !! i = Some x ->
  (list_sum (map f (delete i l)) + f x = list_sum (map f l))%nat.
Proof.
  revert i. induction l as [|y l IH]; intros [|i] H; simpl in *; try discriminate.
  - inversion H; subst. lia.
  - specialize (IH i H). lia.
Qed.

Lemma Forall_delete_list {A : Type} (P : A -> Prop) (l : list A) (i : nat) :
  Forall P l -> Forall P (delete i l).
Proof.
  intros H. revert i. induction H as [|y l Hy Hl IH]; intros [|i]; simpl;
    try constructor; auto.
Qed.

Lemma Forall_snoc {A : Type} (P : A -> Prop) (l : list A) (x : A) :
  Forall P l -> P x -> Forall P (l ++ [x]).
Proof. intros Hl Hx. apply Forall_app. split; [exact Hl | now constructor]. Qed.

Lemma list_sum_snoc (l : list nat) (x : nat) : list_sum (l ++ [x]) = (list_sum l + x)%nat.
Proof. induction l as [|y l IH]; simpl; lia. Qed.

Lemma sendAnalyticsEvent_bounded (w : World) (event : EventKind) (timerId : string) (k : nat) :
  (k <= 3)%nat -> countersBounded w ->
  countersBounded (sendAnalyticsEvent w event timerId k)
  /\ (potential (sendAnalyticsEvent w event timerId k) <= potential w + (4 - k))%nat.
Proof.
  intros Hk (Hs & Hi & Hsch & Hp).
  assert (Hfetch : forall w0,
             sent w0 = sent w -> inflight w0 = inflight w ->
             scheduled w0 = scheduled w -> pending w0 = pending w ->
             forall r, reqRetryCount r = k ->
             countersBounded (fetch w0 r)
             /\ (potential (fetch w0 r) <= potential w + (4 - k))%nat).
  { intros w0 E1 E2 E3 E4 r Hr. split.
    - unfold countersBounded, fetch. simpl. rewrite E1, E2, E3, E4.
      split; [apply Forall_snoc; [exact Hs | lia]|].
      split; [apply Forall_snoc; [exact Hi | lia]|].
      split; assumption.
    - unfold potential, attemptsLeft, fetch. cbn [sent inflight pending].
      rewrite E1, E2, E4.
      rewrite length_app, map_app. cbn [map]. rewrite list_sum_snoc.
      cbn [length]. rewrite Hr. lia. }
  destruct (sendAnalyticsEvent_cases w event timerId k) as [->|[(_ & _ & ->)|(_ & _ & _ & ->)]].
  - split; [repeat split; assumption | lia].
  - now apply Hfetch.
  - now apply Hfetch.
Qed.

Lemma onSettled_bounded (w : World) (r : Request) (o : Outcome) :
  (reqRetryCount r <= 3)%nat -> countersBounded w ->
  countersBounded (onSettled w r o)
  /\ (potential (onSettled w r o) <= potential w + (3 - reqRetryCount r))%nat.
Proof.
  intros Hr (Hs & Hi & Hsch & Hp).
  assert (Hretry : (reqRetryCount r < 3)%nat ->
                   countersBounded (retry w r)
                   /\ (potential (retry w r) <= potential w + (3 - reqRetryCount r))%nat).
  { intros Hlt. split.
    - unfold countersBounded, retry, setTimeout. simpl.
      split; [exact Hs|]. split; [exact Hi|].
      split; apply Forall_snoc; try assumption; simpl; [|lia].
      split; [lia|]. do 3 f_equal. lia.
    - unfold potential, attemptsLeft, retry, setTimeout.
      cbn [sent inflight pending].
      rewrite map_app. cbn [map]. rewrite list_sum_snoc.
      cbn [toRetryCount]. lia. }
  assert (Hsame : countersBounded w
                  /\ (potential w <= potential w + (3 - reqRetryCount r))%nat)
    by (split; [repeat split; assumption | lia]).
  unfold onSettled. destruct o as [status readable|].
  - destruct (response_ok status); [exact Hsame|].
    destruct readable; [|exact Hsame].
    destruct (((500 <=? status) || (status =? 404)) && (reqRetryCount r <? 3)%nat) eqn:E;
      [|exact Hsame].
    apply andb_true_iff in E as [_ E]. apply Nat.ltb_lt in E. now apply Hretry.
  - destruct (Nat.ltb_spec (reqRetryCount r) 3); [now apply Hretry | exact Hsame].
Qed.

Lemma step_bounded (w : World) (a : Action) :
  countersBounded w ->
  countersBounded (step w a)
  /\ (potential (step w a) <= potential w + 4 * callCount [a])%nat.
Proof.
  intros Hb. pose proof Hb as (Hs & Hi & Hsch & Hp).
  destruct a as [event timerId|i o|i|path]; simpl step.
  - destruct (sendAnalyticsEvent_bounded w event timerId 0 ltac:(lia) Hb) as [H1 H2].
    split; [exact H1|]. simpl. lia.
  - destruct (inflight w !! i) as [r|] eqn:E; [|split; [exact Hb | lia]].
    assert (Hr : (reqRetryCount r <= 3)%nat).
    { rewrite Forall_forall in Hi. apply Hi. eapply list_elem_of_lookup_2. exact E. }
    set (w0 := mkWorld (currentPath w) (session w) (sent w) (delete i (inflight w))
                       (scheduled w) (pending w)).
    assert (Hb0 : countersBounded w0).
    { unfold countersBounded, w0. simpl. repeat split; try assumption.
      now apply Forall_delete_list. }
    assert (Hpot : (potential w0 + (3 - reqRetryCount r) = potential w)%nat).
    { unfold potential, attemptsLeft, w0. simpl.
      pose proof (list_sum_delete (λ r, 3 - reqRetryCount r)%nat _ _ _ E). simpl in *. lia. }
    destruct (onSettled_bounded w0 r o Hr Hb0) as [H1 H2].
    split; [exact H1|]. simpl. lia.
  - destruct (pending w !! i) as [t|] eqn:E; [|split; [exact Hb | lia]].
    assert (Ht : (1 <= toRetryCount t <= 3)%nat).
    { rewrite Forall_forall in Hp. apply Hp. eapply list_elem_of_lookup_2. exact E. }
    set (w0 := mkWorld (currentPath w) (session w) (sent w) (inflight w)
                       (scheduled w) (delete i (pending w))).
    assert (Hb0 : countersBounded w0).
    { unfold countersBounded, w0. simpl. repeat split; try assumption.
      now apply Forall_delete_list. }
    assert (Hpot : (potential w0 + (4 - toRetryCount t) = potential w)%nat).
    { unfold potential, attemptsLeft, w0. simpl.
      pose proof (list_sum_delete (λ t, 4 - toRetryCount t)%nat _ _ _ E). simpl in *. lia. }
    destruct (sendAnalyticsEvent_bounded w0 (toEvent t) (toTimerId t) (toRetryCount t)
                                         ltac:(lia) Hb0) as [H1 H2].
    split; [exact H1|]. simpl. lia.
  - split.
    + unfold countersBounded. simpl. repeat split; try assumption; constructor.
    + unfold potential, attemptsLeft. simpl. lia.
Qed.

Lemma run_bounded (actions : list Action) (w : World) :
  countersBounded w ->
  countersBounded (run w actions)
  /\ (potential (run w actions) <= potential w + 4 * callCount actions)%nat.
Proof.
  revert w. induction actions as [|a rest IH]; intros w Hb.
  - split; [exact Hb | simpl; lia].
  - change (run w (a :: rest)) with (run (step w a) rest).
    destruct (step_bounded w a Hb) as [H1 H2].
    destruct (IH (step w a) H1) as [H3 H4].
    split; [exact H3|].
    assert (Hc : callCount (a :: rest) = (callCount [a] + callCount rest)%nat).
    { unfold callCount. simpl. destruct a; simpl; lia. }
    lia.
Qed.

(** X24.  The sender's attempts are bounded.  In a tab opened on any path
    with any session store, after any interleaving of calls, responses,
    retry timers and page loads: at most four requests have been issued per
    call of [trackImpression] / [trackClick]; every request carries an
    attempt counter of at most 3; and every retry timer ever set waits
    1000, 2000 or 4000 ms, namely [2^(k-1)] seconds before attempt [k]. *)
Theorem analytics_attempts_bounded :
  forall (path : string) (ss : Storage) (actions : list Action),
    let w := run (fresh path ss) actions in
    (length (sent w) <= 4 * callCount actions)%nat
    /\ Forall (λ r, (reqRetryCount r <= 3)%nat) (sent w)
    /\ Forall (λ t, (1 <= toRetryCount t <= 3)%nat
                    /\ delay t = 2 ^ Z.of_nat (toRetryCount t - 1) * 1000
                    /\ (delay t = 1000 \/ delay t = 2000 \/ delay t = 4000))
              (scheduled w).
Proof.
  intros path ss actions w.
  assert (Hb0 : countersBounded (fresh path ss)).
  { unfold countersBounded, fresh. simpl. repeat split; constructor. }
  destruct (run_bounded actions (fresh path ss) Hb0) as [(Hs & _ & Hsch & _) Hpot].
  fold w in Hs, Hsch, Hpot.
  split; [|split; [exact Hs|]].
  - unfold potential in Hpot. simpl in Hpot. lia.
  - eapply Forall_impl; [exact Hsch|].
    intros t [Hk Hd]. split; [exact Hk|]. split; [exact Hd|].
    rewrite Hd.
    assert (Hcases : toRetryCount t = 1%nat \/ toRetryCount t = 2%nat \/ toRetryCount t = 3%nat)
      by lia.
    destruct Hcases as [->|[->| ->]]; simpl; tauto.
Qed.

Lemma session_step (w : World) (a : Action) :
  session (step w a) = session w
  \/ exists timerId,
      session (step w a)
      = fst (safeSetSession (session w) (sessionKey timerId (currentPath w)) (VBool true)).
Proof.
  assert (Hsend : forall w0 event timerId k,
             session w0 = session w -> currentPath w0 = currentPath w ->
             session (sendAnalyticsEvent w0 event timerId k) = session w
             \/ exists tid,
                 session (sendAnalyticsEvent w0 event timerId k)
                 = fst (safeSetSession (session w) (sessionKey tid (currentPath w))
                                       (VBool true))).
  { intros w0 event timerId k E1 E2.
    destruct (sendAnalyticsEvent_cases w0 event timerId k)
      as [->|[(_ & _ & ->)|(_ & _ & _ & ->)]].
    - now left.
    - now left.
    - right. exists timerId. simpl. now rewrite E1, E2. }
  destruct a as [event timerId|i o|i|path]; simpl step.
  - now apply Hsend.
  - left. destruct (inflight w !! i) as [r|]; [|reflexivity].
    unfold onSettled, retry, setTimeout.
    destruct o as [status readable|].
    + destruct (response_ok status); [reflexivity|]. destruct readable; [|reflexivity].
      now destruct (_ && _).
    + now destruct (_ <? _)%nat.
  - destruct (pending w !! i) as [t|]; [|now left]. now apply Hsend.
  - now left.
Qed.

Lemma sessionKey_prefix (timerId path : string) :
  Str.startsWith (sessionKey timerId path) "impression_" = true.
Proof.
  unfold Str.startsWith. apply prefix_app_iff. now eexists.
Qed.

(** X25.  What the analytics sender writes.  Whatever happens in the tab,
    the session store keeps its access mode; every key either holds what it
    held before or the mark [true], and a key can change only if it starts
    with "impression_".  In particular the cycle a Cart timer keeps in the
    same store is never disturbed. *)
Theorem analytics_session_frame :
  forall (w : World) (actions : list Action),
    let w' := run w actions in
    mode (session w') = mode (session w)
    /\ (forall key, Str.startsWith key "impression_" = false ->
                    items (session w') !! key = items (session w) !! key)
    /\ (forall key, items (session w') !! key = items (session w) !! key
                    \/ items (session w') !! key = Some (VBool true))
    /\ (forall t : Timer,
           safeGetSession (session w') (CartTimerHandler.storageKey t)
           = safeGetSession (session w) (CartTimerHandler.storageKey t)).
Proof.
  intros w actions w'.
  assert (Hinv : mode (session w') = mode (session w)
                 /\ (forall key, Str.startsWith key "impression_" = false ->
                                 items (session w') !! key = items (session w) !! key)
                 /\ (forall key, items (session w') !! key = items (session w) !! key
                                 \/ items (session w') !! key = Some (VBool true))).
  { subst w'. apply (run_invariant
                       (λ w', mode (session w') = mode (session w)
                              /\ (forall key, Str.startsWith key "impression_" = false ->
                                              items (session w') !! key
                                              = items (session w) !! key)
                              /\ (forall key, items (session w') !! key
                                              = items (session w) !! key
                                              \/ items (session w') !! key
                                                 = Some (VBool true)))).
    2:{ repeat split; auto. }
    intros w1 a (Hm & Hframe & Hval).
    destruct (session_step w1 a) as [->|(timerId & ->)]; [repeat split; auto|].
    unfold safeSetSession. split; [now rewrite safeSet_mode|].
    unfold safeSet. destruct (mode (session w1)); simpl; try (split; assumption).
    split.
    - intros key Hkey. rewrite lookup_insert_ne; [now apply Hframe|].
      intros <-. now rewrite sessionKey_prefix in Hkey.
    - intros key. destruct (decide (sessionKey timerId (currentPath w1) = key)) as [<-|Hne].
      + right. now rewrite lookup_insert_eq.
      + rewrite lookup_insert_ne by exact Hne. apply Hval. }
  destruct Hinv as (Hm & Hframe & Hval).
  split; [exact Hm|]. split; [exact Hframe|]. split; [exact Hval|].
  intros t. unfold safeGetSession, safeGet. rewrite Hm.
  rewrite Hframe; [reflexivity|].
  unfold CartTimerHandler.storageKey, STORAGE_KEYS.CART_PREFIX.
  now rewrite append_cons.
Qed.

(** ** Render loop: rate of display updates *)

Lemma runFrames_from_frames (frames : list Q) (e : TimerEngine.State) (ts : Q) :
  ts ∈ TimerEngine.displayUpdates (TimerEngine.runFrames e frames) ->
  ts ∈ TimerEngine.displayUpdates e \/ ts ∈ frames.
Proof.
  revert e. induction frames as [|f frames IH]; intros e H; [now left|].
  change (TimerEngine.runFrames e (f :: frames))
    with (TimerEngine.runFrames (TimerEngine.update e f) frames) in H.
  apply IH in H as [H|H]; [|right; now apply list_elem_of_further].
  unfold TimerEngine.update in H.
  destruct (Qle_bool 1000 (f - TimerEngine.lastUpdateTime e)); [|now left].
  simpl in H. apply elem_of_app in H as [H|H]; [now left|].
  apply list_elem_of_singleton in H as ->. right. apply list_elem_of_here.
Qed.

Lemma update_paced (e : TimerEngine.State) (f : Q) :
  paced (TimerEngine.displayUpdates e) /\ tracksLastUpdate e ->
  paced (TimerEngine.displayUpdates (TimerEngine.update e f))
  /\ tracksLastUpdate (TimerEngine.update e f).
Proof.
  intros [Hp Ht]. unfold TimerEngine.update.
  destruct (Qle_bool 1000 (f - TimerEngine.lastUpdateTime e)) eqn:E; [|now split].
  apply Qle_bool_iff in E. simpl. split; [|left; simpl; apply last_snoc].
  intros k ts Hk.
  destruct (decide (k < length (TimerEngine.displayUpdates e))%nat) as [Hlt|Hge].
  { rewrite lookup_app_l in Hk by exact Hlt. now apply Hp. }
  assert (Hlen : k = length (TimerEngine.displayUpdates e)).
  { apply lookup_lt_Some in Hk. rewrite length_app in Hk. simpl in Hk. lia. }
  rewrite lookup_app_r in Hk by lia. rewrite Hlen, Nat.sub_diag in Hk. clear Hge.
  simpl in Hk. inversion Hk; subst ts. clear Hk.
  subst k. rewrite Nat2Z.inj_succ. unfold Z.succ. rewrite inject_Z_plus.
  destruct Ht as [Ht|[Hnil H0]].
  - rewrite last_lookup in Ht.
    assert (Hpos : (0 < length (TimerEngine.displayUpdates e))%nat).
    { destruct (TimerEngine.displayUpdates e); [discriminate | simpl; lia]. }
    pose proof (Hp _ _ Ht) as Hlast.
    replace (S (Nat.pred (length (TimerEngine.displayUpdates e))))
      with (length (TimerEngine.displayUpdates e)) in Hlast by lia.
    change (inject_Z 1) with 1%Q. lra.
  - rewrite Hnil. rewrite H0 in E. change (inject_Z (Z.of_nat (length []))) with 0%Q.
    change (inject_Z 1) with 1%Q. lra.
Qed.

Lemma runFrames_paced (frames : list Q) (e : TimerEngine.State) :
  paced (TimerEngine.displayUpdates e) /\ tracksLastUpdate e ->
  paced (TimerEngine.displayUpdates (TimerEngine.runFrames e frames))
  /\ tracksLastUpdate (TimerEngine.runFrames e frames).
Proof.
  revert e. induction frames as [|f frames IH]; intros e He; [exact He|].
  change (TimerEngine.runFrames e (f :: frames))
    with (TimerEngine.runFrames (TimerEngine.update e f) frames).
  apply IH. now apply update_paced.
Qed.

(** X26.  The render loop updates the display at most once per second of
    frame time, counted from the time origin: every update happens on one
    of the delivered frames, the update number [k + 1] has a timestamp of
    at least [(k + 1) * 1000] ms, so no update happens on frames before
    1000 ms and frames up to [T] ms bring at most [T / 1000] updates. *)
Theorem render_loop_rate :
  forall frames : list Q,
    let l := TimerEngine.displayUpdates (TimerEngine.runFrames TimerEngine.init frames) in
    (forall ts, ts ∈ l -> ts ∈ frames)
    /\ (forall (k : nat) (ts : Q),
           l !! k = Some ts -> (1000 * inject_Z (Z.of_nat (S k)) <= ts)%Q)
    /\ (Forall (λ ts, (ts < 1000)%Q) frames -> l = [])
    /\ (forall T : Q, Forall (λ ts, (ts <= T)%Q) frames -> l ≠ [] ->
                      (1000 * inject_Z (Z.of_nat (length l)) <= T)%Q).
Proof.
  intros frames l.
  assert (Hfrom : forall ts, ts ∈ l -> ts ∈ frames).
  { intros ts H. apply runFrames_from_frames in H as [H|H]; [|exact H].
    simpl in H. now apply elem_of_nil in H. }
  assert (Hpaced : paced l).
  { apply runFrames_paced. split.
    - intros k ts H. simpl in H. discriminate.
    - right. now split. }
  split; [exact Hfrom|]. split; [exact Hpaced|]. split.
  - intros Hall. destruct l as [|a rest] eqn:El; [reflexivity|].
    assert (Ha : (1000 * inject_Z (Z.of_nat 1) <= a)%Q) by (apply Hpaced; reflexivity).
    assert (Hin : a ∈ frames) by (apply Hfrom; apply list_elem_of_here).
    rewrite Forall_forall in Hall. specialize (Hall a Hin).
    change (inject_Z (Z.of_nat 1)) with 1%Q in Ha. lra.
  - intros T Hall Hne.
    assert (Hpos : (0 < length l)%nat) by (destruct l; [contradiction | simpl; lia]).
    destruct (lookup_lt_is_Some_2 l (Nat.pred (length l)) ltac:(lia)) as [a Ha].
    pose proof (Hpaced _ _ Ha) as Hlast.
    replace (S (Nat.pred (length l))) with (length l) in Hlast by lia.
    assert (Hin : a ∈ frames) by (apply Hfrom; eapply list_elem_of_lookup_2; exact Ha).
    rewrite Forall_forall in Hall. specialize (Hall a Hin).
    lra.
Qed.

Lemma render_loop_rate_witness :
  TimerEngine.displayUpdates (TimerEngine.runFrames TimerEngine.init [16; 500; 999]%Q) = [].
Proof.
  apply (proj1 (proj2 (proj2 (render_loop_rate [16; 500; 999]%Q)))).
  repeat constructor.
Defined.

(** ** Handler registry *)

Lemma registerTimer_consistent {H : Type} (g : Registry.State H) (t : Timer) (h : H) :
  registryConsistent g -> registryConsistent (Registry.registerTimer g t h).
Proof.
  intros Hc timerId. unfold Registry.registerTimer. simpl.
  destruct (decide (id t = timerId)) as [E|Hne].
  - rewrite E, lookup_insert_eq. split; [|now eexists].
    intros _. exists t. split; [|exact E]. apply elem_of_app. right. apply list_elem_of_here.
  - rewrite lookup_insert_ne by exact Hne. rewrite (Hc timerId). split.
    + intros (t' & Hin & E). exists t'. split; [|exact E]. apply elem_of_app. now left.
    + intros (t' & Hin & E). apply elem_of_app in Hin as [Hin|Hin]; [now exists t'|].
      apply list_elem_of_singleton in Hin. congruence.
Qed.

Lemma unregisterTimer_handlers {H : Type} (g : Registry.State H) (timerId : string) :
  Registry.handlers (Registry.unregisterTimer g timerId) = delete timerId (Registry.handlers g).
Proof.
  unfold Registry.unregisterTimer. simpl.
  destruct (Registry.handlers g !! timerId) eqn:E; [reflexivity|].
  symmetry. now apply delete_id.
Qed.

Lemma unregisterTimer_timers {H : Type} (g : Registry.State H) (timerId : string) (t : Timer) :
  t ∈ Registry.timers (Registry.unregisterTimer g timerId)
  <-> t ∈ Registry.timers g /\ id t ≠ timerId.
Proof.
  unfold Registry.unregisterTimer. simpl.
  rewrite list_elem_of_In, filter_In, <- list_elem_of_In, negb_true_iff.
  now rewrite String.eqb_neq.
Qed.

Lemma unregisterTimer_consistent {H : Type} (g : Registry.State H) (timerId : string) :
  registryConsistent g -> registryConsistent (Registry.unregisterTimer g timerId).
Proof.
  intros Hc other. rewrite unregisterTimer_handlers.
  destruct (decide (timerId = other)) as [<-|Hne].
  - rewrite lookup_delete_eq. split; [intros [? E]; discriminate|].
    intros (t & Hin & E). apply unregisterTimer_timers in Hin as [_ Hin]. contradiction.
  - rewrite lookup_delete_ne by exact Hne. rewrite (Hc other). split.
    + intros (t & Hin & E). exists t. split; [|exact E].
      apply unregisterTimer_timers. split; [exact Hin | congruence].
    + intros (t & Hin & E). apply unregisterTimer_timers in Hin as [Hin _]. now exists t.
Qed.

(** X27.  The engine's registry.  After any sequence of [registerTimer] and
    [unregisterTimer] calls on a new engine, an id has a handler exactly
    when a timer with that id is in the timers list.  Registering again
    under an id replaces the handler the getters use; unregistering an id
    removes its handler and every timer entry with that id, so the getters
    fall back to their defaults, and leaves all other ids as they were. *)
Theorem registry_consistent :
  forall (H : Type),
    (forall ops : list (Registry.Op H),
        registryConsistent (fold_left Registry.apply ops Registry.init))
    /\ (forall (g : Registry.State H) (t : Timer) (h : H) (A : Type) (f : H -> A) (d : A),
           Registry.withHandler (Registry.registerTimer g t h) (id t) f d = f h)
    /\ (forall (g : Registry.State H) (timerId : string) (A : Type) (f : H -> A) (d : A),
           Registry.withHandler (Registry.unregisterTimer g timerId) timerId f d = d
           /\ (forall t, t ∈ Registry.timers (Registry.unregisterTimer g timerId) ->
                         id t ≠ timerId))
    /\ (forall (g : Registry.State H) (timerId other : string),
           other ≠ timerId ->
           Registry.handlers (Registry.unregisterTimer g timerId) !! other
           = Registry.handlers g !! other
           /\ (forall t, id t = other ->
                         t ∈ Registry.timers (Registry.unregisterTimer g timerId)
                         <-> t ∈ Registry.timers g)).
Proof.
  intros H. split; [|split; [|split]].
  - intros ops.
    assert (Hgen : forall g : Registry.State H,
               registryConsistent g -> registryConsistent (fold_left Registry.apply ops g)).
    { induction ops as [|op ops IH]; intros g Hg; [exact Hg|].
      simpl. apply IH. destruct op as [t h|timerId]; simpl.
      - now apply registerTimer_consistent.
      - now apply unregisterTimer_consistent. }
    apply Hgen. intros timerId. unfold Registry.init. simpl. rewrite lookup_empty. split.
    + intros [? E]. discriminate.
    + intros (t & Hin & _). now apply elem_of_nil in Hin.
  - intros g t h A f d. unfold Registry.withHandler, Registry.registerTimer. simpl.
    now rewrite lookup_insert_eq.
  - intros g timerId A f d. split.
    + unfold Registry.withHandler. rewrite unregisterTimer_handlers.
      now rewrite lookup_delete_eq.
    + intros t Hin. now apply unregisterTimer_timers in Hin.
  - intros g timerId other Hne. split.
    + rewrite unregisterTimer_handlers. now rewrite lookup_delete_ne by congruence.
    + intros t E. rewrite unregisterTimer_timers. split; [tauto|].
      intros Hin. split; [exact Hin | congruence].
Qed.

Lemma registry_consistent_witness :
  let t := mkTimer "t1" None None None None AttrMissing None None true
                   AttrMissing AttrMissing in
  let g := Registry.registerTimer (Registry.registerTimer Registry.init t 1%Z) t 2%Z in
  Registry.handlers (Registry.unregisterTimer g "t1") !! "t2"%string
  = Registry.handlers g !! "t2"%string.
Proof.
  intros t g.
  apply (proj2 (proj2 (proj2 (registry_consistent Z))) g "t1"%string "t2"%string).
  discriminate.
Defined.
